(** * automemebot: queue, circuit breaker, rate limiter, recovery, posting pipeline

    A shallow embedding of the scheduling-and-delivery control plane of the
    bot (src/modules/database, scheduler, error_handler, publisher) and the
    properties stated about it.

    Conventions of the embedding
    - Python [int] is [Z]; a [datetime] is a [Z] count of microseconds, a
      [timedelta] a [Z] number of microseconds, so that
      [(a - b).total_seconds() >= n] reads [n * 1000000 <= a - b].
    - Python [float] values (queue priorities, usage percentages) are the
      rationals [Q] they denote; the thresholds the code compares them with
      (70, 90) are reached at the same request counts in both readings for
      the limits the code configures.
    - a [dict] keyed by service or component name is a [gmap string _].
    - every [datetime.utcnow()] of the source is an explicit argument.
    - what a collaborator answers (renderer, publisher, recovery action,
      health probe) is an explicit [Py.outcome]; a database commit of the
      posting pipeline that may fail carries the exception it then raises
      as an [option Py.exn].
    - [async def] bodies are computations in the monad [Py.M]: they thread
      the mutable object, append to the trace of observable effects
      (logger calls, sleeps, committed status writes) and end with a value
      or a raised [Exception]. *)

From Stdlib Require Import ZArith QArith Qround List String Lia.
From stdpp Require Import base tactics option list gmap strings pretty.

Local Open Scope string_scope.
Local Open Scope list_scope.
Local Open Scope Z_scope.

(** ** Item status (models.py, ContentQueue.status) *)

Inductive Status := pending | published | rejected | expired.

Global Instance Status_eq_dec : EqDecision Status.
Proof. solve_decision. Defined.

(** ** Python effects *)

Module Py.

(** An instance of [Exception] with its message ([str(e)]). *)
Inductive exn := Exception (msg : string).

Definition str (e : exn) : string := let 'Exception m := e in m.

(** The calls of the TelegramLogger API used by the modelled classes. *)
Inductive log_call :=
| log_system_event (event_type details : string)
| log_successful_post (post_id : Z) (content_type preview channel_link : string)
| log_warning (warning_type details : string)
| log_error (error_type : string) (error : exn)
| log_critical (critical_type details : string)
| log_info (title details : string).

Inductive event :=
| Logger (c : log_call)
| Sleep (seconds : Z)
| StatusCommit (item_id : Z) (st : Status).

Inductive outcome (A : Type) :=
| Return (a : A)
| Raise (e : exn).
Arguments Return {A} a.
Arguments Raise {A} e.

(** A computation over a mutable object of type [S]. *)
Definition M (S A : Type) : Type :=
  S -> list event -> outcome A * S * list event.

Definition ret {S A} (a : A) : M S A := fun s tr => (Return a, s, tr).

Definition raise {S A} (e : exn) : M S A := fun s tr => (Raise e, s, tr).

Definition bind {S A B} (c : M S A) (k : A -> M S B) : M S B :=
  fun s tr =>
    match c s tr with
    | (Return a, s', tr') => k a s' tr'
    | (Raise e, s', tr') => (Raise e, s', tr')
    end.

(** [try: c  except Exception as e: h e] *)
Definition try_except {S A} (c : M S A) (h : exn -> M S A) : M S A :=
  fun s tr =>
    match c s tr with
    | (Return a, s', tr') => (Return a, s', tr')
    | (Raise e, s', tr') => h e s' tr'
    end.

Definition get {S} : M S S := fun s tr => (Return s, s, tr).
Definition put {S} (s : S) : M S unit := fun _ tr => (Return tt, s, tr).
Definition modify {S} (f : S -> S) : M S unit := fun s tr => (Return tt, f s, tr).
Definition emit {S} (e : event) : M S unit := fun s tr => (Return tt, s, tr ++ [e]).

(** Awaiting a collaborator whose result is already determined. *)
Definition await {S A} (o : outcome A) : M S A := fun s tr => (o, s, tr).

(** [await asyncio.sleep(n)] *)
Definition sleep {S} (n : Z) : M S unit := emit (Sleep n).

(** The logger handed to a constructor; [None] is Python's [None]. *)
Inductive TelegramLogger := telegram_logger.

(** [if self.logger: await self.logger.<call>] *)
Definition if_logger {S} (lg : option TelegramLogger) (c : log_call) : M S unit :=
  match lg with
  | Some _ => emit (Logger c)
  | None => ret tt
  end.

(** What [if_logger] appends to the trace. *)
Definition logged (lg : option TelegramLogger) (c : log_call) : list event :=
  match lg with
  | Some _ => [Logger c]
  | None => []
  end.

(** The suspensions recorded in a trace, in order. *)
Definition sleeps (tr : list event) : list Z :=
  List.flat_map (fun ev => match ev with Sleep n => [n] | _ => [] end) tr.

(** The top-severity reports recorded in a trace, in order. *)
Definition criticals (tr : list event) : list (string * string) :=
  List.flat_map (fun ev => match ev with
                           | Logger (log_critical ty details) => [(ty, details)]
                           | _ => []
                           end) tr.

(** The newline of the f-strings. *)
Definition nl : string := String (Ascii.ascii_of_nat 10) EmptyString.

(** Truth value of a [str] and of an [int | None]. *)
Definition truthy_str (s : string) : bool :=
  match s with EmptyString => false | _ => true end.

Definition truthy_int (o : option Z) : bool :=
  match o with Some n => negb (n =? 0) | None => false end.

End Py.

Notation "x <- c ;; k" := (Py.bind c (fun x => k))
  (at level 100, c at next level, right associativity).
Notation "c ;;; k" := (Py.bind c (fun _ => k))
  (at level 100, right associativity).

(** Microseconds in a [timedelta]. *)
Definition seconds (n : Z) : Z := n * 1000000.
Definition minutes (n : Z) : Z := seconds (n * 60).
Definition hours (n : Z) : Z := seconds (n * 3600).

(** ** models.py *)

(** The [meme_data] JSON object: the keys the pipeline reads. A key that is
    absent is [None]. *)
Module Meme.
Record t := mk {
  type : option string;
  text : option string;
  image_path : option string;
  caption : option string;
  text_top : option string;
  text_bottom : option string;
  panels : option (list string);
  trend_topic : option string;
  quality_score : option Q;
  humor_score : option Q;
  relevance_score : option Q
}.
End Meme.

Module ContentQueue.
Record t := mk {
  id : Z;
  meme_data : Meme.t;
  priority : Q;
  created_at : Z;
  scheduled_at : option Z;
  status : Status
}.

Definition set_status (st : Status) (r : t) : t :=
  mk (id r) (meme_data r) (priority r) (created_at r) (scheduled_at r) st.

Definition is_pending (r : t) : bool := bool_decide (status r = pending).
End ContentQueue.

Module Post.
Record t := mk {
  id : Z;
  telegram_message_id : option Z;
  content : string;
  content_type : string;
  template_used : option string;
  trend_topic : option string;
  image_path : option string;
  published_at : option Z;
  quality_score : option Q;
  humor_score : option Q;
  relevance_score : option Q
}.
End Post.

(** The two tables the modelled code reads and writes. A table is the list
    of its rows in the order in which the engine yields them to a query; SQL
    fixes no relation between that order and any column. The [_seq] fields
    are the autoincrement counters of the primary keys. *)
Record Database := mkDatabase {
  content_queue : list ContentQueue.t;
  content_queue_seq : Z;
  posts : list Post.t;
  posts_seq : Z
}.

(** ** database/operations.py *)

Module DatabaseManager.

(** [.where(ContentQueue.status == "pending")] *)
Definition where_pending (rows : list ContentQueue.t) : list ContentQueue.t :=
  List.filter ContentQueue.is_pending rows.

(** [.order_by(desc(ContentQueue.priority))]: the rows by descending
    priority; rows of equal priority stay in the order the engine yielded
    them. *)
Fixpoint insert_desc (x : ContentQueue.t) (l : list ContentQueue.t) : list ContentQueue.t :=
  match l with
  | [] => [x]
  | y :: l' =>
      if Qle_bool (ContentQueue.priority y) (ContentQueue.priority x)
      then x :: y :: l'
      else y :: insert_desc x l'
  end.

Definition order_by_desc_priority (rows : list ContentQueue.t) : list ContentQueue.t :=
  List.fold_right insert_desc [] rows.

(** [.limit(n)] *)
Definition limit (n : nat) (rows : list ContentQueue.t) : list ContentQueue.t :=
  List.firstn n rows.

(** [result.scalar_one_or_none()] raises when more than one row is left. *)
Definition scalar_one_or_none (rows : list ContentQueue.t) : Py.outcome (option ContentQueue.t) :=
  match rows with
  | [] => Py.Return None
  | [r] => Py.Return (Some r)
  | _ => Py.Raise (Py.Exception "MultipleResultsFound")
  end.

Definition next_from_queue (db : Database) : Py.outcome (option ContentQueue.t) :=
  scalar_one_or_none
    (limit 1 (order_by_desc_priority (where_pending (content_queue db)))).

Definition get_next_from_queue : Py.M Database (option ContentQueue.t) :=
  db <- Py.get ;; Py.await (next_from_queue db).

(** [select(func.count(ContentQueue.id)).where(status == "pending")] *)
Definition queue_size (db : Database) : Z :=
  Z.of_nat (length (where_pending (content_queue db))).

Definition get_queue_size : Py.M Database Z :=
  db <- Py.get ;; Py.ret (queue_size db).

(** [ContentQueue(meme_data=..., priority=...)] with the column defaults:
    [id] from the sequence, [created_at = now()], [status = "pending"]. *)
Definition new_item (db : Database) (meme_data : Meme.t) (priority : Q) (now : Z)
  : ContentQueue.t :=
  ContentQueue.mk (content_queue_seq db) meme_data priority now None pending.

Definition insert_item (item : ContentQueue.t) (db : Database) : Database :=
  mkDatabase (content_queue db ++ [item]) (content_queue_seq db + 1)
             (posts db) (posts_seq db).

Definition add_to_queue (meme_data : Meme.t) (priority : Q) (now : Z)
  : Py.M Database ContentQueue.t :=
  db <- Py.get ;;
  let item := new_item db meme_data priority now in
  Py.put (insert_item item db) ;;;
  Py.ret item.

(** [update(ContentQueue).where(ContentQueue.id == item_id).values(status=status)] *)
Definition update_status_row (item_id : Z) (st : Status) (r : ContentQueue.t) : ContentQueue.t :=
  if ContentQueue.id r =? item_id then ContentQueue.set_status st r else r.

Definition set_item_status (item_id : Z) (st : Status) (db : Database) : Database :=
  mkDatabase (List.map (update_status_row item_id st) (content_queue db))
             (content_queue_seq db) (posts db) (posts_seq db).

(** The write is one [execute] and one [commit] in a session of its own.
    The commit may fail; [failure] is the exception it then raises, and the
    session is left without having written anything. *)
Definition update_queue_item_status (failure : option Py.exn) (item_id : Z) (st : Status)
  : Py.M Database unit :=
  match failure with
  | Some e => Py.raise e
  | None =>
      Py.modify (set_item_status item_id st) ;;;
      Py.emit (Py.StatusCommit item_id st)
  end.

(** [expire_old_queue_items]: the rows matched by
    [status == "pending" and created_at < cutoff]. *)
Definition is_stale (cutoff : Z) (r : ContentQueue.t) : bool :=
  ContentQueue.is_pending r && (ContentQueue.created_at r <? cutoff).

Definition expire_row (cutoff : Z) (r : ContentQueue.t) : ContentQueue.t :=
  if is_stale cutoff r then ContentQueue.set_status expired r else r.

Definition expire_rows (cutoff : Z) (db : Database) : Database :=
  mkDatabase (List.map (expire_row cutoff) (content_queue db))
             (content_queue_seq db) (posts db) (posts_seq db).

Definition rowcount (cutoff : Z) (db : Database) : Z :=
  Z.of_nat (length (List.filter (is_stale cutoff) (content_queue db))).

Definition expire_old_queue_items (now : Z) (max_age_hours : Z) : Py.M Database Z :=
  let cutoff := now - hours max_age_hours in
  db <- Py.get ;;
  Py.put (expire_rows cutoff db) ;;;
  Py.ret (rowcount cutoff db).

(** [save_post]: the row gets its [id] from the sequence. The
    commit may fail; [failure] is the exception it then raises. *)
Definition insert_post (p : Post.t) (db : Database) : Database :=
  mkDatabase (content_queue db) (content_queue_seq db)
             (posts db ++ [p]) (posts_seq db + 1).

Definition save_post (failure : option Py.exn) (mk_post : Z -> Post.t)
  : Py.M Database Post.t :=
  match failure with
  | Some e => Py.raise e
  | None =>
      db <- Py.get ;;
      let post := mk_post (posts_seq db) in
      Py.put (insert_post post db) ;;;
      Py.ret post
  end.

(** [clear_queue]: every pending row becomes expired. *)
Definition clear_row (r : ContentQueue.t) : ContentQueue.t :=
  if ContentQueue.is_pending r then ContentQueue.set_status expired r else r.

Definition clear_rows (db : Database) : Database :=
  mkDatabase (List.map clear_row (content_queue db))
             (content_queue_seq db) (posts db) (posts_seq db).

Definition clear_queue : Py.M Database unit := Py.modify clear_rows.

End DatabaseManager.

(** The dict returned by [QueueManager.get_status]. *)
Module QueueStatus.
Record t := mk {
  size : Z;
  min : Z;
  max : Z;
  needs_refill : bool;
  is_full : bool;
  health : string
}.
End QueueStatus.

(** ** scheduler/queue_manager.py *)

Module QueueManager.

Record t := mk {
  logger : option Py.TelegramLogger;
  min_size : Z;
  max_size : Z
}.

Definition get_size : Py.M Database Z := DatabaseManager.get_queue_size.

Definition needs_refill (self : t) : Py.M Database bool :=
  size <- get_size ;; Py.ret (size <? min_size self).

Definition is_full (self : t) : Py.M Database bool :=
  size <- get_size ;; Py.ret (max_size self <=? size).

Definition add_meme (self : t) (meme_data : Meme.t) (priority : Q) (now : Z)
  : Py.M Database bool :=
  full <- is_full self ;;
  if full : bool then
    Py.if_logger (logger self)
      (Py.log_warning "Queue Full"
         ("Queue at max capacity (" +:+ pretty (max_size self) +:+ "). Meme not added.")) ;;;
    Py.ret false
  else
    DatabaseManager.add_to_queue meme_data priority now ;;;
    Py.ret true.

(** A caller issuing [add_meme] calls one after the other; each call comes
    with the clock reading of its insert. *)
Fixpoint add_memes (self : t) (calls : list (Meme.t * Q * Z)) : Py.M Database (list bool) :=
  match calls with
  | [] => Py.ret []
  | (meme_data, priority, now) :: rest =>
      b <- add_meme self meme_data priority now ;;
      bs <- add_memes self rest ;;
      Py.ret (b :: bs)
  end.

Definition cleanup_expired (self : t) (now : Z) : Py.M Database Z :=
  count <- DatabaseManager.expire_old_queue_items now 48 ;;
  (if 0 <? count
   then Py.if_logger (logger self)
          (Py.log_system_event "Queue Cleanup"
             ("Expired " +:+ pretty count +:+ " old memes from queue"))
   else Py.ret tt) ;;;
  Py.ret count.

Definition get_status (self : t) : Py.M Database QueueStatus.t :=
  size <- get_size ;;
  Py.ret (QueueStatus.mk size (min_size self) (max_size self)
            (size <? min_size self)
            (max_size self <=? size)
            (if (min_size self <=? size) && (size <=? max_size self)
             then "ok" else "warning")).

End QueueManager.

(** ** error_handler/fallback_strategies.py *)

Module APIFallbackStrategy.

Record t := mk {
  logger : option Py.TelegramLogger;
  _failure_counts : gmap string Z;
  _last_failure : gmap string Z;
  _circuit_open : gmap string Z;
  circuit_breaker_threshold : Z;
  circuit_breaker_timeout : Z
}.

Definition init (logger : option Py.TelegramLogger) : t :=
  mk logger ∅ ∅ ∅ 5 300.

Definition get_failure_count (self : t) (service : string) : Z :=
  default 0 (_failure_counts self !! service).

(** [t_fail] and [t_open] are the two clock readings of the body. *)
Definition record_failure (service : string) (t_fail t_open : Z) (self : t) : t :=
  let count := get_failure_count self service + 1 in
  mk (logger self)
     (<[service := count]> (_failure_counts self))
     (<[service := t_fail]> (_last_failure self))
     (if circuit_breaker_threshold self <=? count
      then <[service := t_open]> (_circuit_open self)
      else _circuit_open self)
     (circuit_breaker_threshold self)
     (circuit_breaker_timeout self).

(** Consecutive [record_failure] calls for one service, each with its two
    clock readings. *)
Fixpoint record_failures (service : string) (ts : list (Z * Z)) (self : t) : t :=
  match ts with
  | [] => self
  | (t_fail, t_open) :: ts' =>
      record_failures service ts' (record_failure service t_fail t_open self)
  end.

Definition record_success (service : string) (self : t) : t :=
  mk (logger self)
     (<[service := 0]> (_failure_counts self))
     (_last_failure self)
     (delete service (_circuit_open self))
     (circuit_breaker_threshold self)
     (circuit_breaker_timeout self).

Definition is_available (self : t) (service : string) (now : Z) : bool :=
  match _circuit_open self !! service with
  | None => true
  | Some opened => seconds (circuit_breaker_timeout self) <=? now - opened
  end.

Section Execute.
Context {A : Type}.

(** An awaitable callable is given by what awaiting it yields. *)
Definition callable : Type := Py.outcome A.


(** The [if self.is_available(...)] block; [Some result] is the
    [return result] of the source, [None] falls through. *)
Definition try_primary (primary_func : callable) (service_name : string)
    (now t_fail t_open : Z) : Py.M t (option A) :=
  self <- Py.get ;;
  if is_available self service_name now then
    Py.try_except
      (result <- Py.await primary_func ;;
       Py.modify (record_success service_name) ;;;
       Py.ret (Some result))
      (fun e =>
         Py.modify (record_failure service_name t_fail t_open) ;;;
         Py.if_logger (logger self)
           (Py.log_warning (service_name +:+ " Primary Failed")
              ("Error: " +:+ Py.str e +:+ Py.nl +:+ "Trying fallbacks...")) ;;;
         Py.ret None)
  else Py.ret None.

(** [for i, fallback in enumerate(fallback_funcs)] from index [i]. *)
Fixpoint try_fallbacks (service_name : string) (i : Z) (fallback_funcs : list callable)
  : Py.M t (option A) :=
  match fallback_funcs with
  | [] => Py.ret None
  | fallback :: rest =>
      self <- Py.get ;;
      r <- Py.try_except
             (result <- Py.await fallback ;;
              Py.if_logger (logger self)
                (Py.log_info "Fallback Successful"
                   ("Service: " +:+ service_name +:+ Py.nl +:+
                    "Fallback #" +:+ pretty (i + 1) +:+ " worked")) ;;;
              Py.ret (Some result))
             (fun e =>
                Py.if_logger (logger self)
                  (Py.log_warning ("Fallback #" +:+ pretty (i + 1) +:+ " Failed")
                     ("Service: " +:+ service_name +:+ Py.nl +:+ "Error: " +:+ Py.str e)) ;;;
                Py.ret None) ;;
      match r with
      | Some result => Py.ret (Some result)
      | None => try_fallbacks service_name (i + 1) rest
      end
  end.

(** The details of the "All Fallbacks Failed" report. *)
Definition all_failed_details (service_name : string) (n_fallbacks count : Z) : string :=
  "Service: " +:+ service_name +:+ Py.nl +:+
  "Primary + " +:+ pretty n_fallbacks +:+ " fallbacks all failed." +:+ Py.nl +:+
  "Total failures: " +:+ pretty count.

Definition execute_with_fallback (primary_func : callable) (fallback_funcs : list callable)
    (service_name : string) (now t_fail t_open : Z) : Py.M t (option A) :=
  r <- try_primary primary_func service_name now t_fail t_open ;;
  match r with
  | Some result => Py.ret (Some result)
  | None =>
      r' <- try_fallbacks service_name 0 fallback_funcs ;;
      match r' with
      | Some result => Py.ret (Some result)
      | None =>
          self <- Py.get ;;
          Py.if_logger (logger self)
            (Py.log_critical "All Fallbacks Failed"
               (all_failed_details service_name
                  (Z.of_nat (length fallback_funcs))
                  (get_failure_count self service_name))) ;;;
          Py.ret None
      end
  end.
End Execute.

(** The result of the first callable of a list that returns, if any. *)
Fixpoint first_result {A : Type} (fs : list (Py.outcome A)) : option A :=
  match fs with
  | [] => None
  | Py.Return v :: _ => Some v
  | Py.Raise _ :: rest => first_result rest
  end.

(** The strategy objects the program can be in: the constructor's, and what
    [record_failure] and [record_success] make of them. *)
Inductive reachable : t -> Prop :=
| reach_init lg : reachable (init lg)
| reach_failure self service t_fail t_open :
    reachable self -> reachable (record_failure service t_fail t_open self)
| reach_success self service :
    reachable self -> reachable (record_success service self).

End APIFallbackStrategy.

Module RateLimitHandler.

(** One entry of [_limits]; a key the dict literal leaves out is [None]. *)
Record Limit := mkLimit {
  rpm : option Z;
  rpd : option Z;
  window_minutes : option Z
}.

Record Usage := mkUsage {
  requests : list Z;
  daily_count : Z;
  daily_reset : Z
}.

Record t := mk {
  logger : option Py.TelegramLogger;
  _usage : gmap string Usage;
  _limits : gmap string Limit
}.

Definition default_limits : gmap string Limit :=
  <["groq" := mkLimit (Some 30) (Some 14400) (Some 1)]>
  (<["telegram" := mkLimit (Some 30) None (Some 1)]>
  (<["huggingface" := mkLimit (Some 10) None (Some 1)]> ∅)).

Definition init (logger : option Py.TelegramLogger) : t :=
  mk logger ∅ default_limits.

Definition record_request (service : string) (now : Z) (self : t) : t :=
  let entry := default (mkUsage [] 0 now) (_usage self !! service) in
  let requests1 := requests entry ++ [now] in
  let daily_count1 := daily_count entry + 1 in
  let rolled := seconds 86400 <? now - daily_reset entry in
  let cutoff := now - minutes 5 in
  mk (logger self)
     (<[service := mkUsage (List.filter (fun r => cutoff <? r) requests1)
                           (if rolled then 1 else daily_count1)
                           (if rolled then now else daily_reset entry)]>
        (_usage self))
     (_limits self).

(** Requests of one service recorded at the given clock readings, in order. *)
Fixpoint record_requests (service : string) (times : list Z) (self : t) : t :=
  match times with
  | [] => self
  | now :: times' => record_requests service times' (record_request service now self)
  end.

(** [[r for r in entry["requests"] if r > cutoff]] *)
Definition recent (lim : Limit) (entry : Usage) (now : Z) : list Z :=
  let cutoff := now - minutes (default 1 (window_minutes lim)) in
  List.filter (fun r => cutoff <? r) (requests entry).

(** [(len(recent) / rpm) * 100]; the division raises on [rpm = 0]. *)
Definition get_usage_percentage (self : t) (service : string) (now : Z) : Py.outcome Q :=
  match _limits self !! service, _usage self !! service with
  | Some lim, Some entry =>
      let rpm := default 30 (rpm lim) in
      if rpm =? 0 then Py.Raise (Py.Exception "division by zero")
      else Py.Return
             ((inject_Z (Z.of_nat (length (recent lim entry now))) / inject_Z rpm)
              * inject_Z 100)%Q
  | _, _ => Py.Return 0%Q
  end.

(** [f"{x:.0f}"]: the nearest integer, halves to the even one. *)
Definition round_half_even (x : Q) : Z :=
  let f := Qfloor x in
  match ((x - inject_Z f) ?= (1 # 2))%Q with
  | Lt => f
  | Gt => f + 1
  | Eq => if Z.even f then f else f + 1
  end.

Definition format_0f (x : Q) : string := pretty (round_half_even x).

Definition wait_if_needed (service : string) (now : Z) : Py.M t unit :=
  self <- Py.get ;;
  usage_pct <- Py.await (get_usage_percentage self service now) ;;
  if Qle_bool (inject_Z 90) usage_pct then
    let wait_time := 60 in
    Py.if_logger (logger self)
      (Py.log_warning "Rate Limit Throttling"
         ("Service: " +:+ service +:+ Py.nl +:+
          "Usage: " +:+ format_0f usage_pct +:+ "%" +:+ Py.nl +:+
          "Waiting " +:+ pretty wait_time +:+ "s...")) ;;;
    Py.sleep wait_time
  else if Qle_bool (inject_Z 70) usage_pct then
    Py.sleep 5
  else Py.ret tt.

(** The request times retained for a service; none without an entry. *)
Definition retained (self : t) (service : string) : list Z :=
  match _usage self !! service with
  | Some entry => requests entry
  | None => []
  end.

(** The events one [wait_if_needed] call appends for a usage percentage. *)
Definition throttle_events (lg : option Py.TelegramLogger) (service : string) (usage_pct : Q)
  : list Py.event :=
  if Qle_bool (inject_Z 90) usage_pct then
    match lg with
    | Some _ =>
        [Py.Logger (Py.log_warning "Rate Limit Throttling"
           ("Service: " +:+ service +:+ Py.nl +:+
            "Usage: " +:+ format_0f usage_pct +:+ "%" +:+ Py.nl +:+
            "Waiting " +:+ pretty 60 +:+ "s..."))]
    | None => []
    end ++ [Py.Sleep 60]
  else if Qle_bool (inject_Z 70) usage_pct then [Py.Sleep 5]
  else [].

(** The handler states the program can be in: the constructor's, and what
    [record_request] makes of them. *)
Inductive reachable : t -> Prop :=
| reach_init lg : reachable (init lg)
| reach_record self service now :
    reachable self -> reachable (record_request service now self).

End RateLimitHandler.

(** ** error_handler/recovery.py *)

Module RecoveryManager.

Record t := mk {
  logger : option Py.TelegramLogger;
  _consecutive_failures : gmap string Z;
  _recovery_actions : gmap string (Py.outcome unit);
  _max_failures : Z
}.

Definition init (logger : option Py.TelegramLogger) : t := mk logger ∅ ∅ 5.

(** A recovery function is given by what awaiting it yields. *)
Definition register_recovery (component : string) (recovery_func : Py.outcome unit)
    (self : t) : t :=
  mk (logger self) (_consecutive_failures self)
     (<[component := recovery_func]> (_recovery_actions self))
     (_max_failures self).

Definition get_failure_count (self : t) (component : string) : Z :=
  default 0 (_consecutive_failures self !! component).

Definition record_failure (component : string) (self : t) : t :=
  mk (logger self)
     (<[component := get_failure_count self component + 1]> (_consecutive_failures self))
     (_recovery_actions self) (_max_failures self).

Definition record_success (component : string) (self : t) : t :=
  mk (logger self)
     (<[component := 0]> (_consecutive_failures self))
     (_recovery_actions self) (_max_failures self).

(** Consecutive [record_failure] calls for one component. *)
Definition record_failures (component : string) (n : nat) (self : t) : t :=
  Nat.iter n (record_failure component) self.

Definition attempt_recovery (component : string) : Py.M t bool :=
  self <- Py.get ;;
  let failures := get_failure_count self component in
  if failures <? _max_failures self then Py.ret true
  else
    Py.if_logger (logger self)
      (Py.log_warning "Recovery Triggered"
         ("Component: " +:+ component +:+ Py.nl +:+
          "Consecutive failures: " +:+ pretty failures +:+ Py.nl +:+
          "Attempting recovery...")) ;;;
    match _recovery_actions self !! component with
    | None =>
        Py.if_logger (logger self)
          (Py.log_critical "No Recovery Available"
             ("Component: " +:+ component +:+ Py.nl +:+
              "No recovery function registered." +:+ Py.nl +:+
              "Manual intervention required.")) ;;;
        Py.ret false
    | Some recovery_func =>
        Py.try_except
          (Py.await recovery_func ;;;
           Py.modify (record_success component) ;;;
           Py.if_logger (logger self)
             (Py.log_info "Recovery Successful"
                ("Component: " +:+ component +:+ " recovered")) ;;;
           Py.ret true)
          (fun e =>
             Py.if_logger (logger self)
               (Py.log_critical "Recovery Failed"
                  ("Component: " +:+ component +:+ Py.nl +:+
                   "Error: " +:+ Py.str e +:+ Py.nl +:+
                   "Manual intervention required.")) ;;;
             Py.ret false)
    end.

End RecoveryManager.

(** ** publisher/post_logic.py *)

Module PostingPipeline.

(** What the collaborators of one [publish_next] call answer: the
    renderer ([visual_gen.generate]), the publisher ([publish_text],
    [publish_image], [get_post_link]) and whether the commits of the
    database writes fail. One call makes at most one status write in its
    [try] body and at most one in its [except] handler, and at most one
    [db.save_post]; each has a failure of its own. *)
Record Collaborators := mkCollaborators {
  generate : Meme.t -> Py.outcome (option string);
  publish_text : string -> Py.outcome (option Z);
  publish_image : string -> string -> Py.outcome (option Z);
  get_post_link : Z -> string;
  save_post_failure : option Py.exn;
  status_write_failure : option Py.exn;
  handler_write_failure : option Py.exn
}.

Record t := mk {
  collaborators : Collaborators;
  logger : option Py.TelegramLogger
}.

(** ["sep".join(l)] *)
Fixpoint join (sep : string) (l : list string) : string :=
  match l with
  | [] => ""
  | [s] => s
  | s :: l' => s +:+ sep +:+ join sep l'
  end.

Definition _get_content_preview (meme : Meme.t) : string :=
  let mtype := default "text_only" (Meme.type meme) in
  if String.eqb mtype "text_only" then
    String.substring 0 300 (default "" (Meme.text meme))
  else if String.eqb mtype "drake" then
    default "" (Meme.text_top meme) +:+ " / " +:+ default "" (Meme.text_bottom meme)
  else
    join " | " (List.firstn 4 (default [] (Meme.panels meme))).

Definition emojis : list string := ["🧠"; "💡"; "✨"; "🚀"].

(** [[f"{emojis[i]} {p}" for i, p in enumerate(panels[:4])]] *)
Definition brain_lines (panels : list string) : list string :=
  List.map (fun ep => fst ep +:+ " " +:+ snd ep)
           (List.combine emojis (List.firstn 4 panels)).

Definition _build_fallback_text (meme : Meme.t) : option string :=
  let mtype := default "" (Meme.type meme) in
  if String.eqb mtype "drake" then
    let top := default "" (Meme.text_top meme) in
    let bottom := default "" (Meme.text_bottom meme) in
    if Py.truthy_str top && Py.truthy_str bottom
    then Some ("❌ " +:+ top +:+ Py.nl +:+ "✅ " +:+ bottom)
    else None
  else if String.eqb mtype "expanding_brain" then
    Some (join Py.nl (brain_lines (default [] (Meme.panels meme))))
  else if String.eqb mtype "two_buttons" then
    match default [] (Meme.panels meme) with
    | p0 :: p1 :: _ =>
        Some ("🔴 " +:+ p0 +:+ Py.nl +:+ "🔵 " +:+ p1 +:+ Py.nl +:+ Py.nl +:+ "😰 ...")
    | _ => None
    end
  else None.

Definition truthy_opt_str (o : option string) : bool :=
  match o with Some s => Py.truthy_str s | None => false end.

(** The image branch once [image_path] is settled: publish the image, or
    fall back to the text built from the meme; [None] when neither is
    there. *)
Definition publish_visual (c : Collaborators) (meme : Meme.t) (image_path : option string)
  : Py.M Database (option Z) :=
  if truthy_opt_str image_path then
    let caption := default "" (Meme.caption meme) in
    Py.await (publish_image c (default "" image_path) caption)
  else
    let fallback_text := _build_fallback_text meme in
    if truthy_opt_str fallback_text then
      Py.await (publish_text c (default "" fallback_text))
    else Py.ret None.

(** The first half of the [try] body: [inl b] is a [return b] of the
    source, [inr message_id] goes on to [if message_id:]. *)
Definition deliver (self : t) (item : ContentQueue.t) : Py.M Database (bool + option Z) :=
  let c := collaborators self in
  let meme := ContentQueue.meme_data item in
  let meme_type := default "text_only" (Meme.type meme) in
  if String.eqb meme_type "text_only" then
    let text := default "" (Meme.text meme) in
    if negb (Py.truthy_str text) then
      DatabaseManager.update_queue_item_status (status_write_failure c)
        (ContentQueue.id item) rejected ;;;
      Py.ret (inl false)
    else
      message_id <- Py.await (publish_text c text) ;;
      Py.ret (inr message_id)
  else
    image_path <- (if truthy_opt_str (Meme.image_path meme)
                   then Py.ret (Meme.image_path meme)
                   else Py.await (generate c meme)) ;;
    message_id <- publish_visual c meme image_path ;;
    Py.ret (inr message_id).

(** The [if message_id: ... else: ...] half of the [try] body. *)
Definition record_delivery (self : t) (item : ContentQueue.t) (now : Z)
    (message_id : option Z) : Py.M Database bool :=
  let c := collaborators self in
  let meme := ContentQueue.meme_data item in
  let meme_type := default "text_only" (Meme.type meme) in
  if Py.truthy_int message_id then
    DatabaseManager.update_queue_item_status (status_write_failure c)
      (ContentQueue.id item) published ;;;
    post <- DatabaseManager.save_post (save_post_failure c)
              (fun post_id =>
                 Post.mk post_id message_id
                   (_get_content_preview meme)
                   meme_type
                   (if String.eqb meme_type "text_only" then None else Some meme_type)
                   (Some (default "" (Meme.trend_topic meme)))
                   (Meme.image_path meme)
                   (Some now)
                   (Meme.quality_score meme)
                   (Meme.humor_score meme)
                   (Meme.relevance_score meme)) ;;
    let link := get_post_link c (default 0 message_id) in
    Py.if_logger (logger self)
      (Py.log_successful_post (Post.id post) meme_type
         (_get_content_preview meme) link) ;;;
    Py.ret true
  else
    DatabaseManager.update_queue_item_status (status_write_failure c)
      (ContentQueue.id item) rejected ;;;
    Py.ret false.

(** The [except Exception as e:] handler. Its status write is not guarded:
    an exception it raises leaves [publish_next]. *)
Definition on_exception (self : t) (item : ContentQueue.t) (e : Py.exn)
  : Py.M Database bool :=
  DatabaseManager.update_queue_item_status (handler_write_failure (collaborators self))
    (ContentQueue.id item) rejected ;;;
  Py.if_logger (logger self) (Py.log_error "Publishing Pipeline Failed" e) ;;;
  Py.ret false.

(** The body of the [try]. *)
Definition delivery_sequence (self : t) (item : ContentQueue.t) (now : Z)
  : Py.M Database bool :=
  r <- deliver self item ;;
  match r with
  | inl b => Py.ret b
  | inr message_id => record_delivery self item now message_id
  end.

Definition publish_item (self : t) (item : ContentQueue.t) (now : Z) : Py.M Database bool :=
  Py.try_except (delivery_sequence self item now) (on_exception self item).

Definition publish_next (self : t) (now : Z) : Py.M Database bool :=
  item <- DatabaseManager.get_next_from_queue ;;
  match item with
  | None =>
      Py.if_logger (logger self)
        (Py.log_warning "Queue Empty" "No memes in queue to publish.") ;;;
      Py.ret false
  | Some item => publish_item self item now
  end.


End PostingPipeline.

(** ** publisher/telegram_publisher.py *)

Module TelegramPublisher.

(** What one call of a send function does: it returns the id of the
    message, raises a [TelegramError], or raises some other exception. *)
Inductive attempt :=
| Sent (message_id : Z)
| TelegramError (e : Py.exn)
| OtherError (e : Py.exn).

Record t := mk {
  logger : option Py.TelegramLogger;
  channel_username : string;
  _max_retries : Z
}.

Definition init (logger : option Py.TelegramLogger) (channel_username : string) : t :=
  mk logger channel_username 3.

(** The loop [for attempt in range(self._max_retries)] from iteration
    [attempt], with [remaining] iterations to go; [func k] is what the call
    of the send function in iteration [k] does. *)
Fixpoint retry_from {S : Type} (self : t) (func : Z -> attempt) (attempt : Z)
    (remaining : nat) : Py.M S (option Z) :=
  match remaining with
  | O => Py.ret None
  | Datatypes.S remaining' =>
      match func attempt with
      | Sent message_id => Py.ret (Some message_id)
      | OtherError e => Py.raise e
      | TelegramError e =>
          if attempt =? _max_retries self - 1 then
            Py.if_logger (logger self) (Py.log_error "Publishing Failed" e) ;;;
            Py.ret None
          else
            let delay := 2 ^ attempt in
            Py.if_logger (logger self)
              (Py.log_warning ("Publish Attempt " +:+ pretty (attempt + 1) +:+ " Failed")
                 ("Error: " +:+ Py.str e +:+ Py.nl +:+
                  "Retry in " +:+ pretty delay +:+ "s...")) ;;;
            Py.sleep delay ;;;
            retry_from self func (attempt + 1) remaining'
      end
  end.

Definition _retry {S : Type} (self : t) (func : Z -> attempt) : Py.M S (option Z) :=
  retry_from self func 0 (Z.to_nat (_max_retries self)).

(** [send_message k] is what [bot.send_message] does in iteration [k]. *)
Definition publish_text {S : Type} (self : t) (send_message : string -> Z -> attempt)
    (text : string) : Py.M S (option Z) :=
  _retry self (send_message text).

(** [_send_image]: a missing file raises [FileNotFoundError] before the
    bot is called. *)
Definition _send_image (path_exists : string -> Z -> bool)
    (send_photo : string -> string -> Z -> attempt) (image_path caption : string) (k : Z)
  : attempt :=
  if path_exists image_path k then send_photo image_path caption k
  else OtherError (Py.Exception ("Image not found: " +:+ image_path)).

Definition publish_image {S : Type} (self : t) (path_exists : string -> Z -> bool)
    (send_photo : string -> string -> Z -> attempt) (image_path caption : string)
  : Py.M S (option Z) :=
  _retry self (_send_image path_exists send_photo image_path caption).

(** [s.lstrip("@")]; the character "@" has code 64. *)
Fixpoint lstrip_at (s : string) : string :=
  match s with
  | String c s' => if Ascii.eqb c (Ascii.ascii_of_nat 64) then lstrip_at s' else s
  | EmptyString => s
  end.

Definition get_post_link (self : t) (message_id : Z) : string :=
  "https://t.me/" +:+ lstrip_at (channel_username self) +:+ "/" +:+ pretty message_id.

End TelegramPublisher.

(** ** utils/helpers.py *)

Module Helpers.

(** [text[:stop]] for an integer [stop]; a negative [stop] counts from the
    end. A string is the sequence of its characters. *)
Definition slice_to (stop : Z) (text : string) : string :=
  if 0 <=? stop then String.substring 0 (Z.to_nat stop) text
  else String.substring 0 (Z.to_nat (Z.of_nat (String.length text) + stop)) text.

Definition truncate (text : string) (max_len : Z) : string :=
  if Z.of_nat (String.length text) <=? max_len then text
  else slice_to (max_len - 3) text +:+ "...".

End Helpers.

(** ** scheduler/dynamic_scheduler.py *)

Module DynamicScheduler.

Inductive Trigger :=
| CronTrigger (day_of_week : option Z) (hour minute : Z)
| IntervalTrigger (hours minutes : Z).

(** A job of the scheduler; the function to call is given by its name. *)
Record Job := mkJob {
  func : string;
  trigger : Trigger
}.

(** [scheduler_jobs] is the job store of the [AsyncIOScheduler], by job
    id; [_jobs] is the description the class keeps for each id. *)
Record t := mk {
  logger : option Py.TelegramLogger;
  scheduler_jobs : gmap string Job;
  scheduler_running : bool;
  _jobs : gmap string string
}.

Definition init (logger : option Py.TelegramLogger) : t := mk logger ∅ false ∅.

Definition start (self : t) : t :=
  mk (logger self) (scheduler_jobs self) true (_jobs self).

Definition stop (self : t) : t :=
  mk (logger self) (scheduler_jobs self) false (_jobs self).

(** [self.scheduler.add_job(func, trigger=..., id=job_id,
    replace_existing=True)] followed by [self._jobs[job_id] = description]. *)
Definition register (job_id func : string) (trigger : Trigger) (description : string)
    (self : t) : t :=
  mk (logger self)
     (<[job_id := mkJob func trigger]> (scheduler_jobs self))
     (scheduler_running self)
     (<[job_id := description]> (_jobs self)).

Definition default_times : list string := ["09:00"; "14:00"; "20:00"].

Definition post_id (i : Z) : string := "post_" +:+ pretty i.

(** The loop of [add_posting_jobs] from index [i]. [cron_at time_str] is
    what [hour, minute = map(int, time_str.split(":"))] followed by
    [CronTrigger(hour=hour, minute=minute)] yields: the trigger, or the
    [ValueError] raised on the way. *)
Fixpoint add_posting_from (cron_at : string -> Py.outcome Trigger) (publish_func : string)
    (i : Z) (times : list string) : Py.M t unit :=
  match times with
  | [] => Py.ret tt
  | time_str :: rest =>
      trigger <- Py.await (cron_at time_str) ;;
      Py.modify (register (post_id i) publish_func trigger time_str) ;;;
      add_posting_from cron_at publish_func (i + 1) rest
  end.

(** [times = times or ["09:00", "14:00", "20:00"]] *)
Definition times_or_default (times : list string) : list string :=
  match times with
  | [] => default_times
  | _ => times
  end.

Definition add_posting_jobs (cron_at : string -> Py.outcome Trigger) (publish_func : string)
    (times : list string) : Py.M t unit :=
  add_posting_from cron_at publish_func 0 (times_or_default times).

Definition add_trend_collection (collect_func : string) (interval_hours : Z) (self : t) : t :=
  register "trend_collection" collect_func (IntervalTrigger interval_hours 0)
    ("every " +:+ pretty interval_hours +:+ "h") self.

Definition add_content_generation (generate_func : string) (interval_hours : Z) (self : t) : t :=
  register "content_generation" generate_func (IntervalTrigger interval_hours 0)
    ("every " +:+ pretty interval_hours +:+ "h") self.

Definition add_metrics_collection (metrics_func : string) (interval_minutes : Z) (self : t) : t :=
  register "metrics_collection" metrics_func (IntervalTrigger 0 interval_minutes)
    ("every " +:+ pretty interval_minutes +:+ "m") self.

Definition add_health_check (health_func : string) (interval_minutes : Z) (self : t) : t :=
  register "health_check" health_func (IntervalTrigger 0 interval_minutes)
    ("every " +:+ pretty interval_minutes +:+ "m") self.

Definition add_queue_cleanup (cleanup_func : string) (interval_hours : Z) (self : t) : t :=
  register "queue_cleanup" cleanup_func (IntervalTrigger interval_hours 0)
    ("every " +:+ pretty interval_hours +:+ "h") self.

Definition add_strategy_update (update_func : string) (interval_hours : Z) (self : t) : t :=
  register "strategy_update" update_func (IntervalTrigger interval_hours 0)
    ("every " +:+ pretty interval_hours +:+ "h") self.

(** [key.startswith("post_")] *)
Definition is_posting_job (key : string) : bool := String.prefix "post_" key.

(** The first loop of [update_posting_times]: every key of [_jobs] that
    starts with "post_" is removed from the scheduler (a failure of
    [remove_job] is ignored) and deleted from [_jobs]. *)
Definition remove_posting_jobs (self : t) : t :=
  mk (logger self)
     (filter (fun kv => is_posting_job (fst kv) = false \/ _jobs self !! fst kv = None)
             (scheduler_jobs self))
     (scheduler_running self)
     (filter (fun kv => is_posting_job (fst kv) = false) (_jobs self)).

Definition update_posting_times (cron_at : string -> Py.outcome Trigger)
    (publish_func : string) (new_times : list string) : Py.M t unit :=
  Py.modify remove_posting_jobs ;;;
  add_posting_jobs cron_at publish_func new_times.


(** The description kept for a job id and the job held by the scheduler
    exist together. *)
Definition in_sync (self : t) : Prop :=
  forall job_id, is_Some (_jobs self !! job_id) <-> is_Some (scheduler_jobs self !! job_id).

End DynamicScheduler.

(** ** error_handler/health_monitor.py *)

Module HealthMonitor.

(** The dict [checks] of [run_health_check], by key. *)
Record Checks := mkChecks {
  database : bool;
  groq_api : bool;
  telegram_api : bool;
  queue_healthy : bool;
  queue_size : Z;
  last_post_recent : bool;
  hours_since_last_post : option Q
}.

(** What the probes of one sweep answer: the two [db.get_queue_size()]
    calls, [groq.check_health()] and [publisher.check_health()]. *)
Record Probes := mkProbes {
  db_get_queue_size : Py.outcome Z;
  groq_check_health : Py.outcome bool;
  publisher_check_health : Py.outcome bool;
  db_get_queue_size_again : Py.outcome Z
}.

(** Python's [round(x, 1)] and [str(x)] on a float. *)
Record FloatOps := mkFloatOps {
  round1 : Q -> Q;
  repr : Q -> string
}.

Record t := mk {
  logger : option Py.TelegramLogger;
  _start_time : Z;
  _last_successful_post : option Z;
  _last_health_check : option Checks
}.

Definition init (logger : option Py.TelegramLogger) (now : Z) : t :=
  mk logger now None None.

Definition record_successful_post (now : Z) (self : t) : t :=
  mk (logger self) (_start_time self) (Some now) (_last_health_check self).

(** [int((now - start).total_seconds())]: whole seconds, towards zero. *)
Definition uptime_seconds (self : t) (now : Z) : Z :=
  Z.quot (now - _start_time self) 1000000.

Definition uptime_formatted (self : t) (now : Z) : string :=
  let secs := uptime_seconds self now in
  let days := secs / 86400 in
  let hours := (secs mod 86400) / 3600 in
  let minutes := (secs mod 3600) / 60 in
  if 0 <? days
  then pretty days +:+ "d " +:+ pretty hours +:+ "h " +:+ pretty minutes +:+ "m"
  else pretty hours +:+ "h " +:+ pretty minutes +:+ "m".

Definition icon (value : bool) : string := if value then "✅" else "❌".

Definition _format_status (fl : FloatOps) (checks : Checks) : string :=
  PostingPipeline.join Py.nl
    [icon (database checks) +:+ " database";
     icon (groq_api checks) +:+ " groq_api";
     icon (telegram_api checks) +:+ " telegram_api";
     icon (queue_healthy checks) +:+ " queue_healthy";
     "  queue_size: " +:+ pretty (queue_size checks);
     icon (last_post_recent checks) +:+ " last_post_recent";
     "  hours_since_last_post: " +:+
       match hours_since_last_post checks with
       | Some h => repr fl h
       | None => "None"
       end].

(** A probe that raises counts as failed. *)
Definition probe_ok {A : Type} (o : Py.outcome A) : bool :=
  match o with Py.Return _ => true | Py.Raise _ => false end.

Definition probe_bool (o : Py.outcome bool) : bool :=
  match o with Py.Return b => b | Py.Raise _ => false end.

(** The dict as filled in by the five blocks; [hours_since] is the
    elapsed time over 3600 s and [hours_since < 12] reads as the negation
    of [12 <= hours_since]. *)
Definition collect (fl : FloatOps) (p : Probes) (now : Z) (self : t) : Checks :=
  mkChecks
    (probe_ok (db_get_queue_size p))
    (probe_bool (groq_check_health p))
    (probe_bool (publisher_check_health p))
    (match db_get_queue_size_again p with
     | Py.Return n => 5 <=? n
     | Py.Raise _ => false
     end)
    (match db_get_queue_size_again p with
     | Py.Return n => n
     | Py.Raise _ => 0
     end)
    (match _last_successful_post self with
     | Some t => negb (Qle_bool (inject_Z 12) (Qmake (now - t) 3600000000))
     | None => true
     end)
    (match _last_successful_post self with
     | Some t => Some (round1 fl (Qmake (now - t) 3600000000))
     | None => None
     end).

(** [[c for c in critical_components if not checks.get(c, False)]] *)
Definition critical_down (checks : Checks) : list string :=
  (if database checks then [] else ["database"])
  ++ (if telegram_api checks then [] else ["telegram_api"]).

Definition run_health_check (fl : FloatOps) (p : Probes) (now : Z) : Py.M t Checks :=
  self <- Py.get ;;
  let checks := collect fl p now self in
  Py.put (mk (logger self) (_start_time self) (_last_successful_post self) (Some checks)) ;;;
  (match critical_down checks with
   | _ :: _ =>
       Py.if_logger (logger self)
         (Py.log_critical "Critical Components Down"
            ("Failed components:" +:+ Py.nl +:+
             PostingPipeline.join Py.nl
               (List.map (fun c => "  ❌ " +:+ c) (critical_down checks)) +:+
             Py.nl +:+ Py.nl +:+ "Full status:" +:+ Py.nl +:+ _format_status fl checks))
   | [] =>
       if negb (groq_api checks && queue_healthy checks) then
         Py.if_logger (logger self)
           (Py.log_warning "Health Check Warning"
              ("Some components degraded:" +:+ Py.nl +:+ _format_status fl checks))
       else Py.ret tt
   end) ;;;
  Py.ret checks.

End HealthMonitor.

(** ** Sample data

    The two items of the end-to-end scenario: A and B have priority 8.0 and
    B is created one second after A. *)

Module Scenario.

Definition text_meme (text : string) : Meme.t :=
  Meme.mk (Some "text_only") (Some text) None None None None None None None None None.

Definition drake_meme (top bottom : string) : Meme.t :=
  Meme.mk (Some "drake") None None None (Some top) (Some bottom) None None None None None.

Definition item_A : ContentQueue.t :=
  ContentQueue.mk 1 (text_meme "A") (inject_Z 8) 0 None pending.

Definition item_B : ContentQueue.t :=
  ContentQueue.mk 2 (text_meme "B") (inject_Z 8) (seconds 1) None pending.

(** A table in which the engine yields B before A. *)
Definition db_B_A : Database := mkDatabase [item_B; item_A] 3 [] 1.

Definition db_A_B : Database := mkDatabase [item_A; item_B] 3 [] 1.

Definition empty_db : Database := mkDatabase [] 1 [] 1.

(** Collaborators of a [publish_next] call: the renderer yields no image,
    the publisher delivers every text as message 100 and every image as
    message 200, the commit of the post record fails or not, and the status
    writes are committed. *)
Definition collaborators (save_post_failure : option Py.exn) : PostingPipeline.Collaborators :=
  PostingPipeline.mkCollaborators
    (fun _ => Py.Return None)
    (fun _ => Py.Return (Some 100))
    (fun _ _ => Py.Return (Some 200))
    (fun message_id => "https://t.me/channel/" +:+ pretty message_id)
    save_post_failure None None.

(** A database that refuses every write of the call, with a publisher whose
    connection fails. *)
Definition collaborators_db_down : PostingPipeline.Collaborators :=
  PostingPipeline.mkCollaborators
    (fun _ => Py.Return None)
    (fun _ => Py.Raise (Py.Exception "Connection reset by peer"))
    (fun _ _ => Py.Raise (Py.Exception "Connection reset by peer"))
    (fun message_id => "https://t.me/channel/" +:+ pretty message_id)
    (Some (Py.Exception "database is locked"))
    (Some (Py.Exception "database is locked"))
    (Some (Py.Exception "database is locked")).

(** A table with rows that are not pending: A was rejected and B has
    expired. *)
Definition db_settled : Database :=
  mkDatabase [ContentQueue.set_status rejected item_A;
              ContentQueue.set_status expired item_B] 3 [] 1.

End Scenario.

(** * Properties *)

(** ** The queue: next item *)

Section NextItem.
Import DatabaseManager.

Local Open Scope Q_scope.

Lemma Qle_bool_false (x y : Q) : Qle_bool x y = false -> y <= x.
Proof.
  intros H. apply Qlt_le_weak, Qnot_le_lt. intros Hle.
  apply Qle_bool_iff in Hle. congruence.
Qed.

(** The head of the ordered rows is one of the rows and no row has a
    higher priority. *)
Lemma order_by_desc_priority_head (rows : list ContentQueue.t) :
  match order_by_desc_priority rows with
  | [] => rows = []
  | x :: _ =>
      In x rows /\
      forall y, In y rows -> ContentQueue.priority y <= ContentQueue.priority x
  end.
Proof.
  induction rows as [|a rows IH]; [reflexivity|].
  simpl. destruct (order_by_desc_priority rows) as [|x sorted].
  - subst rows. simpl. split; [by left|]. intros y [<-|[]]. apply Qle_refl.
  - destruct IH as [Hx Hmax]. simpl.
    destruct (Qle_bool (ContentQueue.priority x) (ContentQueue.priority a)) eqn:Hc.
    + apply Qle_bool_iff in Hc. split; [by left|].
      intros y [<-|Hy]; [apply Qle_refl|].
      eapply Qle_trans; [apply Hmax, Hy | exact Hc].
    + apply Qle_bool_false in Hc. split; [by right|].
      intros y [<-|Hy]; [exact Hc | by apply Hmax].
Qed.

Lemma where_pending_In (rows : list ContentQueue.t) (x : ContentQueue.t) :
  In x (where_pending rows) <-> In x rows /\ ContentQueue.status x = pending.
Proof.
  unfold where_pending, ContentQueue.is_pending.
  rewrite filter_In, bool_decide_eq_true. reflexivity.
Qed.

(** What the query of [get_next_from_queue] yields. *)
Lemma next_from_queue_spec (db : Database) :
  exists r, next_from_queue db = Py.Return r /\
    match r with
    | None => forall x, In x (content_queue db) -> ContentQueue.status x <> pending
    | Some x =>
        In x (content_queue db) /\ ContentQueue.status x = pending /\
        forall y, In y (content_queue db) -> ContentQueue.status y = pending ->
                  ContentQueue.priority y <= ContentQueue.priority x
    end.
Proof.
  unfold next_from_queue.
  pose proof (order_by_desc_priority_head (where_pending (content_queue db))) as H.
  destruct (order_by_desc_priority (where_pending (content_queue db))) as [|x sorted].
  - exists None. split; [reflexivity|]. intros x Hx Hp.
    assert (In x (where_pending (content_queue db))) as Hin by by apply where_pending_In.
    rewrite H in Hin. destruct Hin.
  - exists (Some x). split; [reflexivity|]. destruct H as [Hx Hmax].
    apply where_pending_In in Hx as [Hx Hp]. split; [done|]. split; [done|].
    intros y Hy Hyp. apply Hmax. by apply where_pending_In.
Qed.

(** C1, as amended: [get_next_from_queue] always returns; it returns no
    item exactly when no row is pending, and otherwise a pending row of
    the table whose priority no pending row exceeds. The query carries no
    ordering on [created_at]. *)
Theorem get_next_from_queue_max_priority (db : Database) (tr : list Py.event) :
  exists r, get_next_from_queue db tr = (Py.Return r, db, tr) /\
    (r = None <-> forall x, x ∈ content_queue db -> ContentQueue.status x <> pending) /\
    forall x, r = Some x ->
      x ∈ content_queue db /\ ContentQueue.status x = pending /\
      forall y, y ∈ content_queue db -> ContentQueue.status y = pending ->
                ContentQueue.priority y <= ContentQueue.priority x.
Proof.
  destruct (next_from_queue_spec db) as (r & Hr & Hspec).
  exists r. split.
  { unfold get_next_from_queue, Py.bind, Py.get, Py.await. by rewrite Hr. }
  setoid_rewrite list_elem_of_In.
  destruct r as [x|]; (split; [split|]).
  - intros [=].
  - intros Hx. destruct Hspec as (Hin & Hp & _). by destruct (Hx x Hin).
  - intros x' [= <-]. exact Hspec.
  - intros _. exact Hspec.
  - done.
  - intros x [=].
Qed.

End NextItem.

(** C1, counterexample: with A and B both pending at priority 8.0 and A
    created first, the query returns B when the engine yields B first; the
    item returned is then not the earliest created among those of equal
    priority. *)
Lemma get_next_from_queue_not_fifo :
  DatabaseManager.get_next_from_queue Scenario.db_B_A []
    = (Py.Return (Some Scenario.item_B), Scenario.db_B_A, []) /\
  Scenario.item_A ∈ content_queue Scenario.db_B_A /\
  ContentQueue.status Scenario.item_A = pending /\
  (ContentQueue.priority Scenario.item_A == ContentQueue.priority Scenario.item_B)%Q /\
  ContentQueue.created_at Scenario.item_A < ContentQueue.created_at Scenario.item_B.
Proof.
  split; [reflexivity|]. split; [apply list_elem_of_In; right; by left|].
  split; [reflexivity|]. split; [reflexivity|]. reflexivity.
Qed.

(** ** The queue: admission *)

Section Admission.
Import DatabaseManager QueueManager.

Lemma add_meme_run (self : QueueManager.t) (meme_data : Meme.t) (priority : Q) (now : Z)
    (db : Database) (tr : list Py.event) :
  add_meme self meme_data priority now db tr =
    if max_size self <=? queue_size db
    then (Py.Return false, db,
          match logger self with
          | Some _ =>
              tr ++ [Py.Logger (Py.log_warning "Queue Full"
                       ("Queue at max capacity (" +:+ pretty (max_size self)
                        +:+ "). Meme not added."))]
          | None => tr
          end)
    else (Py.Return true, insert_item (new_item db meme_data priority now) db, tr).
Proof.
  unfold add_meme, is_full, get_size, get_queue_size, add_to_queue, Py.bind, Py.get,
    Py.ret, Py.put, Py.if_logger, Py.emit.
  destruct (max_size self <=? queue_size db); [|reflexivity].
  by destruct (logger self).
Qed.

Lemma queue_size_insert_item (item : ContentQueue.t) (db : Database) :
  ContentQueue.status item = pending ->
  queue_size (insert_item item db) = queue_size db + 1.
Proof.
  intros Hp. unfold queue_size, insert_item, where_pending. simpl.
  rewrite List.filter_app, length_app. simpl.
  unfold ContentQueue.is_pending. rewrite Hp. simpl. lia.
Qed.

Lemma add_meme_preserves_bound (self : QueueManager.t) meme_data priority now db tr :
  queue_size db <= max_size self ->
  exists b db' tr',
    add_meme self meme_data priority now db tr = (Py.Return b, db', tr') /\
    queue_size db' <= max_size self.
Proof.
  intros Hinv. rewrite add_meme_run.
  destruct (max_size self <=? queue_size db) eqn:Hfull.
  - eauto.
  - apply Z.leb_gt in Hfull. do 3 eexists. split; [reflexivity|].
    rewrite queue_size_insert_item by reflexivity. lia.
Qed.

Lemma add_memes_preserve_bound (self : QueueManager.t) (calls : list (Meme.t * Q * Z)) :
  forall db tr, queue_size db <= max_size self ->
    exists bs db' tr',
      add_memes self calls db tr = (Py.Return bs, db', tr') /\
      length bs = length calls /\
      queue_size db' <= max_size self.
Proof.
  induction calls as [|[[m p] now] calls IH]; intros db tr Hinv.
  - exists [], db, tr. done.
  - destruct (add_meme_preserves_bound self m p now db tr Hinv) as (b & db1 & tr1 & Hrun & Hinv1).
    destruct (IH db1 tr1 Hinv1) as (bs & db2 & tr2 & Hrun2 & Hlen & Hinv2).
    exists (b :: bs), db2, tr2. split; [|split; [simpl; by rewrite Hlen | done]].
    simpl. unfold Py.bind at 1. rewrite Hrun. unfold Py.bind at 1. by rewrite Hrun2.
Qed.

(** [get_queue_size] counts the rows whose status is pending. *)
Lemma queue_size_pending_rows (db : Database) :
  queue_size db
  = Z.of_nat (length (List.filter (fun r => bool_decide (ContentQueue.status r = pending))
                                  (content_queue db))).
Proof. reflexivity. Qed.

(** C4: the pending count, that is the number of rows of the queue table
    whose status is pending, stays within [max_size] over any sequence of
    [add_meme] calls; a call made with the pending count at or above
    [max_size] returns false and leaves the database as it was; any other
    call returns true after appending one row, with the given payload and
    priority and status pending, to the queue, whatever rows that are not
    pending the table holds. *)
Theorem add_meme_capacity (self : QueueManager.t) :
  (forall calls db tr,
     Z.of_nat (length (List.filter (fun r => bool_decide (ContentQueue.status r = pending))
                                   (content_queue db))) <= max_size self ->
     exists bs db' tr',
       add_memes self calls db tr = (Py.Return bs, db', tr') /\
       Z.of_nat (length (List.filter (fun r => bool_decide (ContentQueue.status r = pending))
                                     (content_queue db'))) <= max_size self) /\
  (forall meme_data priority now db tr,
     max_size self
     <= Z.of_nat (length (List.filter (fun r => bool_decide (ContentQueue.status r = pending))
                                      (content_queue db))) ->
     exists tr', add_meme self meme_data priority now db tr = (Py.Return false, db, tr')) /\
  (forall meme_data priority now db tr,
     Z.of_nat (length (List.filter (fun r => bool_decide (ContentQueue.status r = pending))
                                   (content_queue db))) < max_size self ->
     exists item,
       add_meme self meme_data priority now db tr
         = (Py.Return true,
            mkDatabase (content_queue db ++ [item]) (content_queue_seq db + 1)
                       (posts db) (posts_seq db),
            tr) /\
       ContentQueue.status item = pending /\
       ContentQueue.meme_data item = meme_data /\
       ContentQueue.priority item = priority /\
       Z.of_nat (length (List.filter (fun r => bool_decide (ContentQueue.status r = pending))
                                     (content_queue db ++ [item])))
       = Z.of_nat (length (List.filter (fun r => bool_decide (ContentQueue.status r = pending))
                                       (content_queue db))) + 1).
Proof.
  split; [|split].
  - intros calls db tr Hinv. rewrite <- queue_size_pending_rows in Hinv.
    destruct (add_memes_preserve_bound self calls db tr Hinv) as (bs & db' & tr' & H & _ & Hb).
    rewrite queue_size_pending_rows in Hb. eauto.
  - intros m p now db tr Hfull. rewrite <- queue_size_pending_rows in Hfull.
    rewrite add_meme_run. apply Z.leb_le in Hfull. rewrite Hfull. eauto.
  - intros m p now db tr Hroom. rewrite <- queue_size_pending_rows in Hroom.
    rewrite add_meme_run. apply Z.leb_gt in Hroom. rewrite Hroom.
    exists (new_item db m p now). split; [reflexivity|].
    repeat split.
    pose proof (queue_size_insert_item (new_item db m p now) db eq_refl) as Hgrow.
    rewrite !queue_size_pending_rows in Hgrow. exact Hgrow.
Qed.

(** With [max_size = 2]: three calls on a table whose two rows are not
    pending admit two items; a call on a table with two pending rows is
    refused; a call on the table without pending rows is admitted. *)
Lemma add_meme_capacity_witness :
  let self := QueueManager.mk None 10 2 in
  (exists bs db' tr',
     add_memes self
       [(Scenario.text_meme "a", inject_Z 1, 0);
        (Scenario.text_meme "b", inject_Z 2, 1);
        (Scenario.text_meme "c", inject_Z 3, 2)] Scenario.db_settled []
       = (Py.Return bs, db', tr') /\
     Z.of_nat (length (List.filter (fun r => bool_decide (ContentQueue.status r = pending))
                                   (content_queue db'))) <= 2) /\
  (exists tr', add_meme self (Scenario.text_meme "c") (inject_Z 3) 2 Scenario.db_A_B []
               = (Py.Return false, Scenario.db_A_B, tr')) /\
  (exists item,
     add_meme self (Scenario.text_meme "a") (inject_Z 1) 0 Scenario.db_settled []
       = (Py.Return true,
          mkDatabase (content_queue Scenario.db_settled ++ [item]) 4 [] 1, []) /\
     ContentQueue.status item = pending).
Proof.
  intros self.
  destruct (add_meme_capacity self) as (Hseq & Hfull & Hroom).
  split; [|split].
  - apply Hseq. vm_compute. discriminate.
  - apply Hfull. vm_compute. discriminate.
  - destruct (Hroom (Scenario.text_meme "a") (inject_Z 1) 0 Scenario.db_settled [])
      as (item & Hrun & Hst & _); [reflexivity|].
    exists item. split; [exact Hrun | exact Hst].
Defined.

(** The admission test looks at pending rows only: rows that are published,
    rejected or expired take no room. *)
Example add_memes_beside_settled_rows :
  exists db',
    add_memes (QueueManager.mk None 10 2)
      [(Scenario.text_meme "a", inject_Z 1, 0);
       (Scenario.text_meme "b", inject_Z 2, 1);
       (Scenario.text_meme "c", inject_Z 3, 2)] Scenario.db_settled []
    = (Py.Return [true; true; false], db', []) /\
    length (content_queue db') = 4%nat.
Proof. eexists. split; reflexivity. Qed.

End Admission.

(** ** The queue: expiry *)

Section Expiry.
Import DatabaseManager.

Lemma is_stale_iff (cutoff : Z) (r : ContentQueue.t) :
  is_stale cutoff r = true <->
  ContentQueue.status r = pending /\ ContentQueue.created_at r < cutoff.
Proof.
  unfold is_stale, ContentQueue.is_pending.
  rewrite andb_true_iff, bool_decide_eq_true, Z.ltb_lt. reflexivity.
Qed.

Lemma expire_row_stale (cutoff : Z) (r : ContentQueue.t) :
  is_stale cutoff r = true -> expire_row cutoff r = ContentQueue.set_status expired r.
Proof. intros H. unfold expire_row. by rewrite H. Qed.

Lemma expire_row_other (cutoff : Z) (r : ContentQueue.t) :
  is_stale cutoff r = false -> expire_row cutoff r = r.
Proof. intros H. unfold expire_row. by rewrite H. Qed.

(** Nothing to expire: the update matches no row. *)
Lemma expire_rows_none (cutoff : Z) (rows : list ContentQueue.t) :
  Forall (fun r => is_stale cutoff r = false) rows ->
  List.map (expire_row cutoff) rows = rows /\ List.filter (is_stale cutoff) rows = [].
Proof.
  induction 1 as [|r rows Hr _ [IHm IHf]]; [done|].
  simpl. rewrite Hr, IHm, IHf. by rewrite expire_row_other.
Qed.

(** A row of the expired table is stale for a later cutoff only if the row
    it comes from was pending, fresh at the first cutoff and stale at the
    later one. *)
Lemma expire_row_settled (cutoff cutoff' : Z) (r : ContentQueue.t) :
  (ContentQueue.status r = pending -> ContentQueue.created_at r < cutoff' ->
   ContentQueue.created_at r < cutoff) ->
  is_stale cutoff' (expire_row cutoff r) = false.
Proof.
  intros Hold. unfold expire_row.
  destruct (is_stale cutoff r) eqn:Hs.
  - reflexivity.
  - apply not_true_is_false. intros Hs'. apply is_stale_iff in Hs' as [Hp Hlt].
    assert (is_stale cutoff r = true) by (apply is_stale_iff; auto). congruence.
Qed.

Lemma expire_run (now max_age_hours : Z) (db : Database) (tr : list Py.event) :
  expire_old_queue_items now max_age_hours db tr
  = (Py.Return (rowcount (now - hours max_age_hours) db),
     expire_rows (now - hours max_age_hours) db, tr).
Proof. reflexivity. Qed.

(** C8: [expire_old_queue_items] turns the pending rows created before the
    cutoff into expired rows and leaves every other row, and the rest of
    the database, as it was; it returns the number of rows it turned. Run
    again, at a time at which no further pending row has crossed the
    cutoff, it returns 0 and changes nothing. *)
Theorem expire_old_queue_items_idempotent (now max_age_hours : Z) (db : Database)
    (tr : list Py.event) :
  let cutoff := now - hours max_age_hours in
  exists n db',
    expire_old_queue_items now max_age_hours db tr = (Py.Return n, db', tr) /\
    Forall2 (fun r r' =>
               (ContentQueue.status r = pending /\ ContentQueue.created_at r < cutoff ->
                r' = ContentQueue.set_status expired r) /\
               (~ (ContentQueue.status r = pending /\ ContentQueue.created_at r < cutoff) ->
                r' = r))
            (content_queue db) (content_queue db') /\
    n = Z.of_nat (length (List.filter (is_stale cutoff) (content_queue db))) /\
    (content_queue_seq db', posts db', posts_seq db')
      = (content_queue_seq db, posts db, posts_seq db) /\
    forall now' tr',
      (forall r, r ∈ content_queue db -> ContentQueue.status r = pending ->
                 ContentQueue.created_at r < now' - hours max_age_hours ->
                 ContentQueue.created_at r < cutoff) ->
      expire_old_queue_items now' max_age_hours db' tr' = (Py.Return 0, db', tr').
Proof.
  intros cutoff. exists (rowcount cutoff db), (expire_rows cutoff db).
  split; [apply expire_run|]. split; [|split; [reflexivity|split; [reflexivity|]]].
  - simpl. induction (content_queue db) as [|r rows IH]; simpl; constructor; [|exact IH].
    split.
    + intros H. by apply expire_row_stale, is_stale_iff.
    + intros H. apply expire_row_other, not_true_is_false. by rewrite is_stale_iff.
  - intros now' tr' Hsettled. rewrite expire_run.
    assert (Forall (fun r => is_stale (now' - hours max_age_hours) r = false)
                   (content_queue (expire_rows cutoff db))) as Hnone.
    { simpl. apply Forall_forall. intros r' Hr'. apply list_elem_of_In in Hr'.
      apply in_map_iff in Hr' as (r & <- & Hr). apply expire_row_settled.
      apply Hsettled. by apply list_elem_of_In. }
    apply expire_rows_none in Hnone as [Hmap Hfilter].
    unfold rowcount, expire_rows at 2. rewrite Hfilter, Hmap. by destruct db.
Qed.

(** The table of A and B when only A is older than 48 hours, expired twice
    at the same instant. *)
Lemma expire_old_queue_items_idempotent_witness :
  exists db',
    expire_old_queue_items (hours 48 + seconds 1) 48 Scenario.db_A_B []
      = (Py.Return 1, db', []) /\
    expire_old_queue_items (hours 48 + seconds 1) 48 db' [] = (Py.Return 0, db', []).
Proof.
  destruct (expire_old_queue_items_idempotent (hours 48 + seconds 1) 48 Scenario.db_A_B [])
    as (n & db' & Hrun & _ & Hn & _ & Hagain).
  exists db'. split.
  - rewrite Hrun, Hn. reflexivity.
  - apply Hagain. intros r _ _ H. exact H.
Defined.

End Expiry.

(** ** The circuit breaker *)

Section CircuitBreaker.
Import APIFallbackStrategy.

Lemma record_failures_snoc (service : string) (ts : list (Z * Z)) (t_fail t_open : Z) (s : t) :
  record_failures service (ts ++ [(t_fail, t_open)]) s
  = record_failure service t_fail t_open (record_failures service ts s).
Proof.
  revert s. induction ts as [|[tf to] ts IH]; intros s; [reflexivity|].
  simpl. apply IH.
Qed.

Lemma get_failure_count_record_failure (service : string) (t_fail t_open : Z) (s : t) :
  get_failure_count (record_failure service t_fail t_open s) service
  = get_failure_count s service + 1.
Proof. unfold get_failure_count at 1. simpl. by rewrite lookup_insert_eq. Qed.

Lemma record_failures_config (service : string) (ts : list (Z * Z)) (s : t) :
  circuit_breaker_threshold (record_failures service ts s) = circuit_breaker_threshold s /\
  circuit_breaker_timeout (record_failures service ts s) = circuit_breaker_timeout s.
Proof.
  revert s. induction ts as [|[tf to] ts IH]; intros s; [done|].
  simpl. destruct (IH (record_failure service tf to s)) as [-> ->]. done.
Qed.

Lemma get_failure_count_record_failures (service : string) (ts : list (Z * Z)) (s : t) :
  get_failure_count (record_failures service ts s) service
  = get_failure_count s service + Z.of_nat (length ts).
Proof.
  revert s. induction ts as [|[tf to] ts IH]; intros s; simpl; [lia|].
  rewrite IH, get_failure_count_record_failure. lia.
Qed.

(** Below the threshold the open-circuit entry of the service is not
    written. *)
Lemma record_failures_below (service : string) (ts : list (Z * Z)) (s : t) :
  get_failure_count s service + Z.of_nat (length ts) < circuit_breaker_threshold s ->
  _circuit_open (record_failures service ts s) = _circuit_open s.
Proof.
  revert s. induction ts as [|[tf to] ts IH]; intros s Hlt; [done|].
  simpl in *. rewrite IH.
  - simpl. destruct (circuit_breaker_threshold s <=? get_failure_count s service + 1) eqn:Hc;
      [apply Z.leb_le in Hc; lia | done].
  - rewrite get_failure_count_record_failure. simpl. lia.
Qed.

(** The failure that reaches the threshold opens the circuit at its second
    clock reading. *)
Lemma record_failure_opens (service : string) (t_fail t_open : Z) (s : t) :
  circuit_breaker_threshold s <= get_failure_count s service + 1 ->
  _circuit_open (record_failure service t_fail t_open s) !! service = Some t_open.
Proof.
  intros Hc. simpl. apply Z.leb_le in Hc. rewrite Hc. apply lookup_insert_eq.
Qed.

Lemma is_available_closed (s : t) (service : string) (now : Z) :
  _circuit_open s !! service = None -> is_available s service now = true.
Proof. intros H. unfold is_available. by rewrite H. Qed.

(** C2: from a closed circuit with failure count 0, threshold 5 and timeout
    300 s, fewer than five consecutive failures leave the service
    available; after the fifth, [is_available] is false for as long as less
    than 300 s have passed since the circuit opened and true from then on;
    one [record_success] then resets the failure count to 0 and removes the
    open-circuit entry, so that the service is available at any time. *)
Theorem circuit_breaker_transition (s : t) (service : string) (ts : list (Z * Z))
    (t_fail t_open now : Z) :
  circuit_breaker_threshold s = 5 ->
  circuit_breaker_timeout s = 300 ->
  get_failure_count s service = 0 ->
  _circuit_open s !! service = None ->
  length ts = 4%nat ->
  let s5 := record_failures service (ts ++ [(t_fail, t_open)]) s in
  let closed := record_success service s5 in
  (forall k t, is_available (record_failures service (List.firstn k ts) s) service t = true) /\
  get_failure_count s5 service = 5 /\
  (now - t_open < seconds 300 -> is_available s5 service now = false) /\
  (seconds 300 <= now - t_open -> is_available s5 service now = true) /\
  get_failure_count closed service = 0 /\
  _circuit_open closed !! service = None /\
  (forall t, is_available closed service t = true).
Proof.
  intros Hthr Htmo Hcnt Hclosed Hlen s5 closed.
  assert (_circuit_open s5 !! service = Some t_open) as Hopen.
  { unfold s5. rewrite record_failures_snoc. apply record_failure_opens.
    destruct (record_failures_config service ts s) as [-> _].
    rewrite get_failure_count_record_failures. lia. }
  assert (circuit_breaker_timeout s5 = 300) as Htmo5.
  { unfold s5. by destruct (record_failures_config service (ts ++ [(t_fail, t_open)]) s)
      as [_ ->]. }
  assert (_circuit_open closed !! service = None) as Hgone.
  { unfold closed. simpl. apply lookup_delete_eq. }
  split; [|split; [|split; [|split; [|split; [|split]]]]].
  - intros k t. apply is_available_closed. rewrite record_failures_below; [done|].
    rewrite length_firstn. lia.
  - unfold s5. rewrite get_failure_count_record_failures, length_app. simpl. lia.
  - intros Hlt. unfold is_available. rewrite Hopen, Htmo5. by apply Z.leb_gt.
  - intros Hge. unfold is_available. rewrite Hopen, Htmo5. by apply Z.leb_le.
  - unfold closed, get_failure_count. simpl. by rewrite lookup_insert_eq.
  - exact Hgone.
  - intros t. by apply is_available_closed.
Qed.

Lemma circuit_breaker_transition_witness :
  let s5 := record_failures "telegram"
              [(0, 1); (10, 11); (20, 21); (30, 31); (40, 41)] (init None) in
  is_available s5 "telegram" (41 + seconds 299) = false /\
  is_available s5 "telegram" (41 + seconds 300) = true /\
  get_failure_count (record_success "telegram" s5) "telegram" = 0.
Proof.
  intros s5.
  pose proof (circuit_breaker_transition (init None) "telegram"
                [(0, 1); (10, 11); (20, 21); (30, 31)] 40 41 (41 + seconds 299)
                eq_refl eq_refl eq_refl eq_refl eq_refl) as (_ & _ & Hlt & _ & Hcnt & _).
  pose proof (circuit_breaker_transition (init None) "telegram"
                [(0, 1); (10, 11); (20, 21); (30, 31)] 40 41 (41 + seconds 300)
                eq_refl eq_refl eq_refl eq_refl eq_refl) as (_ & _ & _ & Hge & _).
  split; [apply Hlt; vm_compute; reflexivity|].
  split; [apply Hge; vm_compute; discriminate|].
  exact Hcnt.
Defined.

End CircuitBreaker.

(** ** The rate limiter *)

Section RateLimit.
Import RateLimitHandler.

Lemma reachable_limits (self : t) : reachable self -> _limits self = default_limits.
Proof. induction 1; [reflexivity | assumption]. Qed.

Lemma reachable_record_requests (service : string) (times : list Z) (self : t) :
  reachable self -> reachable (record_requests service times self).
Proof.
  revert self. induction times as [|now times IH]; intros self Hr; [exact Hr|].
  simpl. apply IH. by constructor.
Qed.

(** Every configured limit has a non-zero [rpm]. *)
Lemma default_limits_rpm (service : string) (lim : Limit) :
  default_limits !! service = Some lim -> default 30 (rpm lim) <> 0.
Proof.
  unfold default_limits. intros Hl. rewrite !lookup_insert in Hl.
  repeat case_decide; simplify_eq; done.
Qed.

Lemma get_usage_percentage_returns (self : t) (service : string) (now : Z) :
  reachable self -> exists usage_pct, get_usage_percentage self service now = Py.Return usage_pct.
Proof.
  intros Hr. unfold get_usage_percentage. rewrite (reachable_limits self Hr).
  destruct (default_limits !! service) as [lim|] eqn:Hlim; [|eauto].
  destruct (_usage self !! service) as [entry|]; [|eauto].
  apply default_limits_rpm in Hlim. apply Z.eqb_neq in Hlim. rewrite Hlim. eauto.
Qed.

Lemma wait_if_needed_run (self : t) (service : string) (now : Z) (usage_pct : Q)
    (tr : list Py.event) :
  get_usage_percentage self service now = Py.Return usage_pct ->
  wait_if_needed service now self tr
  = (Py.Return tt, self, tr ++ throttle_events (logger self) service usage_pct).
Proof.
  intros Hu. unfold wait_if_needed, throttle_events, Py.bind, Py.get, Py.await. rewrite Hu.
  destruct (Qle_bool (inject_Z 90) usage_pct).
  - unfold Py.if_logger, Py.sleep, Py.emit, Py.ret.
    destruct (logger self); simpl; by rewrite <- ?app_assoc.
  - destruct (Qle_bool (inject_Z 70) usage_pct); unfold Py.sleep, Py.emit, Py.ret.
    + reflexivity.
    + by rewrite app_nil_r.
Qed.

Lemma sleeps_throttle_events (lg : option Py.TelegramLogger) (service : string) (usage_pct : Q) :
  Py.sleeps (throttle_events lg service usage_pct)
  = if Qle_bool (inject_Z 90) usage_pct then [60]
    else if Qle_bool (inject_Z 70) usage_pct then [5] else [].
Proof.
  unfold throttle_events.
  destruct (Qle_bool (inject_Z 90) usage_pct); [by destruct lg|].
  by destruct (Qle_bool (inject_Z 70) usage_pct).
Qed.

Lemma Qle_bool_false_lt (x y : Q) : Qle_bool x y = false <-> (y < x)%Q.
Proof.
  split.
  - intros H. apply Qnot_le_lt. rewrite <- Qle_bool_iff. congruence.
  - intros H. apply not_true_is_false. rewrite Qle_bool_iff. by apply Qlt_not_le.
Qed.

(** The suspensions of one call, by the usage percentage. *)
Lemma throttle_sleeps (lg : option Py.TelegramLogger) (service : string) (u : Q) :
  (Py.sleeps (throttle_events lg service u) = [60] <-> (inject_Z 90 <= u)%Q) /\
  (Py.sleeps (throttle_events lg service u) = [5]
   <-> (inject_Z 70 <= u)%Q /\ (u < inject_Z 90)%Q) /\
  (Py.sleeps (throttle_events lg service u) = [] <-> (u < inject_Z 70)%Q).
Proof.
  rewrite sleeps_throttle_events.
  destruct (Qle_bool (inject_Z 90) u) eqn:H90.
  - apply Qle_bool_iff in H90. split; [done|]. split.
    + split; [done|]. intros [_ Hlt]. by apply Qlt_not_le in Hlt.
    + split; [done|]. intros Hlt. exfalso. apply (Qlt_not_le _ _ Hlt).
      eapply Qle_trans; [|exact H90]. done.
  - apply Qle_bool_false_lt in H90.
    destruct (Qle_bool (inject_Z 70) u) eqn:H70.
    + apply Qle_bool_iff in H70.
      split; [split; [done | intros Hle; by apply Qlt_not_le in H90]|].
      split; [done|].
      split; [done|]. intros Hlt. by apply Qlt_not_le in Hlt.
    + apply Qle_bool_false_lt in H70.
      split; [split; [done | intros Hle; by apply Qlt_not_le in H90]|].
      split; [|done].
      split; [done|]. intros [Hle _]. by apply Qlt_not_le in H70.
Qed.

(** A percentage of the limit, in terms of the request count. *)
Lemma percentage_ge_iff (p n rpm : Z) :
  0 < rpm ->
  (inject_Z p <= inject_Z n / inject_Z rpm * inject_Z 100)%Q <-> p * rpm <= 100 * n.
Proof.
  intros Hpos. destruct rpm as [|q|q]; try lia.
  unfold Qle, Qdiv, Qmult, Qinv, inject_Z. simpl. rewrite Pos.mul_1_r. lia.
Qed.

Lemma default_limits_rpm_pos (service : string) (lim : Limit) :
  default_limits !! service = Some lim -> 0 < default 30 (rpm lim).
Proof.
  unfold default_limits. intros Hl. rewrite !lookup_insert in Hl.
  repeat case_decide; simplify_eq; done.
Qed.

(** Every configured limit has a window of one minute. *)
Lemma default_limits_window (service : string) (lim : Limit) :
  default_limits !! service = Some lim -> window_minutes lim = Some 1.
Proof.
  unfold default_limits. intros Hl. rewrite !lookup_insert in Hl.
  repeat case_decide; simplify_eq; done.
Qed.

(** C5: in every state of the handler, for every service, [wait_if_needed]
    returns normally and leaves the handler as it was; it suspends the
    caller once for 60 s exactly when the usage percentage is at least 90,
    once for 5 s exactly when it is at least 70 and below 90, and not at
    all exactly when it is below 70. For a service with a limit and
    recorded requests the percentage is 100 times the number of its
    requests made less than 60 seconds before the call, over [rpm]: it is
    at least [p] exactly when 100 times that number is at least [p] times
    [rpm]; older requests do not count. For any other service it is 0. *)
Theorem wait_if_needed_throttle (self : t) (service : string) (now : Z) (tr : list Py.event) :
  reachable self ->
  exists usage_pct evs,
    get_usage_percentage self service now = Py.Return usage_pct /\
    wait_if_needed service now self tr = (Py.Return tt, self, tr ++ evs) /\
    (Py.sleeps evs = [60] <-> (inject_Z 90 <= usage_pct)%Q) /\
    (Py.sleeps evs = [5] <-> (inject_Z 70 <= usage_pct)%Q /\ (usage_pct < inject_Z 90)%Q) /\
    (Py.sleeps evs = [] <-> (usage_pct < inject_Z 70)%Q) /\
    (forall lim entry,
       _limits self !! service = Some lim -> _usage self !! service = Some entry ->
       usage_pct
       = (inject_Z (Z.of_nat (length (List.filter (fun r => now - seconds 60 <? r)
                                                  (requests entry))))
          / inject_Z (default 30%Z (rpm lim)) * inject_Z 100)%Q /\
       forall p,
         (inject_Z p <= usage_pct)%Q <->
         p * default 30 (rpm lim)
         <= 100 * Z.of_nat (length (List.filter (fun r => now - seconds 60 <? r)
                                                (requests entry)))) /\
    (_limits self !! service = None \/ _usage self !! service = None -> usage_pct = 0%Q).
Proof.
  intros Hr. destruct (get_usage_percentage_returns self service now Hr) as [u Hu].
  exists u, (throttle_events (logger self) service u).
  split; [exact Hu|]. split; [by apply wait_if_needed_run|].
  destruct (throttle_sleeps (logger self) service u) as (H60 & H5 & H0).
  split; [exact H60|]. split; [exact H5|]. split; [exact H0|]. split.
  - intros lim entry Hlim Hent. unfold get_usage_percentage in Hu.
    rewrite Hlim, Hent in Hu. rewrite (reachable_limits self Hr) in Hlim.
    pose proof (default_limits_rpm_pos service lim Hlim) as Hpos.
    destruct (default 30 (rpm lim) =? 0) eqn:Hz; [apply Z.eqb_eq in Hz; lia|].
    injection Hu as <-. unfold recent.
    rewrite (default_limits_window service lim Hlim).
    split; [reflexivity|]. intros p. by apply percentage_ge_iff.
  - intros Hnone. unfold get_usage_percentage in Hu.
    destruct Hnone as [Hn | Hn]; rewrite Hn in Hu.
    + by injection Hu as <-.
    + destruct (_limits self !! service); by injection Hu as <-.
Qed.

(** The throttle scenario with [rpm = 30]: 10 requests in the first ten
    seconds and 27 more between 100 s and 126 s. A call at 130 s finds the
    27 inside the last 60 seconds and suspends for 60 s, the 10 older ones
    not counting; a call at 170 s finds 16 and returns at once. *)
Lemma wait_if_needed_throttle_witness :
  let self := record_requests "groq" (List.map seconds (seqZ 1 10 ++ seqZ 100 27))
                (init None) in
  (exists usage_pct evs,
     get_usage_percentage self "groq" (seconds 130) = Py.Return usage_pct /\
     wait_if_needed "groq" (seconds 130) self [] = (Py.Return tt, self, [] ++ evs) /\
     (usage_pct == inject_Z 90)%Q /\
     Py.sleeps evs = [60]) /\
  (exists usage_pct evs,
     get_usage_percentage self "groq" (seconds 170) = Py.Return usage_pct /\
     wait_if_needed "groq" (seconds 170) self [] = (Py.Return tt, self, [] ++ evs) /\
     (usage_pct == inject_Z 1600 / inject_Z 30)%Q /\
     Py.sleeps evs = []).
Proof.
  intros self.
  assert (reachable self) as Hr by apply reachable_record_requests, reach_init.
  split.
  - destruct (wait_if_needed_throttle self "groq" (seconds 130) [] Hr)
      as (u & evs & Hu & Hrun & H60 & _).
    exists u, evs. split; [exact Hu|]. split; [exact Hrun|].
    assert (u = (inject_Z (Z.of_nat 27) / inject_Z 30 * inject_Z 100)%Q) as ->.
    { vm_compute in Hu. by injection Hu as <-. }
    split; [reflexivity|]. apply H60. vm_compute. discriminate.
  - destruct (wait_if_needed_throttle self "groq" (seconds 170) [] Hr)
      as (u & evs & Hu & Hrun & _ & _ & H0 & _).
    exists u, evs. split; [exact Hu|]. split; [exact Hrun|].
    assert (u = (inject_Z (Z.of_nat 16) / inject_Z 30 * inject_Z 100)%Q) as ->.
    { vm_compute in Hu. by injection Hu as <-. }
    split; [reflexivity|]. apply H0. reflexivity.
Defined.

(** With [rpm = 30] and 10 requests inside the last minute the call returns
    at once. *)
Example wait_if_needed_ten_requests :
  let self := record_requests "groq" (List.map seconds (seqZ 1 10)) (init None) in
  wait_if_needed "groq" (seconds 30) self [] = (Py.Return tt, self, []).
Proof. vm_compute. reflexivity. Qed.

(** Requests older than the window do not count: 27 requests, read two
    minutes later. *)
Example wait_if_needed_old_requests :
  let self := record_requests "groq" (List.map seconds (seqZ 1 27)) (init None) in
  get_usage_percentage self "groq" (seconds 150) = Py.Return (0 / inject_Z 30 * inject_Z 100)%Q.
Proof. vm_compute. reflexivity. Qed.

Example format_0f_examples :
  format_0f (290 # 3) = "97" /\ format_0f (5 # 2) = "2" /\
  format_0f (7 # 2) = "4" /\ format_0f (inject_Z 90) = "90".
Proof. repeat split. Qed.

(** C10: for a service with no entry in the limits or with no recorded
    requests, [get_usage_percentage] returns 0 and [wait_if_needed] returns
    at once, with no suspension and no other effect. *)
Theorem usage_zero_without_limits_or_requests (self : t) (service : string) (now : Z)
    (tr : list Py.event) :
  _limits self !! service = None \/ _usage self !! service = None ->
  get_usage_percentage self service now = Py.Return 0%Q /\
  wait_if_needed service now self tr = (Py.Return tt, self, tr).
Proof.
  intros H.
  assert (get_usage_percentage self service now = Py.Return 0%Q) as Hu.
  { unfold get_usage_percentage. destruct H as [-> | ->]; [done|].
    by destruct (_limits self !! service). }
  split; [exact Hu|].
  rewrite (wait_if_needed_run self service now 0%Q tr Hu).
  unfold throttle_events. simpl. by rewrite app_nil_r.
Qed.

Lemma usage_zero_without_limits_or_requests_witness :
  get_usage_percentage (init None) "reddit" 0 = Py.Return 0%Q /\
  wait_if_needed "reddit" 0 (init None) [] = (Py.Return tt, init None, []).
Proof.
  apply (usage_zero_without_limits_or_requests (init None) "reddit" 0 []).
  left. reflexivity.
Defined.

End RateLimit.

(** ** Fallback chains *)

Section Fallback.
Import APIFallbackStrategy.
Context {A : Type}.

Lemma criticals_app (tr1 tr2 : list Py.event) :
  Py.criticals (tr1 ++ tr2) = Py.criticals tr1 ++ Py.criticals tr2.
Proof. unfold Py.criticals. apply flat_map_app. Qed.

Lemma if_logger_run {S : Type} (lg : option Py.TelegramLogger) (c : Py.log_call) (s : S)
    (tr : list Py.event) :
  Py.if_logger lg c s tr = (Py.Return tt, s, tr ++ Py.logged lg c).
Proof. destruct lg; simpl; [reflexivity|]. unfold Py.ret. by rewrite app_nil_r. Qed.

(** One step of a computation. *)
Lemma bind_run {S B C : Type} (c : Py.M S B) (k : B -> Py.M S C) (s : S)
    (tr : list Py.event) :
  Py.bind c k s tr
  = match c s tr with
    | (Py.Return a, s', tr') => k a s' tr'
    | (Py.Raise e, s', tr') => (Py.Raise e, s', tr')
    end.
Proof. reflexivity. Qed.

Lemma criticals_logged_other (lg : option Py.TelegramLogger) (c : Py.log_call) :
  (forall ty details, c <> Py.log_critical ty details) -> Py.criticals (Py.logged lg c) = [].
Proof. intros Hc. destruct lg; [|done]. destruct c; try done. by destruct (Hc critical_type details). Qed.

Lemma try_fallbacks_return (service : string) (i : Z) (v : A) (fs : list (@callable A))
    (s : t) (tr : list Py.event) :
  try_fallbacks service i (Py.Return v :: fs) s tr
  = (Py.Return (Some v), s,
     tr ++ Py.logged (logger s)
             (Py.log_info "Fallback Successful"
                ("Service: " +:+ service +:+ Py.nl +:+
                 "Fallback #" +:+ pretty (i + 1) +:+ " worked"))).
Proof.
  simpl. unfold Py.bind, Py.get, Py.try_except, Py.await. by rewrite if_logger_run.
Qed.

Lemma try_fallbacks_raise (service : string) (i : Z) (e : Py.exn) (fs : list (@callable A))
    (s : t) (tr : list Py.event) :
  try_fallbacks service i (Py.Raise e :: fs) s tr
  = try_fallbacks service (i + 1) fs s
      (tr ++ Py.logged (logger s)
               (Py.log_warning ("Fallback #" +:+ pretty (i + 1) +:+ " Failed")
                  ("Service: " +:+ service +:+ Py.nl +:+ "Error: " +:+ Py.str e))).
Proof.
  simpl. unfold Py.bind at 1, Py.get. unfold Py.bind at 1, Py.try_except.
  unfold Py.bind at 1, Py.await. unfold Py.bind at 1. by rewrite if_logger_run.
Qed.

(** The loop over the fallbacks returns, never touches the strategy object
    and reports nothing at top severity. *)
Lemma try_fallbacks_state (service : string) (fs : list (@callable A)) :
  forall i s tr, exists r evs,
    try_fallbacks service i fs s tr = (Py.Return r, s, tr ++ evs) /\
    Py.criticals evs = [] /\
    (logger s = None -> evs = []).
Proof.
  induction fs as [|[v|e] fs IH]; intros i s tr.
  - exists None, []. by rewrite app_nil_r.
  - rewrite try_fallbacks_return. do 2 eexists. split; [reflexivity|].
    split; [by apply criticals_logged_other | by intros ->].
  - rewrite try_fallbacks_raise.
    destruct (IH (i + 1) s (tr ++ Py.logged (logger s)
               (Py.log_warning ("Fallback #" +:+ pretty (i + 1) +:+ " Failed")
                  ("Service: " +:+ service +:+ Py.nl +:+ "Error: " +:+ Py.str e))))
      as (r & evs & -> & Hcrit & Hnone).
    exists r. eexists. rewrite <- app_assoc. split; [reflexivity|]. split.
    + rewrite criticals_app, Hcrit. by rewrite criticals_logged_other.
    + intros Hlg. rewrite (Hnone Hlg), Hlg. done.
Qed.



Lemma try_primary_unavailable (primary : @callable A) (service : string)
    (now t_fail t_open : Z) (s : t) (tr : list Py.event) :
  is_available s service now = false ->
  try_primary primary service now t_fail t_open s tr = (Py.Return None, s, tr).
Proof. intros H. unfold try_primary, Py.bind, Py.get. by rewrite H. Qed.

Lemma try_primary_raises (e : Py.exn) (service : string)
    (now t_fail t_open : Z) (s : t) (tr : list Py.event) :
  is_available s service now = true ->
  try_primary (A := A) (Py.Raise e) service now t_fail t_open s tr
  = (Py.Return None, record_failure service t_fail t_open s,
     tr ++ Py.logged (logger s)
             (Py.log_warning (service +:+ " Primary Failed")
                ("Error: " +:+ Py.str e +:+ Py.nl +:+ "Trying fallbacks..."))).
Proof.
  intros H. unfold try_primary, Py.bind at 1, Py.get. rewrite H.
  unfold Py.try_except, Py.bind at 1, Py.await.
  unfold Py.bind at 1, Py.modify. unfold Py.bind. by rewrite if_logger_run.
Qed.

Lemma try_primary_returns (v : A) (service : string)
    (now t_fail t_open : Z) (s : t) (tr : list Py.event) :
  is_available s service now = true ->
  try_primary (Py.Return v) service now t_fail t_open s tr
  = (Py.Return (Some v), record_success service s, tr).
Proof. intros H. unfold try_primary, Py.bind at 1, Py.get. by rewrite H. Qed.



End Fallback.



(** ** Recovery *)

Section Recovery.
Import RecoveryManager.

Lemma attempt_recovery_below (component : string) (s : t) (tr : list Py.event) :
  get_failure_count s component < _max_failures s ->
  attempt_recovery component s tr = (Py.Return true, s, tr).
Proof.
  intros Hlt. unfold attempt_recovery, Py.bind at 1, Py.get.
  apply Z.ltb_lt in Hlt. by rewrite Hlt.
Qed.

(** At or above the threshold the call first reports that recovery is
    triggered and then looks the action up. *)
Lemma attempt_recovery_triggered (component : string) (s : t) (tr : list Py.event) :
  _max_failures s <= get_failure_count s component ->
  attempt_recovery component s tr =
  let tr1 := tr ++ Py.logged (logger s)
               (Py.log_warning "Recovery Triggered"
                  ("Component: " +:+ component +:+ Py.nl +:+
                   "Consecutive failures: " +:+ pretty (get_failure_count s component)
                   +:+ Py.nl +:+ "Attempting recovery...")) in
  match _recovery_actions s !! component with
  | None =>
      (Py.Return false, s,
       tr1 ++ Py.logged (logger s)
                (Py.log_critical "No Recovery Available"
                   ("Component: " +:+ component +:+ Py.nl +:+
                    "No recovery function registered." +:+ Py.nl +:+
                    "Manual intervention required.")))
  | Some (Py.Return _) =>
      (Py.Return true, record_success component s,
       tr1 ++ Py.logged (logger s)
                (Py.log_info "Recovery Successful"
                   ("Component: " +:+ component +:+ " recovered")))
  | Some (Py.Raise e) =>
      (Py.Return false, s,
       tr1 ++ Py.logged (logger s)
                (Py.log_critical "Recovery Failed"
                   ("Component: " +:+ component +:+ Py.nl +:+
                    "Error: " +:+ Py.str e +:+ Py.nl +:+
                    "Manual intervention required.")))
  end.
Proof.
  intros Hge. unfold attempt_recovery, Py.bind at 1, Py.get.
  apply Z.ltb_ge in Hge. rewrite Hge.
  unfold Py.bind at 1. rewrite if_logger_run.
  destruct (_recovery_actions s !! component) as [[[]|e]|]; simpl.
  - unfold Py.try_except, Py.bind at 1, Py.await. unfold Py.bind at 1, Py.modify.
    unfold Py.bind. by rewrite if_logger_run.
  - unfold Py.try_except, Py.bind at 1, Py.await. unfold Py.bind. by rewrite if_logger_run.
  - unfold Py.bind. by rewrite if_logger_run.
Qed.

(** C7, as amended: with the threshold at 5, [attempt_recovery] returns
    true and does nothing else while the failure count of the component is
    below 5. From 5 on: with no action registered it returns false, leaves
    the counters as they were and, if a logger is configured, reports
    "No Recovery Available ... Manual intervention required." at top
    severity (without a logger nothing is reported); with an action that
    succeeds it resets the counter to 0 and returns true; with an action
    that raises it returns false and the counter keeps its value. *)
Theorem attempt_recovery_outcomes (s : t) (component : string) (tr : list Py.event) :
  _max_failures s = 5 ->
  (get_failure_count s component < 5 ->
   attempt_recovery component s tr = (Py.Return true, s, tr)) /\
  (5 <= get_failure_count s component ->
   _recovery_actions s !! component = None ->
   exists evs,
     attempt_recovery component s tr = (Py.Return false, s, tr ++ evs) /\
     (forall lg, logger s = Some lg ->
        Py.criticals evs =
          [("No Recovery Available",
            "Component: " +:+ component +:+ Py.nl +:+
            "No recovery function registered." +:+ Py.nl +:+
            "Manual intervention required.")]) /\
     (logger s = None -> evs = [])) /\
  (5 <= get_failure_count s component ->
   _recovery_actions s !! component = Some (Py.Return tt) ->
   exists evs,
     attempt_recovery component s tr = (Py.Return true, record_success component s, tr ++ evs) /\
     get_failure_count (record_success component s) component = 0 /\
     Py.criticals evs = []) /\
  (forall e, 5 <= get_failure_count s component ->
   _recovery_actions s !! component = Some (Py.Raise e) ->
   exists evs,
     attempt_recovery component s tr = (Py.Return false, s, tr ++ evs)).
Proof.
  intros Hmax. split; [|split; [|split]].
  - intros Hlt. apply attempt_recovery_below. lia.
  - intros Hge Hnone. rewrite attempt_recovery_triggered by lia. rewrite Hnone. simpl.
    eexists. rewrite <- app_assoc. split; [reflexivity|]. split.
    + intros lg ->. reflexivity.
    + intros ->. reflexivity.
  - intros Hge Hact. rewrite attempt_recovery_triggered by lia. rewrite Hact. simpl.
    eexists. rewrite <- app_assoc. split; [reflexivity|]. split.
    + unfold get_failure_count. simpl. by rewrite lookup_insert_eq.
    + by destruct (logger s).
  - intros e Hge Hact. rewrite attempt_recovery_triggered by lia. rewrite Hact. simpl.
    eexists. rewrite <- app_assoc. reflexivity.
Qed.

Lemma attempt_recovery_outcomes_witness :
  let s := record_failures "database" 5 (init (Some Py.telegram_logger)) in
  (exists evs,
     attempt_recovery "database" s [] = (Py.Return false, s, [] ++ evs) /\
     Py.criticals evs =
       [("No Recovery Available",
         "Component: database" +:+ Py.nl +:+ "No recovery function registered." +:+ Py.nl +:+
         "Manual intervention required.")]) /\
  (exists evs,
     attempt_recovery "database" (register_recovery "database" (Py.Return tt) s) []
     = (Py.Return true,
        record_success "database" (register_recovery "database" (Py.Return tt) s),
        [] ++ evs)) /\
  (exists evs,
     attempt_recovery "database"
       (register_recovery "database" (Py.Raise (Py.Exception "down")) s) []
     = (Py.Return false, register_recovery "database" (Py.Raise (Py.Exception "down")) s,
        [] ++ evs)) /\
  attempt_recovery "database" (record_failures "database" 4 (init None)) []
  = (Py.Return true, record_failures "database" 4 (init None), []).
Proof.
  intros s. split; [|split; [|split]].
  - destruct (attempt_recovery_outcomes s "database" [] eq_refl) as (_ & Hnone & _).
    destruct Hnone as (evs & Hrun & Hcrit & _); [vm_compute; discriminate | reflexivity |].
    exists evs. split; [exact Hrun | exact (Hcrit Py.telegram_logger eq_refl)].
  - destruct (attempt_recovery_outcomes (register_recovery "database" (Py.Return tt) s)
                "database" [] eq_refl) as (_ & _ & Hok & _).
    destruct Hok as (evs & Hrun & _); [vm_compute; discriminate | reflexivity |].
    exists evs. exact Hrun.
  - destruct (attempt_recovery_outcomes
                (register_recovery "database" (Py.Raise (Py.Exception "down")) s)
                "database" [] eq_refl) as (_ & _ & _ & Hraise).
    apply (Hraise (Py.Exception "down")); [vm_compute; discriminate | reflexivity].
  - destruct (attempt_recovery_outcomes (record_failures "database" 4 (init None))
                "database" [] eq_refl) as (Hbelow & _).
    apply Hbelow. reflexivity.
Defined.

(** C7, counterexample: five consecutive failures of "database", no
    recovery action and no logger; the call returns false and reports
    nothing. *)
Lemma attempt_recovery_silent :
  let s := record_failures "database" 5 (init None) in
  get_failure_count s "database" = 5 /\
  _recovery_actions s !! "database" = None /\
  attempt_recovery "database" s [] = (Py.Return false, s, []).
Proof. repeat split. Qed.

End Recovery.

(** ** The posting pipeline *)

Section Posting.
Import DatabaseManager PostingPipeline.

Lemma set_item_status_rows (item_id : Z) (st : Status) (db : Database) (row : ContentQueue.t) :
  row ∈ content_queue (set_item_status item_id st db) ->
  ContentQueue.id row = item_id -> ContentQueue.status row = st.
Proof.
  simpl. intros Hin Hid. apply list_elem_of_In, in_map_iff in Hin as (r & <- & _).
  unfold update_status_row in *.
  destruct (ContentQueue.id r =? item_id) eqn:Heq; [reflexivity|].
  apply Z.eqb_neq in Heq. done.
Qed.

Lemma update_status_row_twice (item_id : Z) (st1 st2 : Status) (r : ContentQueue.t) :
  update_status_row item_id st2 (update_status_row item_id st1 r)
  = update_status_row item_id st2 r.
Proof.
  unfold update_status_row. destruct (ContentQueue.id r =? item_id) eqn:Heq; simpl.
  - by rewrite Heq.
  - by rewrite Heq.
Qed.

Lemma set_item_status_twice (item_id : Z) (st1 st2 : Status) (db : Database) :
  set_item_status item_id st2 (set_item_status item_id st1 db) = set_item_status item_id st2 db.
Proof.
  unfold set_item_status. simpl. f_equal. rewrite List.map_map.
  apply List.map_ext. intros r. apply update_status_row_twice.
Qed.


(** A status write commits, or raises and writes nothing. *)
Lemma update_queue_item_status_run (failure : option Py.exn) (item_id : Z) (st : Status)
    (db : Database) (tr : list Py.event) :
  update_queue_item_status failure item_id st db tr
  = match failure with
    | Some e => (Py.Raise e, db, tr)
    | None =>
        (Py.Return tt, set_item_status item_id st db, tr ++ [Py.StatusCommit item_id st])
    end.
Proof. by destruct failure. Qed.

(** The handler commits status rejected and then logs, or raises what its
    status write raises. *)
Lemma on_exception_run (self : PostingPipeline.t) (item : ContentQueue.t) (e : Py.exn)
    (db : Database) (tr : list Py.event) :
  on_exception self item e db tr
  = match handler_write_failure (collaborators self) with
    | Some e' => (Py.Raise e', db, tr)
    | None =>
        (Py.Return false, set_item_status (ContentQueue.id item) rejected db,
         (tr ++ [Py.StatusCommit (ContentQueue.id item) rejected])
         ++ Py.logged (logger self) (Py.log_error "Publishing Pipeline Failed" e))
    end.
Proof.
  unfold on_exception. rewrite bind_run, update_queue_item_status_run.
  destruct (handler_write_failure (collaborators self)); [reflexivity|].
  by rewrite bind_run, if_logger_run.
Qed.

(** The image branch touches neither the database nor the trace. *)
Lemma publish_visual_outcomes (c : Collaborators) (meme : Meme.t) (image_path : option string)
    (db : Database) (tr : list Py.event) :
  exists o, publish_visual c meme image_path db tr = (o, db, tr).
Proof.
  unfold publish_visual, Py.await, Py.ret.
  destruct (truthy_opt_str image_path); [eauto|].
  destruct (truthy_opt_str _); eauto.
Qed.

(** The first half of the [try] body rejects the item and returns, or hands
    on a message id with the database untouched, or raises with the
    database untouched. *)
Lemma deliver_outcomes (self : PostingPipeline.t) (item : ContentQueue.t) (db : Database)
    (tr : list Py.event) :
  (status_write_failure (collaborators self) = None /\
   deliver self item db tr
     = (Py.Return (inl false), set_item_status (ContentQueue.id item) rejected db,
        tr ++ [Py.StatusCommit (ContentQueue.id item) rejected])) \/
  (exists message_id, deliver self item db tr = (Py.Return (inr message_id), db, tr)) \/
  (exists e, deliver self item db tr = (Py.Raise e, db, tr)).
Proof.
  unfold deliver.
  destruct (String.eqb _ "text_only").
  - destruct (negb _).
    + rewrite bind_run, update_queue_item_status_run.
      destruct (status_write_failure (collaborators self)) as [e|]; [right; right; eauto|].
      by left.
    + unfold Py.bind, Py.await. destruct (publish_text _ _); right; eauto.
  - right.
    assert (exists o : Py.outcome (option Z),
              (image_path <- (if truthy_opt_str (Meme.image_path (ContentQueue.meme_data item))
                              then Py.ret (Meme.image_path (ContentQueue.meme_data item))
                              else Py.await (generate (collaborators self)
                                               (ContentQueue.meme_data item))) ;;
               message_id <- publish_visual (collaborators self)
                               (ContentQueue.meme_data item) image_path ;;
               Py.ret (inr message_id : bool + option Z)) db tr
              = (match o with
                 | Py.Return message_id => Py.Return (inr message_id)
                 | Py.Raise e => Py.Raise e
                 end, db, tr)) as [o ->].
    { unfold Py.bind.
      destruct (truthy_opt_str (Meme.image_path (ContentQueue.meme_data item))).
      - unfold Py.ret at 1.
        destruct (publish_visual_outcomes (collaborators self) (ContentQueue.meme_data item)
                    (Meme.image_path (ContentQueue.meme_data item)) db tr) as [o ->].
        exists o. by destruct o.
      - unfold Py.await at 1. destruct (generate _ _) as [image_path|e].
        + destruct (publish_visual_outcomes (collaborators self) (ContentQueue.meme_data item)
                      image_path db tr) as [o ->].
          exists o. by destruct o.
        + by exists (Py.Raise e). }
    destruct o; eauto.
Qed.

(** The second half of the [try] body, by the message id and by what the
    two commits do. *)
Lemma record_delivery_cases (self : PostingPipeline.t) (item : ContentQueue.t) (now : Z)
    (message_id : option Z) (db : Database) (tr : list Py.event) :
  (Py.truthy_int message_id = true /\
   exists p evs,
     record_delivery self item now message_id db tr
       = (Py.Return true,
          insert_post p (set_item_status (ContentQueue.id item) published db),
          (tr ++ [Py.StatusCommit (ContentQueue.id item) published]) ++ evs) /\
     Post.id p = posts_seq db /\ Post.telegram_message_id p = message_id /\
     Post.content_type p = default "text_only" (Meme.type (ContentQueue.meme_data item)) /\
     Post.published_at p = Some now) \/
  (status_write_failure (collaborators self) = None /\
   exists e,
     save_post_failure (collaborators self) = Some e /\
     record_delivery self item now message_id db tr
       = (Py.Raise e, set_item_status (ContentQueue.id item) published db,
          tr ++ [Py.StatusCommit (ContentQueue.id item) published])) \/
  (exists e, record_delivery self item now message_id db tr = (Py.Raise e, db, tr)) \/
  (Py.truthy_int message_id = false /\
   record_delivery self item now message_id db tr
     = (Py.Return false, set_item_status (ContentQueue.id item) rejected db,
        tr ++ [Py.StatusCommit (ContentQueue.id item) rejected])).
Proof.
  unfold record_delivery. destruct (Py.truthy_int message_id) eqn:Hmid.
  - rewrite bind_run, update_queue_item_status_run.
    destruct (status_write_failure (collaborators self)) as [e|]; [right; right; left; eauto|].
    unfold save_post. destruct (save_post_failure (collaborators self)) as [e|].
    + right. left. split; [reflexivity|]. by exists e.
    + left. split; [reflexivity|].
      unfold Py.bind, Py.get, Py.put, Py.ret. cbn beta iota. rewrite if_logger_run.
      do 2 eexists. split; [reflexivity|]. done.
  - rewrite bind_run, update_queue_item_status_run.
    destruct (status_write_failure (collaborators self)) as [e|]; [right; right; left; eauto|].
    right. right. right. done.
Qed.

(** The [try] body: it stores the post and returns true; or rejects the
    item and returns false; or raises with the database untouched; or
    raises when the post record cannot be saved, with the item already
    committed as published. *)
Lemma delivery_sequence_cases (self : PostingPipeline.t) (item : ContentQueue.t) (now : Z)
    (db : Database) (tr : list Py.event) :
  (exists p evs,
     delivery_sequence self item now db tr
       = (Py.Return true,
          insert_post p (set_item_status (ContentQueue.id item) published db),
          (tr ++ [Py.StatusCommit (ContentQueue.id item) published]) ++ evs) /\
     Post.id p = posts_seq db /\ Py.truthy_int (Post.telegram_message_id p) = true /\
     Post.content_type p = default "text_only" (Meme.type (ContentQueue.meme_data item)) /\
     Post.published_at p = Some now) \/
  (delivery_sequence self item now db tr
     = (Py.Return false, set_item_status (ContentQueue.id item) rejected db,
        tr ++ [Py.StatusCommit (ContentQueue.id item) rejected])) \/
  (exists e, delivery_sequence self item now db tr = (Py.Raise e, db, tr)) \/
  (status_write_failure (collaborators self) = None /\
   exists e,
     save_post_failure (collaborators self) = Some e /\
     delivery_sequence self item now db tr
       = (Py.Raise e, set_item_status (ContentQueue.id item) published db,
          tr ++ [Py.StatusCommit (ContentQueue.id item) published])).
Proof.
  unfold delivery_sequence. rewrite bind_run.
  destruct (deliver_outcomes self item db tr) as [[_ ->] | [[mid ->] | [e ->]]].
  - right. left. reflexivity.
  - destruct (record_delivery_cases self item now mid db tr)
      as [(Hmid & p & evs & -> & Hid & Hmsg & Hty & Hat)
         | [(Hst & e & Hsave & ->) | [[e ->] | [Hmid ->]]]].
    + left. exists p, evs. rewrite Hmsg. done.
    + right. right. right. split; [exact Hst|]. by exists e.
    + right. right. left. by exists e.
    + right. left. reflexivity.
  - right. right. left. by exists e.
Qed.

(** What one delivery does to the database. *)
Lemma publish_item_outcome (self : PostingPipeline.t) (item : ContentQueue.t) (now : Z)
    (db : Database) (tr : list Py.event) :
  exists r db' tr',
    publish_item self item now db tr = (r, db', tr') /\
    content_queue_seq db' = content_queue_seq db /\
    match r with
    | Py.Return true =>
        content_queue db'
          = List.map (update_status_row (ContentQueue.id item) published) (content_queue db) /\
        exists p, posts db' = posts db ++ [p] /\
                  posts_seq db' = posts_seq db + 1 /\
                  Post.id p = posts_seq db /\
                  Py.truthy_int (Post.telegram_message_id p) = true /\
                  Post.content_type p
                    = default "text_only" (Meme.type (ContentQueue.meme_data item)) /\
                  Post.published_at p = Some now
    | Py.Return false =>
        content_queue db'
          = List.map (update_status_row (ContentQueue.id item) rejected) (content_queue db) /\
        posts db' = posts db /\ posts_seq db' = posts_seq db
    | Py.Raise e =>
        handler_write_failure (collaborators self) = Some e /\
        posts db' = posts db /\ posts_seq db' = posts_seq db /\
        (content_queue db' = content_queue db \/
         (content_queue db'
            = List.map (update_status_row (ContentQueue.id item) published) (content_queue db) /\
          status_write_failure (collaborators self) = None /\
          is_Some (save_post_failure (collaborators self))))
    end.
Proof.
  unfold publish_item, Py.try_except.
  destruct (delivery_sequence_cases self item now db tr)
    as [(p & evs & -> & Hid & Hmsg & Hty & Hat) | [-> | [[e ->] | (Hst & e & Hsave & ->)]]].
  - do 3 eexists. split; [reflexivity|]. split; [reflexivity|]. simpl.
    split; [reflexivity|]. exists p. done.
  - do 3 eexists. split; [reflexivity|]. done.
  - rewrite on_exception_run.
    destruct (handler_write_failure (collaborators self)) as [e'|].
    + do 3 eexists. split; [reflexivity|]. split; [reflexivity|].
      split; [reflexivity|]. split; [reflexivity|]. split; [reflexivity|]. by left.
    + do 3 eexists. split; [reflexivity|]. done.
  - rewrite on_exception_run, set_item_status_twice.
    destruct (handler_write_failure (collaborators self)) as [e'|].
    + do 3 eexists. split; [reflexivity|]. split; [reflexivity|].
      split; [reflexivity|]. split; [reflexivity|]. split; [reflexivity|].
      right. rewrite Hsave. split; [reflexivity|]. split; [exact Hst | eauto].
    + do 3 eexists. split; [reflexivity|]. done.
Qed.

(** The places of the delivery sequence that can raise: the handler runs on
    the database as the sequence left it. *)

Lemma publish_item_render_raises (self : PostingPipeline.t) (item : ContentQueue.t) (now : Z)
    (e : Py.exn) (db : Database) (tr : list Py.event) :
  String.eqb (default "text_only" (Meme.type (ContentQueue.meme_data item))) "text_only" = false ->
  truthy_opt_str (Meme.image_path (ContentQueue.meme_data item)) = false ->
  generate (collaborators self) (ContentQueue.meme_data item) = Py.Raise e ->
  publish_item self item now db tr = on_exception self item e db tr.
Proof.
  intros Hty Himg Hgen.
  unfold publish_item, Py.try_except, delivery_sequence, deliver.
  rewrite Hty. unfold Py.bind. rewrite Himg. unfold Py.await. by rewrite Hgen.
Qed.

Lemma publish_item_publish_text_raises (self : PostingPipeline.t) (item : ContentQueue.t)
    (now : Z) (e : Py.exn) (db : Database) (tr : list Py.event) :
  String.eqb (default "text_only" (Meme.type (ContentQueue.meme_data item))) "text_only" = true ->
  Py.truthy_str (default "" (Meme.text (ContentQueue.meme_data item))) = true ->
  publish_text (collaborators self) (default "" (Meme.text (ContentQueue.meme_data item)))
    = Py.Raise e ->
  publish_item self item now db tr = on_exception self item e db tr.
Proof.
  intros Hty Htext Hpub.
  unfold publish_item, Py.try_except, delivery_sequence, deliver.
  rewrite Hty, Htext. unfold Py.bind, Py.await. by rewrite Hpub.
Qed.

Lemma publish_item_save_post_raises (self : PostingPipeline.t) (item : ContentQueue.t)
    (now : Z) (message_id : option Z) (e : Py.exn) (db : Database) (tr : list Py.event) :
  deliver self item db tr = (Py.Return (inr message_id), db, tr) ->
  Py.truthy_int message_id = true ->
  status_write_failure (collaborators self) = None ->
  save_post_failure (collaborators self) = Some e ->
  publish_item self item now db tr
  = on_exception self item e (set_item_status (ContentQueue.id item) published db)
      (tr ++ [Py.StatusCommit (ContentQueue.id item) published]).
Proof.
  intros Hdel Hmid Hst Hsave.
  unfold publish_item, Py.try_except, delivery_sequence. rewrite bind_run, Hdel.
  unfold record_delivery. rewrite Hmid.
  rewrite bind_run, update_queue_item_status_run, Hst.
  unfold save_post. by rewrite Hsave.
Qed.

Lemma publish_item_status_write_raises (self : PostingPipeline.t) (item : ContentQueue.t)
    (now : Z) (message_id : option Z) (e : Py.exn) (db : Database) (tr : list Py.event) :
  deliver self item db tr = (Py.Return (inr message_id), db, tr) ->
  status_write_failure (collaborators self) = Some e ->
  publish_item self item now db tr = on_exception self item e db tr.
Proof.
  intros Hdel Hst.
  unfold publish_item, Py.try_except, delivery_sequence. rewrite bind_run, Hdel.
  unfold record_delivery.
  destruct (Py.truthy_int message_id);
    by rewrite bind_run, update_queue_item_status_run, Hst.
Qed.

Lemma next_from_queue_run (db : Database) (tr : list Py.event) :
  get_next_from_queue db tr = (next_from_queue db, db, tr).
Proof. reflexivity. Qed.

Lemma publish_next_dequeued (self : PostingPipeline.t) (now : Z) (db : Database)
    (tr : list Py.event) (item : ContentQueue.t) :
  next_from_queue db = Py.Return (Some item) ->
  publish_next self now db tr = publish_item self item now db tr.
Proof.
  intros Hnext. unfold publish_next. by rewrite bind_run, next_from_queue_run, Hnext.
Qed.

(** C3: for the item that [publish_next] dequeues, an exception raised in
    the delivery sequence reaches the handler, whose first step is the
    write of status rejected. When that write is committed, the call has
    status rejected on every row of the item, after every effect of the
    sequence and before the error is logged, and returns false. When that
    write raises, its exception leaves the call: nothing is logged and the
    database is as the sequence left it. However the sequence ends, the
    call raises only in that way, and whenever it returns every row of the
    item is published or rejected, none pending. *)
Theorem publish_next_settles_item (self : PostingPipeline.t) (now : Z) (db : Database)
    (tr : list Py.event) (item : ContentQueue.t) :
  next_from_queue db = Py.Return (Some item) ->
  (forall e db1 tr1,
     delivery_sequence self item now db tr = (Py.Raise e, db1, tr1) ->
     match handler_write_failure (collaborators self) with
     | None =>
         publish_next self now db tr
         = (Py.Return false, set_item_status (ContentQueue.id item) rejected db1,
            (tr1 ++ [Py.StatusCommit (ContentQueue.id item) rejected])
            ++ Py.logged (logger self) (Py.log_error "Publishing Pipeline Failed" e)) /\
         forall row,
           row ∈ content_queue (set_item_status (ContentQueue.id item) rejected db1) ->
           ContentQueue.id row = ContentQueue.id item -> ContentQueue.status row = rejected
     | Some e' => publish_next self now db tr = (Py.Raise e', db1, tr1)
     end) /\
  exists r db' tr',
    publish_next self now db tr = (r, db', tr') /\
    match r with
    | Py.Return _ =>
        forall row, row ∈ content_queue db' ->
          ContentQueue.id row = ContentQueue.id item ->
          ContentQueue.status row = published \/ ContentQueue.status row = rejected
    | Py.Raise e' => handler_write_failure (collaborators self) = Some e'
    end.
Proof.
  intros Hnext. rewrite (publish_next_dequeued self now db tr item Hnext). split.
  - intros e db1 tr1 Hseq. unfold publish_item, Py.try_except.
    rewrite Hseq, on_exception_run.
    destruct (handler_write_failure (collaborators self)); [reflexivity|].
    split; [reflexivity|]. apply set_item_status_rows.
  - destruct (publish_item_outcome self item now db tr) as (r & db' & tr' & -> & _ & Hcase).
    exists r, db', tr'. split; [reflexivity|].
    destruct r as [[|]|e'].
    + destruct Hcase as [Hrows _]. intros row Hin Hid. left. rewrite Hrows in Hin.
      exact (set_item_status_rows (ContentQueue.id item) published db row Hin Hid).
    + destruct Hcase as [Hrows _]. intros row Hin Hid. right. rewrite Hrows in Hin.
      exact (set_item_status_rows (ContentQueue.id item) rejected db row Hin Hid).
    + by destruct Hcase.
Qed.

(** Item A is delivered as message 100, the commit of its post record
    fails: the item is first committed as published, then as rejected, and
    the error is logged last. *)
Lemma publish_next_settles_item_witness :
  let self := PostingPipeline.mk
                (Scenario.collaborators (Some (Py.Exception "connection lost")))
                (Some Py.telegram_logger) in
  publish_next self 5 Scenario.db_A_B []
  = (Py.Return false, set_item_status 1 rejected (set_item_status 1 published Scenario.db_A_B),
     [Py.StatusCommit 1 published; Py.StatusCommit 1 rejected;
      Py.Logger (Py.log_error "Publishing Pipeline Failed" (Py.Exception "connection lost"))]) /\
  forall row,
    row ∈ content_queue (set_item_status 1 rejected (set_item_status 1 published Scenario.db_A_B)) ->
    ContentQueue.id row = 1 -> ContentQueue.status row = rejected.
Proof.
  intros self.
  destruct (publish_next_settles_item self 5 Scenario.db_A_B [] Scenario.item_A eq_refl)
    as [Hraise _].
  exact (Hraise (Py.Exception "connection lost")
           (set_item_status 1 published Scenario.db_A_B)
           [Py.StatusCommit 1 published] eq_refl).
Defined.

(** The end-to-end scenario: with A yielded before B the call acts on A;
    when the publisher delivers nothing A is rejected, and the next call
    acts on B. *)
Example publish_next_A_then_B :
  let c := PostingPipeline.mkCollaborators
             (fun _ => Py.Return None) (fun _ => Py.Return None)
             (fun _ _ => Py.Return None) (fun _ => "") None None None in
  let self := PostingPipeline.mk c None in
  publish_next self 5 Scenario.db_A_B []
  = (Py.Return false, set_item_status 1 rejected Scenario.db_A_B,
     [Py.StatusCommit 1 rejected]) /\
  publish_next self 6 (set_item_status 1 rejected Scenario.db_A_B) []
  = (Py.Return false,
     set_item_status 2 rejected (set_item_status 1 rejected Scenario.db_A_B),
     [Py.StatusCommit 2 rejected]).
Proof. split; reflexivity. Qed.

(** A status write of the [try] body that raises is handled like any other
    exception of the sequence: the handler's own write rejects the item. *)
Example publish_next_status_write_fails :
  let c := PostingPipeline.mkCollaborators
             (fun _ => Py.Return None) (fun _ => Py.Return (Some 100))
             (fun _ _ => Py.Return (Some 200)) (fun _ => "") None
             (Some (Py.Exception "database is locked")) None in
  publish_next (PostingPipeline.mk c None) 5 Scenario.db_A_B []
  = (Py.Return false, set_item_status 1 rejected Scenario.db_A_B,
     [Py.StatusCommit 1 rejected]).
Proof. reflexivity. Qed.

End Posting.

(** C3, counterexample: the publisher raises on item A and the database
    refuses the status write of the handler. The exception of that write
    leaves [publish_next]: status rejected is never committed, nothing is
    logged although a logger is configured, and A is still pending. *)
Lemma publish_next_abandons_item :
  let self := PostingPipeline.mk Scenario.collaborators_db_down (Some Py.telegram_logger) in
  DatabaseManager.next_from_queue Scenario.db_A_B = Py.Return (Some Scenario.item_A) /\
  PostingPipeline.delivery_sequence self Scenario.item_A 5 Scenario.db_A_B []
    = (Py.Raise (Py.Exception "Connection reset by peer"), Scenario.db_A_B, []) /\
  PostingPipeline.publish_next self 5 Scenario.db_A_B []
    = (Py.Raise (Py.Exception "database is locked"), Scenario.db_A_B, []) /\
  Scenario.item_A ∈ content_queue Scenario.db_A_B /\
  ContentQueue.status Scenario.item_A = pending.
Proof.
  split; [reflexivity|]. split; [reflexivity|]. split; [reflexivity|].
  split; [apply list_elem_of_In; by left | reflexivity].
Qed.

(** * Further properties of the modelled code *)

(** ** The queue table *)

Section QueueTable.
Import DatabaseManager.

Lemma clear_row_not_pending (r : ContentQueue.t) :
  ContentQueue.is_pending (clear_row r) = false.
Proof.
  unfold clear_row, ContentQueue.is_pending.
  destruct (bool_decide (ContentQueue.status r = pending)) eqn:Hp; [reflexivity | exact Hp].
Qed.

Lemma where_pending_clear_rows (rows : list ContentQueue.t) :
  where_pending (List.map clear_row rows) = [].
Proof.
  induction rows as [|r rows IH]; [reflexivity|].
  simpl. by rewrite clear_row_not_pending.
Qed.

(** X1: [clear_queue] leaves no pending row: the queue size is 0 and there is
    no next item; it turns each pending row into an expired one and leaves
    every other row, and the posts, as they were. *)
Theorem clear_queue_empties (db : Database) (tr : list Py.event) :
  exists db',
    clear_queue db tr = (Py.Return tt, db', tr) /\
    queue_size db' = 0 /\
    next_from_queue db' = Py.Return None /\
    Forall2 (fun r r' =>
               (ContentQueue.status r = pending -> r' = ContentQueue.set_status expired r) /\
               (ContentQueue.status r <> pending -> r' = r))
            (content_queue db) (content_queue db') /\
    posts db' = posts db.
Proof.
  exists (clear_rows db). split; [reflexivity|].
  unfold queue_size, next_from_queue. simpl. rewrite where_pending_clear_rows.
  split; [reflexivity|]. split; [reflexivity|]. split; [|reflexivity].
  induction (content_queue db) as [|r rows IH]; simpl; constructor; [|exact IH].
  unfold clear_row, ContentQueue.is_pending. split; intros H.
  - by rewrite bool_decide_eq_true_2.
  - by rewrite bool_decide_eq_false_2.
Qed.

Lemma where_pending_app (l1 l2 : list ContentQueue.t) :
  where_pending (l1 ++ l2) = where_pending l1 ++ where_pending l2.
Proof. apply List.filter_app. Qed.

(** X2: An item added with a priority above that of every pending row is the
    next item of the queue; in particular the item added to a queue with
    nothing pending is. *)
Theorem add_to_queue_then_next (db : Database) (meme_data : Meme.t) (priority : Q) (now : Z)
    (tr : list Py.event) :
  (forall y, y ∈ content_queue db -> ContentQueue.status y = pending ->
             (ContentQueue.priority y < priority)%Q) ->
  exists item db',
    add_to_queue meme_data priority now db tr = (Py.Return item, db', tr) /\
    ContentQueue.meme_data item = meme_data /\
    ContentQueue.id item = content_queue_seq db /\
    next_from_queue db' = Py.Return (Some item).
Proof.
  intros Htop. exists (new_item db meme_data priority now).
  exists (insert_item (new_item db meme_data priority now) db).
  split; [reflexivity|]. split; [reflexivity|]. split; [reflexivity|].
  destruct (next_from_queue_spec (insert_item (new_item db meme_data priority now) db))
    as (r & -> & Hspec).
  simpl in Hspec. destruct r as [x|].
  - destruct Hspec as (Hin & Hp & Hmax). apply in_app_iff in Hin as [Hin|[<-|[]]]; [|done].
    exfalso. apply (Qlt_not_le _ _ (Htop x (proj2 (list_elem_of_In _ _) Hin) Hp)).
    apply (Hmax (new_item db meme_data priority now)); [|reflexivity].
    apply in_app_iff. right. by left.
  - exfalso. apply (Hspec (new_item db meme_data priority now)); [|reflexivity].
    apply in_app_iff. right. by left.
Qed.

Lemma add_to_queue_then_next_witness :
  exists item db',
    add_to_queue (Scenario.text_meme "C") (inject_Z 9) 7 Scenario.db_A_B []
      = (Py.Return item, db', []) /\
    next_from_queue db' = Py.Return (Some item).
Proof.
  destruct (add_to_queue_then_next Scenario.db_A_B (Scenario.text_meme "C") (inject_Z 9) 7 [])
    as (item & db' & Hadd & _ & _ & Hnext).
  - intros y Hy _. apply list_elem_of_In in Hy.
    destruct Hy as [<-|[<-|[]]]; reflexivity.
  - exists item, db'. split; [exact Hadd | exact Hnext].
Defined.

Lemma is_stale_pending (cutoff : Z) (r : ContentQueue.t) :
  is_stale cutoff r = true -> ContentQueue.is_pending r = true.
Proof. unfold is_stale. by intros [H _]%andb_true_iff. Qed.

Lemma expire_rows_pending_count (cutoff : Z) (rows : list ContentQueue.t) :
  (length (where_pending (List.map (expire_row cutoff) rows))
   + length (List.filter (is_stale cutoff) rows))%nat
  = length (where_pending rows).
Proof.
  induction rows as [|r rows IH]; [reflexivity|].
  simpl. unfold expire_row at 1.
  destruct (is_stale cutoff r) eqn:Hs.
  - rewrite (is_stale_pending cutoff r Hs). simpl. lia.
  - destruct (ContentQueue.is_pending r); simpl; lia.
Qed.

(** X3: The number [expire_old_queue_items] returns is the number by which the
    pending count drops; it lies between 0 and the pending count. *)
Theorem expire_old_queue_items_size (now max_age_hours : Z) (db : Database)
    (tr : list Py.event) :
  exists n db',
    expire_old_queue_items now max_age_hours db tr = (Py.Return n, db', tr) /\
    queue_size db' = queue_size db - n /\
    0 <= n <= queue_size db.
Proof.
  exists (rowcount (now - hours max_age_hours) db), (expire_rows (now - hours max_age_hours) db).
  split; [reflexivity|].
  pose proof (expire_rows_pending_count (now - hours max_age_hours) (content_queue db)) as H.
  unfold queue_size, rowcount. simpl. lia.
Qed.

End QueueTable.

(** ** The queue manager *)

Section QueueManagerMore.
Import DatabaseManager QueueManager.

(** How many further items fit. *)
Lemma add_memes_counts (self : QueueManager.t) (calls : list (Meme.t * Q * Z)) :
  forall db tr, queue_size db <= max_size self ->
    exists bs db' tr',
      add_memes self calls db tr = (Py.Return bs, db', tr') /\
      bs = List.repeat true (Nat.min (length calls) (Z.to_nat (max_size self - queue_size db)))
           ++ List.repeat false (length calls - Z.to_nat (max_size self - queue_size db)) /\
      queue_size db' = Z.min (max_size self) (queue_size db + Z.of_nat (length calls)) /\
      content_queue_seq db' - content_queue_seq db
        = Z.min (max_size self - queue_size db) (Z.of_nat (length calls)).
Proof.
  induction calls as [|[[m p] now] calls IH]; intros db tr Hinv.
  - exists [], db, tr. simpl. split; [reflexivity|]. split; [reflexivity|]. lia.
  - simpl add_memes. unfold Py.bind at 1. rewrite add_meme_run.
    destruct (max_size self <=? queue_size db) eqn:Hfull.
    + apply Z.leb_le in Hfull.
      destruct (IH db (match logger self with
                       | Some _ => tr ++ [Py.Logger (Py.log_warning "Queue Full"
                            ("Queue at max capacity (" +:+ pretty (max_size self)
                             +:+ "). Meme not added."))]
                       | None => tr end) Hinv) as (bs & db' & tr' & Hrun & Hbs & Hsize & Hseq).
      exists (false :: bs), db', tr'. unfold Py.bind at 1. rewrite Hrun.
      split; [reflexivity|]. split; [|lia].
      rewrite Hbs. replace (Z.to_nat (max_size self - queue_size db)) with 0%nat by lia.
      rewrite !Nat.min_0_r, !Nat.sub_0_r. reflexivity.
    + apply Z.leb_gt in Hfull.
      pose proof (queue_size_insert_item (new_item db m p now) db eq_refl) as Hgrow.
      destruct (IH (insert_item (new_item db m p now) db) tr ltac:(lia))
        as (bs & db' & tr' & Hrun & Hbs & Hsize & Hseq).
      exists (true :: bs), db', tr'. unfold Py.bind at 1. rewrite Hrun.
      split; [reflexivity|]. split; [|split].
      * rewrite Hbs, Hgrow.
        replace (Z.to_nat (max_size self - queue_size db))
          with (S (Z.to_nat (max_size self - (queue_size db + 1)))) by lia.
        reflexivity.
      * rewrite Hsize, Hgrow. simpl length. lia.
      * simpl in Hseq. rewrite Hgrow in Hseq. simpl length. lia.
Qed.

(** X4: Of a sequence of [add_meme] calls made with the pending count, the
    number of rows whose status is pending, within [max_size], exactly the
    first [max_size - pending] return true and all later ones false; the
    pending count ends at the smaller of [max_size] and the old count plus
    the number of calls. Rows that are not pending take no room. *)
Theorem add_memes_fill_to_capacity (self : QueueManager.t) (calls : list (Meme.t * Q * Z))
    (db : Database) (tr : list Py.event) :
  Z.of_nat (length (List.filter (fun r => bool_decide (ContentQueue.status r = pending))
                                (content_queue db))) <= max_size self ->
  exists bs db' tr',
    add_memes self calls db tr = (Py.Return bs, db', tr') /\
    bs = List.repeat true
           (Nat.min (length calls)
              (Z.to_nat (max_size self
                         - Z.of_nat (length (List.filter
                                               (fun r => bool_decide (ContentQueue.status r = pending))
                                               (content_queue db))))))
         ++ List.repeat false
              (length calls
               - Z.to_nat (max_size self
                           - Z.of_nat (length (List.filter
                                                 (fun r => bool_decide (ContentQueue.status r = pending))
                                                 (content_queue db))))) /\
    Z.of_nat (length (List.filter (fun r => bool_decide (ContentQueue.status r = pending))
                                  (content_queue db')))
    = Z.min (max_size self)
            (Z.of_nat (length (List.filter (fun r => bool_decide (ContentQueue.status r = pending))
                                           (content_queue db)))
             + Z.of_nat (length calls)).
Proof.
  intros Hinv. rewrite <- !queue_size_pending_rows in *.
  destruct (add_memes_counts self calls db tr Hinv) as (bs & db' & tr' & H1 & H2 & H3 & _).
  exists bs, db', tr'. rewrite <- queue_size_pending_rows. done.
Qed.

(** Four calls with [max_size = 3] on a table whose two rows are not
    pending: three items are admitted. *)
Lemma add_memes_fill_to_capacity_witness :
  exists db' tr',
    add_memes (QueueManager.mk None 1 3)
      [(Scenario.text_meme "c", inject_Z 1, 5); (Scenario.text_meme "d", inject_Z 1, 6);
       (Scenario.text_meme "e", inject_Z 1, 7); (Scenario.text_meme "f", inject_Z 1, 8)]
      Scenario.db_settled []
    = (Py.Return [true; true; true; false], db', tr') /\
    Z.of_nat (length (List.filter (fun r => bool_decide (ContentQueue.status r = pending))
                                  (content_queue db'))) = 3.
Proof.
  destruct (add_memes_fill_to_capacity (QueueManager.mk None 1 3)
      [(Scenario.text_meme "c", inject_Z 1, 5); (Scenario.text_meme "d", inject_Z 1, 6);
       (Scenario.text_meme "e", inject_Z 1, 7); (Scenario.text_meme "f", inject_Z 1, 8)]
      Scenario.db_settled [])
    as (bs & db' & tr' & Hrun & Hbs & Hsize).
  - vm_compute. discriminate.
  - exists db', tr'. rewrite Hrun, Hbs, Hsize. split; reflexivity.
Defined.

(** [get_status] reports what [needs_refill] and [is_full] answer on the
    same database; its health is "ok" exactly when the size lies between
    [min_size] and [max_size]; and with [min_size <= max_size] a queue that
    needs a refill is never full. *)
Theorem get_status_consistent (self : QueueManager.t) (db : Database) (tr : list Py.event) :
  exists st,
    get_status self db tr = (Py.Return st, db, tr) /\
    QueueStatus.size st = queue_size db /\
    needs_refill self db tr = (Py.Return (QueueStatus.needs_refill st), db, tr) /\
    is_full self db tr = (Py.Return (QueueStatus.is_full st), db, tr) /\
    (QueueStatus.health st = "ok" <->
     min_size self <= queue_size db <= max_size self) /\
    (QueueStatus.health st = "ok" \/ QueueStatus.health st = "warning") /\
    (min_size self <= max_size self ->
     QueueStatus.needs_refill st = true -> QueueStatus.is_full st = false).
Proof.
  eexists. split; [reflexivity|]. simpl.
  split; [reflexivity|]. split; [reflexivity|]. split; [reflexivity|].
  split; [|split].
  - destruct (min_size self <=? queue_size db) eqn:H1;
      destruct (queue_size db <=? max_size self) eqn:H2; simpl;
      rewrite ?Z.leb_le, ?Z.leb_gt in *; split; try done; intros; lia.
  - destruct ((min_size self <=? queue_size db) && (queue_size db <=? max_size self)); auto.
  - intros Hmm Hlow. apply Z.ltb_lt in Hlow. apply Z.leb_gt. lia.
Qed.

Lemma get_status_consistent_witness :
  exists st,
    get_status (QueueManager.mk None 10 50) Scenario.db_A_B [] = (Py.Return st, Scenario.db_A_B, []) /\
    QueueStatus.needs_refill st = true /\ QueueStatus.is_full st = false /\
    QueueStatus.health st = "warning".
Proof.
  destruct (get_status_consistent (QueueManager.mk None 10 50) Scenario.db_A_B [])
    as (st & Hrun & Hsize & _ & _ & _ & Hhealth & Hexcl).
  exists st. split; [exact Hrun|].
  injection Hrun as <-. split; [reflexivity|]. split; [|reflexivity].
  apply Hexcl; [vm_compute; discriminate | reflexivity].
Defined.

(** Once expired at a cutoff, a table has nothing to expire at a later
    cutoff that no further pending row has crossed. *)
Lemma expire_rows_settled (cutoff cutoff' : Z) (db : Database) :
  (forall r, r ∈ content_queue db -> ContentQueue.status r = pending ->
             ContentQueue.created_at r < cutoff' -> ContentQueue.created_at r < cutoff) ->
  rowcount cutoff' (expire_rows cutoff db) = 0 /\
  expire_rows cutoff' (expire_rows cutoff db) = expire_rows cutoff db.
Proof.
  intros Hsettled.
  assert (Forall (fun r => is_stale cutoff' r = false)
                 (List.map (expire_row cutoff) (content_queue db))) as Hnone.
  { apply Forall_forall. intros r' Hr'. apply list_elem_of_In in Hr'.
    apply in_map_iff in Hr' as (r & <- & Hr). apply expire_row_settled.
    apply Hsettled. by apply list_elem_of_In. }
  apply expire_rows_none in Hnone as [Hmap Hfilter].
  unfold rowcount, expire_rows. simpl. by rewrite Hfilter, Hmap.
Qed.

Lemma cleanup_expired_run (self : QueueManager.t) (now : Z) (db : Database)
    (tr : list Py.event) :
  cleanup_expired self now db tr
  = (Py.Return (rowcount (now - hours 48) db), expire_rows (now - hours 48) db,
     tr ++ (if 0 <? rowcount (now - hours 48) db
            then Py.logged (logger self)
                   (Py.log_system_event "Queue Cleanup"
                      ("Expired " +:+ pretty (rowcount (now - hours 48) db)
                       +:+ " old memes from queue"))
            else [])).
Proof.
  unfold cleanup_expired, Py.bind at 1. rewrite expire_run.
  unfold Py.bind. destruct (0 <? rowcount (now - hours 48) db).
  - by rewrite if_logger_run.
  - unfold Py.ret. by rewrite app_nil_r.
Qed.

(** X5: [cleanup_expired] expires the pending rows older than 48 hours; when it
    expires none it reports nothing. A second cleanup, at a time at which
    no further pending row is older than 48 hours, returns 0, changes
    nothing and reports nothing. *)
Theorem cleanup_expired_twice (self : QueueManager.t) (now now' : Z) (db : Database)
    (tr : list Py.event) :
  (forall r, r ∈ content_queue db -> ContentQueue.status r = pending ->
             ContentQueue.created_at r < now' - hours 48 ->
             ContentQueue.created_at r < now - hours 48) ->
  exists n db' evs,
    cleanup_expired self now db tr = (Py.Return n, db', tr ++ evs) /\
    (n = 0 -> evs = []) /\
    (logger self = None -> evs = []) /\
    cleanup_expired self now' db' (tr ++ evs) = (Py.Return 0, db', tr ++ evs).
Proof.
  intros Hsettled. rewrite cleanup_expired_run. do 3 eexists.
  split; [reflexivity|]. split; [by intros ->|]. split.
  { intros ->. by destruct (0 <? _). }
  rewrite cleanup_expired_run.
  destruct (expire_rows_settled (now - hours 48) (now' - hours 48) db Hsettled) as [-> ->].
  simpl. by rewrite app_nil_r.
Qed.

Lemma cleanup_expired_twice_witness :
  exists n db' evs,
    cleanup_expired (QueueManager.mk (Some Py.telegram_logger) 10 50)
      (hours 48 + seconds 1) Scenario.db_A_B [] = (Py.Return n, db', [] ++ evs) /\
    cleanup_expired (QueueManager.mk (Some Py.telegram_logger) 10 50)
      (hours 48 + seconds 1) db' ([] ++ evs) = (Py.Return 0, db', [] ++ evs).
Proof.
  destruct (cleanup_expired_twice (QueueManager.mk (Some Py.telegram_logger) 10 50)
              (hours 48 + seconds 1) (hours 48 + seconds 1) Scenario.db_A_B [])
    as (n & db' & evs & H1 & _ & _ & H2).
  - intros r _ _ H. exact H.
  - exists n, db', evs. split; [exact H1 | exact H2].
Defined.

End QueueManagerMore.

(** ** The circuit breaker and the fallback chain *)

Section CircuitBreakerMore.
Import APIFallbackStrategy.

Lemma reachable_config (s : t) :
  reachable s -> circuit_breaker_threshold s = 5 /\ circuit_breaker_timeout s = 300.
Proof. induction 1; done. Qed.

(** The open-circuit entries and the failure counts move together. *)
Lemma reachable_circuit_open (s : t) (service : string) :
  reachable s ->
  (is_Some (_circuit_open s !! service) <-> 5 <= get_failure_count s service) /\
  0 <= get_failure_count s service.
Proof.
  induction 1 as [lg | s svc tf to Hr [IH IH0] | s svc Hr [IH IH0]].
  - unfold get_failure_count. simpl. rewrite !lookup_empty. simpl.
    split; [|lia]. split; [by intros [? [=]] | lia].
  - destruct (reachable_config s Hr) as [Hthr _].
    unfold get_failure_count in *. simpl. rewrite Hthr.
    unfold get_failure_count.
    destruct (decide (svc = service)) as [->|Hne].
    + rewrite (lookup_insert_eq (_failure_counts s)). simpl.
      destruct (5 <=? default 0 (_failure_counts s !! service) + 1) eqn:Hc.
      * rewrite (lookup_insert_eq (_circuit_open s)).
        apply Z.leb_le in Hc. split; [|lia]. split; [done | eauto].
      * apply Z.leb_gt in Hc. split; [|lia]. rewrite IH. lia.
    + rewrite (lookup_insert_ne (_failure_counts s)) by done.
      destruct (5 <=? default 0 (_failure_counts s !! svc) + 1);
        rewrite ?(lookup_insert_ne (_circuit_open s)) by done; done.
  - unfold get_failure_count in *. simpl.
    destruct (decide (svc = service)) as [->|Hne].
    + rewrite lookup_insert_eq, lookup_delete_eq. simpl.
      split; [|lia]. split; [by intros [? [=]] | lia].
    + rewrite lookup_insert_ne, lookup_delete_ne by done. done.
Qed.

(** X6: In every state of the strategy object a service has an open-circuit
    entry exactly when its failure count is at least 5. A failure recorded
    while the circuit is open, the half-open trial included, opens it
    afresh: the service is then available again only once 300 s have
    passed since that failure. *)
Theorem circuit_reopens_on_failure (s : t) (service : string) (t_fail t_open now : Z) :
  reachable s ->
  (is_Some (_circuit_open s !! service) <-> 5 <= get_failure_count s service) /\
  (is_Some (_circuit_open s !! service) ->
   (is_available (record_failure service t_fail t_open s) service now = true
    <-> seconds 300 <= now - t_open)).
Proof.
  intros Hr. destruct (reachable_circuit_open s service Hr) as [Hinv Hpos].
  split; [exact Hinv|]. intros Hopen. apply Hinv in Hopen.
  destruct (reachable_config s Hr) as [Hthr Htmo].
  unfold is_available. rewrite record_failure_opens by lia. simpl.
  rewrite Htmo. apply Z.leb_le.
Qed.

Lemma circuit_reopens_on_failure_witness :
  let s := record_failures "groq" [(0, 1); (10, 11); (20, 21); (30, 31); (40, 41)] (init None) in
  is_available s "groq" (41 + seconds 300) = true /\
  (is_available (record_failure "groq" (50 + seconds 300) (51 + seconds 300) s) "groq"
     (52 + seconds 300) = true
   <-> seconds 300 <= 52 + seconds 300 - (51 + seconds 300)).
Proof.
  intros s. split; [reflexivity|].
  assert (reachable s) as Hr by (unfold s; simpl; repeat constructor).
  destruct (circuit_reopens_on_failure s "groq" (50 + seconds 300) (51 + seconds 300)
              (52 + seconds 300) Hr) as [_ Hre].
  apply Hre. by eexists.
Defined.

(** X7: What is recorded for one service leaves every other service as it
    was. *)
Theorem services_independent (s : t) (a b : string) (t_fail t_open now : Z) :
  a <> b ->
  get_failure_count (record_failure a t_fail t_open s) b = get_failure_count s b /\
  is_available (record_failure a t_fail t_open s) b now = is_available s b now /\
  get_failure_count (record_success a s) b = get_failure_count s b /\
  is_available (record_success a s) b now = is_available s b now.
Proof.
  intros Hne. unfold get_failure_count, is_available. simpl.
  rewrite !lookup_insert_ne, lookup_delete_ne by done.
  destruct (circuit_breaker_threshold s <=? get_failure_count s a + 1);
    rewrite ?(lookup_insert_ne (_circuit_open s)) by done; done.
Qed.

Lemma services_independent_witness :
  let s := record_failures "groq" [(0, 1); (10, 11); (20, 21); (30, 31)] (init None) in
  is_available (record_failure "groq" 40 41 s) "telegram" 50 = is_available s "telegram" 50 /\
  is_available (record_failure "groq" 40 41 s) "groq" 50 = false.
Proof.
  intros s. split; [|reflexivity].
  destruct (services_independent s "groq" "telegram" 40 41 50) as (_ & H & _); [done | exact H].
Defined.

End CircuitBreakerMore.

Section FallbackMore.
Import APIFallbackStrategy.
Context {A : Type}.

Lemma try_fallbacks_result (service : string) (fs : list (Py.outcome A)) :
  forall i s tr, exists evs,
    try_fallbacks service i fs s tr = (Py.Return (first_result fs), s, tr ++ evs) /\
    Py.criticals evs = [] /\
    (logger s = None -> evs = []).
Proof.
  induction fs as [|[v|e] fs IH]; intros i s tr.
  - exists []. by rewrite app_nil_r.
  - rewrite try_fallbacks_return. eexists. split; [reflexivity|].
    split; [by apply criticals_logged_other | by intros ->].
  - rewrite try_fallbacks_raise. simpl first_result.
    destruct (IH (i + 1) s (tr ++ Py.logged (logger s)
               (Py.log_warning ("Fallback #" +:+ pretty (i + 1) +:+ " Failed")
                  ("Service: " +:+ service +:+ Py.nl +:+ "Error: " +:+ Py.str e))))
      as (evs & -> & Hcrit & Hnone).
    eexists. rewrite <- app_assoc. split; [reflexivity|]. split.
    + rewrite criticals_app, Hcrit. by rewrite criticals_logged_other.
    + intros Hlg. rewrite (Hnone Hlg), Hlg. done.
Qed.

(** X8: [execute_with_fallback] never raises. With the circuit available and a
    primary that returns, it returns the primary's result and records a
    success; otherwise it returns the result of the first fallback that
    returns, or None when none does, having recorded one failure if the
    primary was called. Without a logger it leaves no trace. *)
Theorem execute_with_fallback_result (s : t) (primary : Py.outcome A)
    (fallbacks : list (Py.outcome A)) (service : string) (now t_fail t_open : Z)
    (tr : list Py.event) :
  exists evs,
    execute_with_fallback primary fallbacks service now t_fail t_open s tr
    = (Py.Return (if is_available s service now
                  then match primary with
                       | Py.Return v => Some v
                       | Py.Raise _ => first_result fallbacks
                       end
                  else first_result fallbacks),
       (if is_available s service now
        then match primary with
             | Py.Return _ => record_success service s
             | Py.Raise _ => record_failure service t_fail t_open s
             end
        else s),
       tr ++ evs) /\
    (logger s = None -> evs = []).
Proof.
  unfold execute_with_fallback, Py.bind at 1.
  destruct (is_available s service now) eqn:Hav; [destruct primary as [v|e]|].
  - rewrite try_primary_returns by done. exists []. by rewrite app_nil_r.
  - rewrite try_primary_raises by done.
    destruct (try_fallbacks_result service fallbacks 0 (record_failure service t_fail t_open s)
                (tr ++ Py.logged (logger s)
                   (Py.log_warning (service +:+ " Primary Failed")
                      ("Error: " +:+ Py.str e +:+ Py.nl +:+ "Trying fallbacks..."))))
      as (evs & Hloop & _ & Hnone).
    unfold callable in *. unfold Py.bind at 1. rewrite Hloop.
    destruct (first_result fallbacks).
    + eexists. rewrite <- app_assoc. split; [reflexivity|].
      intros Hlg. rewrite Hlg. by rewrite (Hnone Hlg).
    + unfold Py.bind, Py.get. rewrite if_logger_run.
      eexists. rewrite <- !app_assoc. split; [reflexivity|].
      intros Hlg. simpl logger. rewrite Hlg. by rewrite (Hnone Hlg).
  - rewrite try_primary_unavailable by done.
    destruct (try_fallbacks_result service fallbacks 0 s tr) as (evs & Hloop & _ & Hnone).
    unfold callable in *. unfold Py.bind at 1. rewrite Hloop.
    destruct (first_result fallbacks).
    + eexists. split; [reflexivity | exact Hnone].
    + unfold Py.bind, Py.get. rewrite if_logger_run.
      eexists. rewrite <- !app_assoc. split; [reflexivity|].
      intros Hlg. rewrite Hlg. by rewrite (Hnone Hlg).
Qed.

(** X9: A primary call that returns on an available circuit closes the circuit:
    the call returns its result without consulting any fallback and without
    any report, the failure count of the service is 0 and the service is
    available at any time. *)
Theorem execute_with_fallback_primary_success (s : t) (v : A)
    (fallbacks : list (Py.outcome A)) (service : string) (now t_fail t_open : Z)
    (tr : list Py.event) :
  is_available s service now = true ->
  exists s',
    execute_with_fallback (Py.Return v) fallbacks service now t_fail t_open s tr
      = (Py.Return (Some v), s', tr) /\
    get_failure_count s' service = 0 /\
    forall t, is_available s' service t = true.
Proof.
  intros Hav. exists (record_success service s).
  unfold execute_with_fallback, Py.bind. rewrite try_primary_returns by done.
  split; [reflexivity|]. split.
  - unfold get_failure_count. simpl. by rewrite lookup_insert_eq.
  - intros t0. apply is_available_closed. simpl. apply lookup_delete_eq.
Qed.

(** X10: While the circuit is unavailable the primary is not called: whatever
    the primary would do, the call has the same result and trace and
    leaves the strategy object untouched. *)
Theorem execute_with_fallback_open_skips_primary (s : t) (primary primary' : Py.outcome A)
    (fallbacks : list (Py.outcome A)) (service : string) (now t_fail t_open : Z)
    (tr : list Py.event) :
  is_available s service now = false ->
  execute_with_fallback primary fallbacks service now t_fail t_open s tr
  = execute_with_fallback primary' fallbacks service now t_fail t_open s tr /\
  exists r tr',
    execute_with_fallback primary fallbacks service now t_fail t_open s tr
    = (Py.Return r, s, tr').
Proof.
  intros Hav. split.
  - unfold execute_with_fallback. rewrite !bind_run.
    by rewrite !try_primary_unavailable by done.
  - destruct (try_fallbacks_result service fallbacks 0 s tr) as (evs & Hloop & _).
    unfold callable in *.
    destruct (first_result fallbacks); do 2 eexists;
      unfold execute_with_fallback, Py.bind at 1;
      rewrite try_primary_unavailable by done;
      unfold Py.bind at 1; rewrite Hloop.
    + reflexivity.
    + unfold Py.bind, Py.get. rewrite if_logger_run. reflexivity.
Qed.

End FallbackMore.

Lemma execute_with_fallback_primary_success_witness :
  let s := APIFallbackStrategy.record_failures "telegram"
             [(0, 1); (10, 11); (20, 21); (30, 31); (40, 41)]
             (APIFallbackStrategy.init (Some Py.telegram_logger)) in
  exists s',
    APIFallbackStrategy.execute_with_fallback (Py.Return 7) [Py.Return 8] "telegram"
      (41 + seconds 300) 0 0 s [] = (Py.Return (Some 7), s', []) /\
    APIFallbackStrategy.get_failure_count s' "telegram" = 0.
Proof.
  intros s.
  destruct (execute_with_fallback_primary_success s 7 [Py.Return 8] "telegram"
              (41 + seconds 300) 0 0 [] eq_refl) as (s' & Hrun & Hcnt & _).
  exists s'. split; [exact Hrun | exact Hcnt].
Defined.

Lemma execute_with_fallback_open_skips_primary_witness :
  let s := APIFallbackStrategy.record_failures "telegram"
             [(0, 1); (10, 11); (20, 21); (30, 31); (40, 41)]
             (APIFallbackStrategy.init None) in
  APIFallbackStrategy.execute_with_fallback (Py.Return 7) [Py.Return 8] "telegram" 50 51 52 s []
  = APIFallbackStrategy.execute_with_fallback (Py.Raise (Py.Exception "down")) [Py.Return 8]
      "telegram" 50 51 52 s [].
Proof.
  intros s.
  exact (proj1 (execute_with_fallback_open_skips_primary s (Py.Return 7)
                  (Py.Raise (Py.Exception "down")) [Py.Return 8] "telegram" 50 51 52 []
                  eq_refl)).
Defined.

(** ** The rate window *)

Section RateWindow.
Import RateLimitHandler.

Lemma filter_snoc_keep (f : Z -> bool) (l : list Z) (x : Z) :
  f x = true -> List.filter f (l ++ [x]) = List.filter f l ++ [x].
Proof. intros H. rewrite List.filter_app. simpl. by rewrite H. Qed.

Lemma minutes_5_pos (now : Z) : (now - minutes 5 <? now) = true.
Proof. apply Z.ltb_lt. unfold minutes, seconds. lia. Qed.

Lemma record_request_entry (service : string) (now : Z) (self : t) :
  exists entry,
    _usage (record_request service now self) !! service = Some entry /\
    requests entry
      = List.filter (fun r => now - minutes 5 <? r) (retained self service) ++ [now] /\
    (daily_count entry = 1 \/
     daily_count entry
       = match _usage self !! service with Some e => daily_count e | None => 0 end + 1).
Proof.
  eexists. simpl. rewrite lookup_insert_eq. split; [reflexivity|]. simpl. split.
  - unfold retained. rewrite filter_snoc_keep by apply minutes_5_pos.
    by destruct (_usage self !! service).
  - destruct (_usage self !! service); simpl;
      match goal with |- context [if ?b then _ else _] => destruct b end; auto.
Qed.

Lemma Forall_filter_Z (f : Z -> bool) (l : list Z) :
  Forall (fun r => f r = true) (List.filter f l).
Proof. apply Forall_forall. intros r Hr. apply list_elem_of_In, filter_In in Hr. tauto. Qed.

(** X11: In every state of the handler, a service with a usage entry has at
    least one retained request: the latest one recorded for it is the last
    of the list, every retained request is less than 5 minutes older than
    it, and the daily count is at least 1. *)
Theorem usage_entry_invariant (self : t) (service : string) (entry : Usage) :
  reachable self ->
  _usage self !! service = Some entry ->
  exists latest,
    last (requests entry) = Some latest /\
    Forall (fun r => latest - minutes 5 < r) (requests entry) /\
    1 <= daily_count entry.
Proof.
  intros Hr. revert entry.
  induction Hr as [lg | self svc now Hr IH]; intros entry Hent.
  - simpl in Hent. by rewrite lookup_empty in Hent.
  - destruct (decide (svc = service)) as [->|Hne].
    + destruct (record_request_entry service now self) as (e & He & Hreq & Hday).
      rewrite Hent in He. injection He as <-. exists now. rewrite Hreq.
      split; [apply last_snoc|]. split.
      * apply Forall_app. split.
        -- eapply Forall_impl; [apply Forall_filter_Z|]. intros r Hlt. simpl in Hlt.
           by apply Z.ltb_lt in Hlt.
        -- constructor; [|constructor]. unfold minutes, seconds. lia.
      * destruct Hday as [->| ->]; [lia|].
        destruct (_usage self !! service) as [e|] eqn:He; [|lia].
        destruct (IH e eq_refl) as (_ & _ & _ & H1). lia.
    + simpl in Hent. rewrite lookup_insert_ne in Hent by done. by apply IH.
Qed.

Lemma usage_entry_invariant_witness :
  exists entry latest,
    _usage (record_requests "groq" [seconds 1; seconds 400; seconds 420] (init None)) !! "groq"
      = Some entry /\
    last (requests entry) = Some latest /\
    requests entry = [seconds 400; seconds 420].
Proof.
  eexists. 
  destruct (usage_entry_invariant
              (record_requests "groq" [seconds 1; seconds 400; seconds 420] (init None))
              "groq" _ (reachable_record_requests _ _ _ (reach_init None)) eq_refl)
    as (latest & Hlast & _).
  exists latest. split; [reflexivity|]. split; [exact Hlast | reflexivity].
Defined.

Lemma retained_record_request (service : string) (now : Z) (self : t) :
  retained (record_request service now self) service
  = List.filter (fun r => now - minutes 5 <? r) (retained self service ++ [now]).
Proof.
  destruct (record_request_entry service now self) as (e & He & Hreq & _).
  unfold retained at 1. rewrite He, Hreq.
  by rewrite filter_snoc_keep by apply minutes_5_pos.
Qed.

Lemma filter_filter_implied (f g : Z -> bool) (l : list Z) :
  (forall r, f r = true -> g r = true) ->
  List.filter f (List.filter g l) = List.filter f l.
Proof.
  intros Himp. induction l as [|x l IH]; [reflexivity|].
  simpl. destruct (g x) eqn:Hg; simpl.
  - by rewrite IH.
  - destruct (f x) eqn:Hf; [|exact IH]. apply Himp in Hf. congruence.
Qed.

(** Pruning at 5 minutes never drops a request that a window of at most 5
    minutes, read no earlier than the recordings, still counts. *)
Lemma retained_in_window (service : string) (times : list Z) (now w : Z) :
  w <= minutes 5 ->
  Forall (fun t => t <= now) times ->
  forall self,
    List.filter (fun r => now - w <? r) (retained (record_requests service times self) service)
    = List.filter (fun r => now - w <? r) (retained self service ++ times).
Proof.
  intros Hw Hle. induction Hle as [|t times Ht _ IH]; intros self.
  - by rewrite app_nil_r.
  - simpl record_requests. rewrite IH, retained_record_request.
    replace (retained self service ++ t :: times)
      with ((retained self service ++ [t]) ++ times) by by rewrite <- app_assoc.
    rewrite (List.filter_app _ (List.filter _ _) times).
    rewrite (List.filter_app _ (retained self service ++ [t]) times).
    f_equal. apply filter_filter_implied.
    intros r Hr. apply Z.ltb_lt in Hr. apply Z.ltb_lt. lia.
Qed.

Lemma record_requests_limits (service : string) (times : list Z) (self : t) :
  _limits (record_requests service times self) = _limits self.
Proof. revert self. induction times as [|t times IH]; intros self; [done|]. simpl. by rewrite IH. Qed.

Lemma record_requests_entry (service : string) (times : list Z) (self : t) :
  times <> [] -> is_Some (_usage (record_requests service times self) !! service).
Proof.
  revert self. induction times as [|t times IH]; intros self Hne; [done|].
  simpl. destruct times as [|t' times].
  - simpl. rewrite lookup_insert_eq. eauto.
  - by apply IH.
Qed.

(** X12: After requests of a configured service have been recorded on a fresh
    handler, the usage read at a time no earlier than the recordings is the
    number of all recorded requests younger than one minute, over [rpm],
    times 100: the pruning of the window has lost none of them. *)
Theorem usage_counts_every_request_in_window (lg : option Py.TelegramLogger)
    (service : string) (lim : Limit) (times : list Z) (now : Z) :
  default_limits !! service = Some lim ->
  times <> [] ->
  Forall (fun t => t <= now) times ->
  get_usage_percentage (record_requests service times (init lg)) service now
  = Py.Return
      (inject_Z (Z.of_nat (length (List.filter (fun t => now - minutes 1 <? t) times)))
       / inject_Z (default 30%Z (rpm lim)) * inject_Z 100)%Q.
Proof.
  intros Hlim Hne Hle. unfold get_usage_percentage.
  rewrite record_requests_limits. simpl _limits. rewrite Hlim.
  destruct (record_requests_entry service times (init lg) Hne) as [entry Hent].
  rewrite Hent.
  pose proof (default_limits_rpm service lim Hlim) as Hrpm. apply Z.eqb_neq in Hrpm.
  rewrite Hrpm. do 4 f_equal.
  unfold recent. rewrite (default_limits_window service lim Hlim). simpl default.
  pose proof (retained_in_window service times now (minutes 1) ltac:(unfold minutes, seconds; lia)
                Hle (init lg)) as Hwin.
  unfold retained in Hwin. rewrite Hent in Hwin. simpl in Hwin.
  rewrite lookup_empty in Hwin. simpl in Hwin. by rewrite Hwin.
Qed.

Lemma usage_counts_every_request_in_window_witness :
  get_usage_percentage
    (record_requests "huggingface" [seconds 1; seconds 400; seconds 420; seconds 425]
       (init None)) "huggingface" (seconds 470)
  = Py.Return (inject_Z 2 / inject_Z 10 * inject_Z 100)%Q.
Proof.
  exact (usage_counts_every_request_in_window None "huggingface"
           (mkLimit (Some 10) None (Some 1))
           [seconds 1; seconds 400; seconds 420; seconds 425] (seconds 470)
           eq_refl ltac:(discriminate)
           ltac:(repeat constructor; vm_compute; discriminate)).
Defined.

End RateWindow.

(** ** Recovery, continued *)

Section RecoveryMore.
Import RecoveryManager.

(** X13: Once a registered action has succeeded, the next [attempt_recovery] for
    the component finds the counter at 0: it returns true, calls nothing
    and reports nothing. *)
Theorem attempt_recovery_after_success (s : t) (component : string) (tr : list Py.event) :
  0 < _max_failures s ->
  _max_failures s <= get_failure_count s component ->
  _recovery_actions s !! component = Some (Py.Return tt) ->
  exists s' evs,
    attempt_recovery component s tr = (Py.Return true, s', tr ++ evs) /\
    get_failure_count s' component = 0 /\
    attempt_recovery component s' (tr ++ evs) = (Py.Return true, s', tr ++ evs).
Proof.
  intros Hpos Hge Hact. rewrite attempt_recovery_triggered by done. rewrite Hact. simpl.
  do 2 eexists. rewrite <- app_assoc. split; [reflexivity|].
  assert (get_failure_count (record_success component s) component = 0) as Hzero.
  { unfold get_failure_count. simpl. by rewrite lookup_insert_eq. }
  split; [exact Hzero|].
  apply attempt_recovery_below. rewrite Hzero. exact Hpos.
Qed.

Lemma attempt_recovery_after_success_witness :
  let s := register_recovery "database" (Py.Return tt)
             (record_failures "database" 6 (init None)) in
  exists s' evs,
    attempt_recovery "database" s [] = (Py.Return true, s', [] ++ evs) /\
    attempt_recovery "database" s' ([] ++ evs) = (Py.Return true, s', [] ++ evs).
Proof.
  intros s.
  destruct (attempt_recovery_after_success s "database" []) as (s' & evs & H1 & _ & H2).
  - reflexivity.
  - vm_compute. discriminate.
  - reflexivity.
  - exists s', evs. split; [exact H1 | exact H2].
Defined.

(** What is recorded for one component leaves the failure count of every
    other component, and so what [attempt_recovery] does for it, as it
    was. *)
Theorem components_independent (s : t) (a b : string) (tr : list Py.event) :
  a <> b ->
  get_failure_count (record_failure a s) b = get_failure_count s b /\
  get_failure_count (record_success a s) b = get_failure_count s b /\
  (forall r s' tr',
     attempt_recovery b s tr = (r, s', tr') ->
     exists s1, attempt_recovery b (record_failure a s) tr = (r, s1, tr') /\
                get_failure_count s1 b = get_failure_count s' b).
Proof.
  intros Hne.
  assert (get_failure_count (record_failure a s) b = get_failure_count s b) as Hf.
  { unfold get_failure_count. simpl. by rewrite lookup_insert_ne. }
  split; [exact Hf|]. split.
  { unfold get_failure_count. simpl. by rewrite lookup_insert_ne. }
  intros r s' tr'.
  destruct (Z.lt_ge_cases (get_failure_count s b) (_max_failures s)) as [Hlt|Hge].
  - rewrite attempt_recovery_below by done. intros [= <- <- <-].
    exists (record_failure a s). split; [|exact Hf].
    apply attempt_recovery_below. simpl _max_failures. by rewrite Hf.
  - rewrite attempt_recovery_triggered by done.
    rewrite (attempt_recovery_triggered b (record_failure a s))
      by (simpl _max_failures; by rewrite Hf).
    rewrite Hf. simpl logger. simpl _recovery_actions.
    destruct (_recovery_actions s !! b) as [[[]|e]|]; simpl; intros [= <- <- <-].
    + eexists. split; [reflexivity|].
      unfold get_failure_count. simpl. by rewrite !lookup_insert_eq.
    + eexists. split; [reflexivity | exact Hf].
    + eexists. split; [reflexivity | exact Hf].
Qed.

Lemma components_independent_witness :
  let s := record_failures "database" 4 (init None) in
  get_failure_count (record_failure "groq" s) "database" = get_failure_count s "database".
Proof.
  intros s. by destruct (components_independent s "groq" "database" []) as [H _].
Defined.

End RecoveryMore.

(** ** The posting pipeline, continued *)

Section PostingMore.
Import DatabaseManager PostingPipeline.







(** X16: With nothing pending [publish_next] returns False and leaves the
    database as it was; its only effect is the "Queue Empty" warning when
    a logger is configured. No collaborator is consulted. *)
Theorem publish_next_empty_queue (self : PostingPipeline.t) (now : Z) (db : Database)
    (tr : list Py.event) :
  (forall x, x ∈ content_queue db -> ContentQueue.status x <> pending) ->
  publish_next self now db tr
  = (Py.Return false, db,
     tr ++ Py.logged (logger self)
             (Py.log_warning "Queue Empty" "No memes in queue to publish.")).
Proof.
  intros Hnone.
  destruct (next_from_queue_spec db) as (r & Hnext & Hspec).
  destruct r as [x|].
  - destruct Hspec as (Hin & Hp & _). exfalso.
    apply (Hnone x); [by apply list_elem_of_In | exact Hp].
  - unfold publish_next. rewrite bind_run, next_from_queue_run, Hnext.
    by rewrite bind_run, if_logger_run.
Qed.

Lemma publish_next_empty_queue_witness :
  publish_next (PostingPipeline.mk (Scenario.collaborators None) (Some Py.telegram_logger)) 5
    Scenario.empty_db []
  = (Py.Return false, Scenario.empty_db,
     [] ++ [Py.Logger (Py.log_warning "Queue Empty" "No memes in queue to publish.")]).
Proof.
  apply (publish_next_empty_queue
           (PostingPipeline.mk (Scenario.collaborators None) (Some Py.telegram_logger))).
  intros x Hx. by apply list_elem_of_In in Hx.
Defined.

End PostingMore.

Section PostingContent.
Import DatabaseManager PostingPipeline.

Lemma truthy_str_append_l (a b : string) :
  Py.truthy_str a = true -> Py.truthy_str (a +:+ b) = true.
Proof. by destruct a. Qed.

Lemma truthy_join_cons (sep a : string) (l : list string) :
  Py.truthy_str a = true -> Py.truthy_str (join sep (a :: l)) = true.
Proof. intros Ha. destruct l; [exact Ha|]. simpl. by apply truthy_str_append_l. Qed.

(** X17: The memes that can degrade to text: [_build_fallback_text] yields a
    non-empty text exactly for a drake meme with both texts non-empty, an
    expanding-brain meme with at least one panel, and a two-buttons meme
    with at least two panels. *)
Theorem build_fallback_text_truthy (meme : Meme.t) :
  truthy_opt_str (_build_fallback_text meme) = true <->
  (Meme.type meme = Some "drake" /\
   Py.truthy_str (default "" (Meme.text_top meme)) = true /\
   Py.truthy_str (default "" (Meme.text_bottom meme)) = true) \/
  (Meme.type meme = Some "expanding_brain" /\ default [] (Meme.panels meme) <> []) \/
  (Meme.type meme = Some "two_buttons" /\
   (2 <= length (default [] (Meme.panels meme)))%nat).
Proof.
  unfold _build_fallback_text.
  destruct (String.eqb (default "" (Meme.type meme)) "drake") eqn:Hd.
  { apply String.eqb_eq in Hd.
    assert (Meme.type meme = Some "drake") as Hty by (destruct (Meme.type meme); simpl in *; congruence).
    rewrite Hty.
    destruct (Py.truthy_str (default "" (Meme.text_top meme))) eqn:Ht;
      destruct (Py.truthy_str (default "" (Meme.text_bottom meme))) eqn:Hb; simpl;
      split; try done; try (intros _; left; done);
      intros [(_ & ? & ?) | [[[=] _] | [[=] _]]]; done. }
  destruct (String.eqb (default "" (Meme.type meme)) "expanding_brain") eqn:He.
  { apply String.eqb_eq in He.
    assert (Meme.type meme = Some "expanding_brain") as Hty
      by (destruct (Meme.type meme); simpl in *; congruence).
    rewrite Hty. destruct (default [] (Meme.panels meme)) as [|p0 panels].
    - simpl. split; [done|]. intros [([=] & _) | [[_ ?] | [[=] _]]]; done.
    - split; [intros _; right; left; done|]. intros _.
      unfold truthy_opt_str, brain_lines, emojis.
      cbn [List.firstn List.combine List.map fst snd].
      by apply truthy_join_cons. }
  destruct (String.eqb (default "" (Meme.type meme)) "two_buttons") eqn:Hb.
  { apply String.eqb_eq in Hb.
    assert (Meme.type meme = Some "two_buttons") as Hty
      by (destruct (Meme.type meme); simpl in *; congruence).
    rewrite Hty. destruct (default [] (Meme.panels meme)) as [|p0 [|p1 panels]]; simpl.
    - split; [done|]. intros [([=] & _) | [[[=] _] | [_ ?]]]. lia.
    - split; [done|]. intros [([=] & _) | [[[=] _] | [_ ?]]]. lia.
    - split; [|done]. intros _. right. right. split; [done | lia]. }
  apply String.eqb_neq in Hd, He, Hb. simpl. split; [done|].
  intros [(Hty & _) | [[Hty _] | [Hty _]]]; rewrite Hty in *; done.
Qed.

(** X18: A text meme, and a meme with an image attached, are published without
    the renderer: whatever the renderer would answer, the delivery has the
    same result, database and trace. *)
Theorem publish_item_renderer_unused (render render' : Meme.t -> Py.outcome (option string))
    (send_text : string -> Py.outcome (option Z))
    (send_image : string -> string -> Py.outcome (option Z))
    (link : Z -> string) (save_failure status_failure handler_failure : option Py.exn)
    (lg : option Py.TelegramLogger)
    (item : ContentQueue.t) (now : Z) (db : Database) (tr : list Py.event) :
  String.eqb (default "text_only" (Meme.type (ContentQueue.meme_data item))) "text_only" = true
  \/ truthy_opt_str (Meme.image_path (ContentQueue.meme_data item)) = true ->
  publish_item
    (PostingPipeline.mk
       (mkCollaborators render send_text send_image link
          save_failure status_failure handler_failure) lg)
    item now db tr
  = publish_item
      (PostingPipeline.mk
         (mkCollaborators render' send_text send_image link
            save_failure status_failure handler_failure) lg)
      item now db tr.
Proof.
  intros Hcase. unfold publish_item, delivery_sequence, Py.try_except.
  rewrite !bind_run.
  assert (deliver (PostingPipeline.mk
                     (mkCollaborators render send_text send_image link
                        save_failure status_failure handler_failure) lg)
                  item db tr
          = deliver (PostingPipeline.mk
                       (mkCollaborators render' send_text send_image link
                          save_failure status_failure handler_failure) lg)
                    item db tr) as ->.
  { unfold deliver. simpl collaborators.
    destruct (String.eqb _ "text_only"); [reflexivity|].
    destruct Hcase as [[=]|Himg]. rewrite !bind_run. by rewrite Himg. }
  reflexivity.
Qed.

Lemma publish_item_renderer_unused_witness :
  publish_item
    (PostingPipeline.mk
       (mkCollaborators (fun _ => Py.Raise (Py.Exception "renderer down"))
          (fun _ => Py.Return (Some 100)) (fun _ _ => Py.Return (Some 200))
          (fun _ => "") None None None) None)
    Scenario.item_A 5 Scenario.db_A_B []
  = publish_item
      (PostingPipeline.mk
         (mkCollaborators (fun _ => Py.Return None)
            (fun _ => Py.Return (Some 100)) (fun _ _ => Py.Return (Some 200))
            (fun _ => "") None None None) None)
      Scenario.item_A 5 Scenario.db_A_B [].
Proof.
  apply publish_item_renderer_unused. left. reflexivity.
Defined.

(** X19: A visual meme for which the renderer yields no image and which has no
    text fallback is rejected without the publisher being called: whatever
    the publisher would answer, the delivery returns False, commits status
    rejected and does nothing else. When the commit of that status write
    fails, the handler rejects the item and logs the failure; when the
    write of the handler fails too, its exception leaves the call with the
    database as it was. *)
Theorem publish_item_nothing_to_send (self : PostingPipeline.t) (item : ContentQueue.t)
    (now : Z) (rendered : option string) (db : Database) (tr : list Py.event) :
  String.eqb (default "text_only" (Meme.type (ContentQueue.meme_data item))) "text_only" = false ->
  truthy_opt_str (Meme.image_path (ContentQueue.meme_data item)) = false ->
  generate (collaborators self) (ContentQueue.meme_data item) = Py.Return rendered ->
  truthy_opt_str rendered = false ->
  truthy_opt_str (_build_fallback_text (ContentQueue.meme_data item)) = false ->
  publish_item self item now db tr
  = match status_write_failure (collaborators self),
          handler_write_failure (collaborators self) with
    | None, _ =>
        (Py.Return false, set_item_status (ContentQueue.id item) rejected db,
         tr ++ [Py.StatusCommit (ContentQueue.id item) rejected])
    | Some e, None =>
        (Py.Return false, set_item_status (ContentQueue.id item) rejected db,
         (tr ++ [Py.StatusCommit (ContentQueue.id item) rejected])
         ++ Py.logged (logger self) (Py.log_error "Publishing Pipeline Failed" e))
    | Some _, Some e' => (Py.Raise e', db, tr)
    end.
Proof.
  intros Hty Himg Hgen Hrend Hfb.
  unfold publish_item, delivery_sequence, Py.try_except, deliver.
  rewrite Hty, Himg. rewrite !bind_run. unfold Py.await at 1. rewrite Hgen.
  rewrite bind_run. unfold publish_visual. rewrite Hrend, Hfb.
  unfold Py.ret at 1 2. cbn beta iota. unfold record_delivery.
  change (Py.truthy_int None) with false. cbn iota.
  rewrite bind_run, update_queue_item_status_run.
  destruct (status_write_failure (collaborators self)) as [e|]; [|reflexivity].
  rewrite on_exception_run.
  by destruct (handler_write_failure (collaborators self)).
Qed.

Lemma publish_item_nothing_to_send_witness :
  let item := ContentQueue.mk 7 (Scenario.drake_meme "" "bottom") (inject_Z 1) 0 None pending in
  publish_item (PostingPipeline.mk (Scenario.collaborators None) None) item 5
    (mkDatabase [item] 8 [] 1) []
  = (Py.Return false, set_item_status 7 rejected (mkDatabase [item] 8 [] 1),
     [] ++ [Py.StatusCommit 7 rejected]).
Proof.
  intros item.
  exact (publish_item_nothing_to_send (PostingPipeline.mk (Scenario.collaborators None) None)
           item 5 None (mkDatabase [item] 8 [] 1) [] eq_refl eq_refl eq_refl eq_refl eq_refl).
Defined.

Lemma substring_length_le (n : nat) (s : string) :
  (String.length (String.substring 0 n s) <= n)%nat.
Proof.
  revert s. induction n as [|n IH]; intros s.
  - by destruct s.
  - destruct s as [|c s]; simpl; [lia|]. specialize (IH s). lia.
Qed.

(** The preview of a text meme is a prefix of its text, at most 300
    characters long, and the text itself when that is no longer. *)
Theorem content_preview_text_bound (meme : Meme.t) :
  String.eqb (default "text_only" (Meme.type meme)) "text_only" = true ->
  (String.length (_get_content_preview meme) <= 300)%nat /\
  String.prefix (_get_content_preview meme) (default "" (Meme.text meme)) = true /\
  ((String.length (default "" (Meme.text meme)) <= 300)%nat ->
   _get_content_preview meme = default "" (Meme.text meme)).
Proof.
  intros Hty. unfold _get_content_preview. rewrite Hty.
  split; [apply substring_length_le|].
  generalize (default "" (Meme.text meme)) as s. generalize 300%nat as n.
  intros n s. split.
  - revert s. induction n as [|n IH]; intros s; [by destruct s|].
    destruct s as [|c s]; [reflexivity|]. simpl.
    destruct (Ascii.ascii_dec c c); [apply IH | done].
  - revert s. induction n as [|n IH]; intros s Hlen.
    + destruct s; [reflexivity | simpl in Hlen; lia].
    + destruct s as [|c s]; [reflexivity|]. simpl in *. rewrite IH; [reflexivity | lia].
Qed.

Lemma content_preview_text_bound_witness :
  _get_content_preview (Scenario.text_meme "A") = "A".
Proof.
  apply (content_preview_text_bound (Scenario.text_meme "A") eq_refl). simpl. lia.
Defined.

End PostingContent.

(** ** The publisher's retry loop *)

Section Retry.
Import TelegramPublisher.
Context {S : Type}.

Lemma sleeps_app (tr1 tr2 : list Py.event) :
  Py.sleeps (tr1 ++ tr2) = Py.sleeps tr1 ++ Py.sleeps tr2.
Proof. unfold Py.sleeps. apply flat_map_app. Qed.

Lemma sleeps_logged (lg : option Py.TelegramLogger) (c : Py.log_call) :
  Py.sleeps (Py.logged lg c) = [].
Proof. by destruct lg. Qed.

(** Iterations that raise [TelegramError] before the last one only wait:
    iteration [k] is followed by a sleep of [2 ^ k] seconds. *)
Lemma retry_from_skip (self : t) (func : Z -> attempt) (m : nat) :
  forall (a : Z) (n : nat) (s : S) (tr : list Py.event),
    (forall k, a <= k < a + Z.of_nat m -> exists e, func k = TelegramError e) ->
    a + Z.of_nat m <= _max_retries self - 1 ->
    exists evs,
      retry_from self func a (m + n) s tr
        = retry_from self func (a + Z.of_nat m) n s (tr ++ evs) /\
      Py.sleeps evs = List.map (fun k => 2 ^ k) (seqZ a (Z.of_nat m)).
Proof.
  induction m as [|m IH]; intros a n s tr Hfail Hlast.
  - exists []. rewrite app_nil_r, Z.add_0_r. done.
  - destruct (Hfail a ltac:(lia)) as [e He].
    simpl retry_from. rewrite He.
    destruct (a =? _max_retries self - 1) eqn:Heq; [apply Z.eqb_eq in Heq; lia|].
    rewrite bind_run, if_logger_run. unfold Py.sleep. rewrite bind_run. unfold Py.emit at 1.
    destruct (IH (a + 1) n s
                ((tr ++ Py.logged (logger self)
                    (Py.log_warning ("Publish Attempt " +:+ pretty (a + 1) +:+ " Failed")
                       ("Error: " +:+ Py.str e +:+ Py.nl +:+
                        "Retry in " +:+ pretty (2 ^ a) +:+ "s...")))
                 ++ [Py.Sleep (2 ^ a)]))
      as (evs & Hrun & Hsl).
    { intros k Hk. apply Hfail. lia. }
    { lia. }
    rewrite Hrun.
    exists (Py.logged (logger self)
              (Py.log_warning ("Publish Attempt " +:+ pretty (a + 1) +:+ " Failed")
                 ("Error: " +:+ Py.str e +:+ Py.nl +:+
                  "Retry in " +:+ pretty (2 ^ a) +:+ "s..."))
            ++ [Py.Sleep (2 ^ a)] ++ evs).
    split.
    + replace (a + Z.of_nat (Datatypes.S m)) with (a + 1 + Z.of_nat m) by lia.
      by rewrite !app_assoc.
    + rewrite !sleeps_app, sleeps_logged, Hsl. simpl.
      rewrite (seqZ_cons a (Z.of_nat (Datatypes.S m))) by lia. simpl.
      repeat f_equal; lia.
Qed.

Lemma retry_skip_to (self : t) (func : Z -> attempt) (j : Z) (s : S) (tr : list Py.event) :
  0 <= j < _max_retries self ->
  (forall k, 0 <= k < j -> exists e, func k = TelegramError e) ->
  exists evs n,
    _retry self func s tr = retry_from self func j (Datatypes.S n) s (tr ++ evs) /\
    Py.sleeps evs = List.map (fun k => 2 ^ k) (seqZ 0 j).
Proof.
  intros Hj Hfail. unfold _retry.
  destruct (retry_from_skip self func (Z.to_nat j) 0
              (Datatypes.S (Z.to_nat (_max_retries self - 1 - j))) s tr)
    as (evs & Hrun & Hsl).
  { intros k Hk. apply Hfail. lia. }
  { lia. }
  exists evs, (Z.to_nat (_max_retries self - 1 - j)).
  replace (Z.to_nat (_max_retries self))
    with (Z.to_nat j + Datatypes.S (Z.to_nat (_max_retries self - 1 - j)))%nat by lia.
  rewrite Hrun. rewrite Z2Nat.id in * by lia. done.
Qed.

(** X20: [_retry] returns the id of the first call that succeeds, when the
    calls before it raised [TelegramError] and it comes within
    [_max_retries] calls; before it the loop has slept 1, 2, 4, ...
    seconds, once after each failed call. *)
Theorem retry_first_success (self : t) (func : Z -> attempt) (j message_id : Z) (s : S)
    (tr : list Py.event) :
  0 <= j < _max_retries self ->
  (forall k, 0 <= k < j -> exists e, func k = TelegramError e) ->
  func j = Sent message_id ->
  exists evs,
    _retry self func s tr = (Py.Return (Some message_id), s, tr ++ evs) /\
    Py.sleeps evs = List.map (fun k => 2 ^ k) (seqZ 0 j).
Proof.
  intros Hj Hfail Hsent.
  destruct (retry_skip_to self func j s tr Hj Hfail) as (evs & n & -> & Hsl).
  exists evs. simpl. by rewrite Hsent.
Qed.

(** X21: When every one of the [_max_retries] calls raises [TelegramError],
    [_retry] does not raise: it returns None, having slept after each call
    but the last and, with a logger, reported the last error as its final
    event. *)
Theorem retry_exhausted (self : t) (func : Z -> attempt) (s : S) (tr : list Py.event) :
  1 <= _max_retries self ->
  (forall k, 0 <= k < _max_retries self -> exists e, func k = TelegramError e) ->
  exists evs e,
    func (_max_retries self - 1) = TelegramError e /\
    _retry self func s tr
      = (Py.Return None, s,
         (tr ++ evs) ++ Py.logged (logger self) (Py.log_error "Publishing Failed" e)) /\
    Py.sleeps evs = List.map (fun k => 2 ^ k) (seqZ 0 (_max_retries self - 1)).
Proof.
  intros Hmax Hfail.
  destruct (retry_skip_to self func (_max_retries self - 1) s tr ltac:(lia))
    as (evs & n & -> & Hsl).
  { intros k Hk. apply Hfail. lia. }
  destruct (Hfail (_max_retries self - 1) ltac:(lia)) as [e He].
  exists evs, e. split; [exact He|]. split; [|exact Hsl].
  simpl. rewrite He, Z.eqb_refl. by rewrite bind_run, if_logger_run.
Qed.

(** X22: An exception other than [TelegramError] is not retried: it leaves
    [_retry] at once, after the sleeps of the failed calls before it. *)
Theorem retry_other_error_propagates (self : t) (func : Z -> attempt) (j : Z) (e : Py.exn)
    (s : S) (tr : list Py.event) :
  0 <= j < _max_retries self ->
  (forall k, 0 <= k < j -> exists e', func k = TelegramError e') ->
  func j = OtherError e ->
  exists evs,
    _retry self func s tr = (Py.Raise e, s, tr ++ evs) /\
    Py.sleeps evs = List.map (fun k => 2 ^ k) (seqZ 0 j).
Proof.
  intros Hj Hfail Hother.
  destruct (retry_skip_to self func j s tr Hj Hfail) as (evs & n & -> & Hsl).
  exists evs. simpl. by rewrite Hother.
Qed.

(** X23: [publish_image] for a file that does not exist raises
    [FileNotFoundError] at once: the bot is not called and nothing is
    slept or reported. *)
Theorem publish_image_missing_file (self : t) (path_exists : string -> Z -> bool)
    (send_photo : string -> string -> Z -> attempt) (image_path caption : string)
    (s : S) (tr : list Py.event) :
  1 <= _max_retries self ->
  path_exists image_path 0 = false ->
  publish_image self path_exists send_photo image_path caption s tr
  = (Py.Raise (Py.Exception ("Image not found: " +:+ image_path)), s, tr).
Proof.
  intros Hmax Hmiss. unfold publish_image, _retry.
  destruct (Z.to_nat (_max_retries self)) as [|n] eqn:Hn; [lia|].
  simpl. unfold _send_image. by rewrite Hmiss.
Qed.

End Retry.

Lemma retry_first_success_witness :
  exists evs,
    TelegramPublisher._retry (S := unit) (TelegramPublisher.init None "@memes")
      (fun k => if k <? 2 then TelegramPublisher.TelegramError (Py.Exception "flood")
                else TelegramPublisher.Sent 42) tt []
    = (Py.Return (Some 42), tt, [] ++ evs) /\
    Py.sleeps evs = [1; 2].
Proof.
  apply (retry_first_success (TelegramPublisher.init None "@memes") _ 2 42 tt []).
  - simpl. lia.
  - intros k Hk. exists (Py.Exception "flood").
    destruct (k <? 2) eqn:Hlt; [reflexivity | apply Z.ltb_ge in Hlt; lia].
  - reflexivity.
Defined.

Lemma retry_exhausted_witness :
  exists evs e,
    TelegramPublisher._retry (S := unit) (TelegramPublisher.init (Some Py.telegram_logger) "@memes")
      (fun _ => TelegramPublisher.TelegramError (Py.Exception "flood")) tt []
    = (Py.Return None, tt,
       ([] ++ evs) ++ [Py.Logger (Py.log_error "Publishing Failed" e)]) /\
    Py.sleeps evs = [1; 2].
Proof.
  destruct (retry_exhausted (TelegramPublisher.init (Some Py.telegram_logger) "@memes")
              (fun _ => TelegramPublisher.TelegramError (Py.Exception "flood")) tt [])
    as (evs & e & _ & Hrun & Hsl).
  - simpl. lia.
  - intros k _. by eexists.
  - exists evs, e. split; [exact Hrun | exact Hsl].
Defined.

Lemma retry_other_error_propagates_witness :
  exists evs,
    TelegramPublisher._retry (S := unit) (TelegramPublisher.init None "@memes")
      (fun k => if k <? 1 then TelegramPublisher.TelegramError (Py.Exception "flood")
                else TelegramPublisher.OtherError (Py.Exception "bad token")) tt []
    = (Py.Raise (Py.Exception "bad token"), tt, [] ++ evs) /\
    Py.sleeps evs = [1].
Proof.
  apply (retry_other_error_propagates (TelegramPublisher.init None "@memes") _ 1
           (Py.Exception "bad token") tt []).
  - simpl. lia.
  - intros k Hk. exists (Py.Exception "flood").
    destruct (k <? 1) eqn:Hlt; [reflexivity | apply Z.ltb_ge in Hlt; lia].
  - reflexivity.
Defined.

Lemma publish_image_missing_file_witness :
  TelegramPublisher.publish_image (S := unit) (TelegramPublisher.init None "@memes")
    (fun _ _ => false) (fun _ _ _ => TelegramPublisher.Sent 1) "meme.jpg" "" tt []
  = (Py.Raise (Py.Exception "Image not found: meme.jpg"), tt, []).
Proof.
  apply (publish_image_missing_file (TelegramPublisher.init None "@memes")); [simpl; lia|].
  reflexivity.
Defined.

(** ** Text helpers *)

Section TextHelpers.
Import Helpers.

Lemma string_length_append (a b : string) :
  String.length (a +:+ b) = (String.length a + String.length b)%nat.
Proof. induction a as [|c a IH]; simpl; [reflexivity | by rewrite IH]. Qed.

Lemma substring_0_length (n : nat) (s : string) :
  String.length (String.substring 0 n s) = Nat.min n (String.length s).
Proof.
  revert s. induction n as [|n IH]; intros s; [by destruct s|].
  destruct s as [|c s]; simpl; [reflexivity | by rewrite IH].
Qed.

(** X24: With a limit of at least 3, [truncate] returns a text within the
    limit: the text itself when it fits, and otherwise its first
    [max_len - 3] characters followed by three dots. *)
Theorem truncate_within_limit (text : string) (max_len : Z) :
  3 <= max_len ->
  Z.of_nat (String.length (truncate text max_len)) <= max_len /\
  (Z.of_nat (String.length text) <= max_len -> truncate text max_len = text) /\
  (max_len < Z.of_nat (String.length text) ->
   truncate text max_len = String.substring 0 (Z.to_nat (max_len - 3)) text +:+ "..." /\
   Z.of_nat (String.length (truncate text max_len)) = max_len).
Proof.
  intros Hmax. unfold truncate, slice_to.
  destruct (Z.of_nat (String.length text) <=? max_len) eqn:Hfit.
  - apply Z.leb_le in Hfit. split; [exact Hfit|]. split; [done | lia].
  - apply Z.leb_gt in Hfit.
    destruct (0 <=? max_len - 3) eqn:Hk; [|apply Z.leb_gt in Hk; lia].
    rewrite string_length_append, substring_0_length. simpl.
    split; [lia|]. split; [lia|]. intros _. split; [reflexivity | lia].
Qed.

Lemma truncate_within_limit_witness :
  truncate "a long preview text" 10 = "a long ..." /\
  truncate "short" 10 = "short".
Proof.
  destruct (truncate_within_limit "a long preview text" 10 ltac:(lia)) as (_ & _ & Hcut).
  destruct (truncate_within_limit "short" 10 ltac:(lia)) as (_ & Hfit & _).
  split.
  - destruct Hcut as [-> _]; [simpl; lia | reflexivity].
  - apply Hfit. simpl. lia.
Defined.

(** X25: With a limit below 3 the slice index is negative and counts from the
    end of the text: a text longer than the limit comes back longer than
    the limit, with [max(0, len + max_len - 3) + 3] characters. *)
Theorem truncate_small_limit (text : string) (max_len : Z) :
  max_len < 3 ->
  max_len < Z.of_nat (String.length text) ->
  Z.of_nat (String.length (truncate text max_len))
    = Z.max 0 (Z.of_nat (String.length text) + max_len - 3) + 3 /\
  max_len < Z.of_nat (String.length (truncate text max_len)).
Proof.
  intros Hsmall Hlong. unfold truncate, slice_to.
  destruct (Z.of_nat (String.length text) <=? max_len) eqn:Hfit;
    [apply Z.leb_le in Hfit; lia|].
  destruct (0 <=? max_len - 3) eqn:Hk; [apply Z.leb_le in Hk; lia|].
  rewrite string_length_append, substring_0_length. simpl. lia.
Qed.

Lemma truncate_small_limit_witness :
  truncate "abcdefgh" 2 = "abcdefg..." /\
  2 < Z.of_nat (String.length (truncate "abcdefgh" 2)).
Proof.
  split; [reflexivity|].
  apply (truncate_small_limit "abcdefgh" 2); simpl; lia.
Defined.

End TextHelpers.

(** ** The job registry of the scheduler *)

Section JobRegistry.
Import DynamicScheduler.




Lemma remove_posting_jobs_lookup (s : t) (key : string) :
  _jobs (remove_posting_jobs s) !! key
  = if is_posting_job key then None else _jobs s !! key.
Proof.
  simpl. destruct (is_posting_job key) eqn:Hp.
  - apply map_lookup_filter_None. right. intros x _. simpl. congruence.
  - destruct (_jobs s !! key) as [x|] eqn:Hx.
    + apply map_lookup_filter_Some. done.
    + apply map_lookup_filter_None. by left.
Qed.

Lemma remove_posting_jobs_scheduler (s : t) (key : string) :
  scheduler_jobs (remove_posting_jobs s) !! key
  = if is_posting_job key && bool_decide (is_Some (_jobs s !! key))
    then None else scheduler_jobs s !! key.
Proof.
  simpl. destruct (is_posting_job key) eqn:Hp; simpl.
  - case_bool_decide as Hs.
    + apply map_lookup_filter_None. right. intros x _. simpl. intros [?|Hn]; [congruence|].
      rewrite Hn in Hs. by destruct Hs.
    + destruct (scheduler_jobs s !! key) as [x|] eqn:Hx.
      * apply map_lookup_filter_Some. split; [done|]. simpl. right.
        by apply eq_None_not_Some.
      * apply map_lookup_filter_None. by left.
  - destruct (scheduler_jobs s !! key) as [x|] eqn:Hx.
    + apply map_lookup_filter_Some. split; [done|]. simpl. by left.
    + apply map_lookup_filter_None. by left.
Qed.

Lemma in_sync_remove_posting_jobs (s : t) : in_sync s -> in_sync (remove_posting_jobs s).
Proof.
  intros Hs key. rewrite remove_posting_jobs_lookup, remove_posting_jobs_scheduler.
  destruct (is_posting_job key); simpl; [|apply Hs].
  case_bool_decide as Hk; [done|].
  split; [by intros [? [=]]|]. intros Hsome. apply Hs in Hsome. done.
Qed.

Lemma in_sync_register (job_id fn : string) (trg : Trigger) (d : string) (s : t) :
  in_sync s -> in_sync (register job_id fn trg d s).
Proof.
  intros Hs key. simpl. destruct (decide (job_id = key)) as [->|Hne].
  - rewrite !lookup_insert_eq. split; eauto.
  - rewrite !lookup_insert_ne by done. apply Hs.
Qed.

Lemma add_posting_from_in_sync (cron_at : string -> Py.outcome Trigger) (fn : string)
    (times : list string) :
  forall i s tr, in_sync s ->
    exists r s', add_posting_from cron_at fn i times s tr = (r, s', tr) /\ in_sync s'.
Proof.
  induction times as [|time_str rest IH]; intros i s tr Hs.
  - by exists (Py.Return tt), s.
  - simpl. rewrite bind_run. unfold Py.await at 1.
    destruct (cron_at time_str) as [trg|e]; [|by exists (Py.Raise e), s].
    rewrite bind_run. unfold Py.modify at 1.
    apply IH. by apply in_sync_register.
Qed.

(** X26: The descriptions returned by [get_scheduled_jobs] and the jobs held by
    the scheduler stay in step: starting in step, they are in step after
    any registration and after [add_posting_jobs] and
    [update_posting_times], also when those raise on a malformed time. *)
Theorem job_registry_in_sync (cron_at : string -> Py.outcome Trigger) (fn : string)
    (times : list string) (s : t) (tr : list Py.event) :
  in_sync s ->
  (forall job_id trg d, in_sync (register job_id fn trg d s)) /\
  (exists r s', add_posting_jobs cron_at fn times s tr = (r, s', tr) /\ in_sync s') /\
  (exists r s', update_posting_times cron_at fn times s tr = (r, s', tr) /\ in_sync s').
Proof.
  intros Hs. split; [|split].
  - intros job_id trg d. by apply in_sync_register.
  - by apply add_posting_from_in_sync.
  - unfold update_posting_times. rewrite bind_run. unfold Py.modify at 1.
    apply add_posting_from_in_sync. by apply in_sync_remove_posting_jobs.
Qed.

Lemma job_registry_in_sync_witness :
  exists r s',
    update_posting_times (fun _ => Py.Raise (Py.Exception "invalid literal for int()"))
      "scheduled_publish" ["9 o'clock"]
      (add_health_check "run_health_check" 5 (init None)) []
    = (r, s', []) /\ in_sync s'.
Proof.
  apply (job_registry_in_sync _ "scheduled_publish" ["9 o'clock"]
           (add_health_check "run_health_check" 5 (init None)) []).
  apply in_sync_register. intros key. simpl. by rewrite !lookup_empty.
Defined.







End JobRegistry.

(** ** The health sweep *)

Section Health.
Import HealthMonitor.

Lemma run_health_check_run (fl : FloatOps) (p : Probes) (now : Z) (s : t)
    (tr : list Py.event) :
  run_health_check fl p now s tr
  = (Py.Return (collect fl p now s),
     mk (logger s) (_start_time s) (_last_successful_post s) (Some (collect fl p now s)),
     tr ++ match critical_down (collect fl p now s) with
           | _ :: _ =>
               Py.logged (logger s)
                 (Py.log_critical "Critical Components Down"
                    ("Failed components:" +:+ Py.nl +:+
                     PostingPipeline.join Py.nl
                       (List.map (fun c => "  ❌ " +:+ c)
                                 (critical_down (collect fl p now s))) +:+
                     Py.nl +:+ Py.nl +:+ "Full status:" +:+ Py.nl +:+
                     _format_status fl (collect fl p now s)))
           | [] =>
               if negb (groq_api (collect fl p now s) && queue_healthy (collect fl p now s))
               then Py.logged (logger s)
                      (Py.log_warning "Health Check Warning"
                         ("Some components degraded:" +:+ Py.nl +:+
                          _format_status fl (collect fl p now s)))
               else []
           end).
Proof.
  unfold run_health_check. rewrite bind_run. unfold Py.get at 1.
  rewrite bind_run. unfold Py.put at 1. rewrite bind_run.
  destruct (critical_down (collect fl p now s)) as [|c l].
  - destruct (negb _).
    + by rewrite if_logger_run.
    + unfold Py.ret. by rewrite app_nil_r.
  - by rewrite if_logger_run.
Qed.

Lemma critical_down_nil (checks : Checks) :
  critical_down checks = [] <-> database checks = true /\ telegram_api checks = true.
Proof.
  unfold critical_down. destruct (database checks), (telegram_api checks); simpl;
    split; try done; intros [? ?]; done.
Qed.

(** X29: [run_health_check] never raises, whatever the probes do, and stores
    the snapshot it returns. It reports at top severity exactly when the
    database probe raised or the publisher probe failed or raised;
    otherwise it reports a warning exactly when the Groq probe failed or
    raised, the second size probe raised, or fewer than 5 items are
    pending; otherwise it reports nothing. The time since the last post
    enters the snapshot but never the severity, and without a logger
    nothing is reported. *)
Theorem run_health_check_severity (fl : FloatOps) (p : Probes) (now : Z) (s : t)
    (tr : list Py.event) :
  exists checks s' evs,
    run_health_check fl p now s tr = (Py.Return checks, s', tr ++ evs) /\
    _last_health_check s' = Some checks /\
    (database checks = true <-> exists n, db_get_queue_size p = Py.Return n) /\
    (telegram_api checks = true <-> publisher_check_health p = Py.Return true) /\
    (groq_api checks = true <-> groq_check_health p = Py.Return true) /\
    (queue_healthy checks = true <->
     exists n, db_get_queue_size_again p = Py.Return n /\ 5 <= n) /\
    (logger s = None -> evs = []) /\
    (forall lg, logger s = Some lg ->
       (database checks = false \/ telegram_api checks = false ->
        exists details, evs = [Py.Logger (Py.log_critical "Critical Components Down" details)]) /\
       (database checks = true -> telegram_api checks = true ->
        groq_api checks = false \/ queue_healthy checks = false ->
        exists details, evs = [Py.Logger (Py.log_warning "Health Check Warning" details)]) /\
       (database checks = true -> telegram_api checks = true ->
        groq_api checks = true -> queue_healthy checks = true -> evs = [])).
Proof.
  rewrite run_health_check_run. do 3 eexists. split; [reflexivity|].
  split; [reflexivity|]. simpl.
  split. { destruct (db_get_queue_size p); simpl; split; eauto; try done. by intros [? [=]]. }
  split. { destruct (publisher_check_health p) as [[]|]; simpl; split; congruence. }
  split. { destruct (groq_check_health p) as [[]|]; simpl; split; congruence. }
  split.
  { destruct (db_get_queue_size_again p) as [n|e]; simpl.
    - rewrite Z.leb_le. split; [eauto|]. by intros (? & [= <-] & ?).
    - split; [done|]. by intros (? & [=] & _). }
  pose proof (critical_down_nil (collect fl p now s)) as Hnil.
  split.
  { intros ->. destruct (critical_down _); [|done]. by destruct (negb _). }
  intros lg ->. split; [|split].
  - intros Hdown. destruct (critical_down (collect fl p now s)) as [|c l] eqn:Hc.
    + destruct Hnil as [Hnil _]. destruct (Hnil eq_refl) as [H1 H2]. simpl in *.
      destruct Hdown; congruence.
    + eauto.
  - intros Hdb Htg Hdeg. destruct Hnil as [_ Hnil]. rewrite (Hnil (conj Hdb Htg)).
    simpl in *. destruct Hdeg as [-> | ->]; rewrite ?andb_false_r; simpl; eauto.
  - intros Hdb Htg Hgr Hq. destruct Hnil as [_ Hnil]. rewrite (Hnil (conj Hdb Htg)).
    simpl in *. by rewrite Hgr, Hq.
Qed.

Lemma run_health_check_severity_witness :
  let fl := mkFloatOps (fun q => q) (fun _ => "13.0") in
  let p := mkProbes (Py.Return 7) (Py.Return true) (Py.Return true) (Py.Return 7) in
  let s := record_successful_post 0 (init (Some Py.telegram_logger) 0) in
  exists checks s',
    run_health_check fl p (hours 13) s [] = (Py.Return checks, s', [] ++ []) /\
    last_post_recent checks = false.
Proof.
  intros fl p s.
  destruct (run_health_check_severity fl p (hours 13) s [])
    as (checks & s' & evs & Hrun & _ & _ & _ & _ & _ & _ & Hlog).
  assert (checks = collect fl p (hours 13) s) as Hc.
  { rewrite run_health_check_run in Hrun. by injection Hrun as <-. }
  destruct (Hlog Py.telegram_logger eq_refl) as (_ & _ & Hquiet).
  rewrite Hquiet in Hrun by (rewrite Hc; reflexivity).
  exists checks, s'. split; [exact Hrun|]. rewrite Hc. reflexivity.
Defined.

(** X30: [uptime_formatted] splits the whole seconds of uptime into days, hours
    below 24 and minutes below 60, which together fall short of the uptime
    by less than a minute; the days are shown only when positive. *)
Theorem uptime_formatted_parts (s : t) (now : Z) :
  exists days hours minutes,
    0 <= hours < 24 /\ 0 <= minutes < 60 /\
    0 <= uptime_seconds s now - (days * 86400 + hours * 3600 + minutes * 60) < 60 /\
    uptime_formatted s now
      = if 0 <? days
        then pretty days +:+ "d " +:+ pretty hours +:+ "h " +:+ pretty minutes +:+ "m"
        else pretty hours +:+ "h " +:+ pretty minutes +:+ "m".
Proof.
  unfold uptime_formatted. set (secs := uptime_seconds s now).
  exists (secs / 86400), (secs mod 86400 / 3600), (secs mod 3600 / 60).
  split; [|split; [|split; [|reflexivity]]].
  - pose proof (Z.mod_pos_bound secs 86400 ltac:(lia)).
    split; [apply Z.div_pos; lia | apply Z.div_lt_upper_bound; lia].
  - pose proof (Z.mod_pos_bound secs 3600 ltac:(lia)).
    split; [apply Z.div_pos; lia | apply Z.div_lt_upper_bound; lia].
  - pose proof (Z.div_mod secs 86400 ltac:(lia)).
    pose proof (Z.div_mod (secs mod 86400) 3600 ltac:(lia)).
    pose proof (Z.div_mod (secs mod 3600) 60 ltac:(lia)).
    pose proof (Z.mod_pos_bound (secs mod 3600) 60 ltac:(lia)).
    assert ((secs mod 86400) mod 3600 = secs mod 3600) as Hmm.
    { apply (Z.mod_unique_pos _ _ (secs mod 86400 / 3600 + 24 * (secs / 86400)));
        [apply Z.mod_pos_bound; lia | lia]. }
    lia.
Qed.

End Health.
